(** * Session manager of logging.email: risk scoring, refresh-token rotation,
      revocation and the Redis mirror

    Shallow embedding of [backend/lib/services/session.py] together with the
    parts of [backend/lib/utils/cache.py] and [backend/models/models.py] it
    relies on.

    Conventions.
    - An instant ([datetime]) is an integer number of microseconds; a
      nullable TIMESTAMP column is an [option Z].
    - The tables [sessions], [refresh_tokens] and [security_events] are lists
      of rows in insertion order.  An ORM object is the record of its column
      values; a commit writes the object back over the row with the same
      primary key.  Where a call overlaps the commit of another, the write
      is taken attribute by attribute ([flush_session], [flush_token]).
    - [uuid.uuid4()] and [secrets.token_urlsafe(32)] are inputs of the
      operation that draws them.
    - The readings of [datetime.utcnow()] taken during one call are one
      instant [now], an input of the call.
    - An Integer column holds an unbounded [Z], a String column a Python
      value ([pyval]) as the ORM attribute holds it before the flush.  What
      the database does to a value that does not fit its column (the range
      check of an Integer, the length limit of a String, the conversion of a
      number to text by a String column) is outside the model: the
      statements are about risk scores within the range of the column and
      about device ids, client ids and addresses that are [str] or [None]
      and fit their columns, as the callers pass them.
    - A [str] is held as its UTF-8 text, a [string] of bytes; its characters
      are counted and sliced by [str_len] and [str_take]. *)

From stdpp Require Import gmap strings list.
From Stdlib Require Import ZArith Lia.

Local Open Scope string_scope.
Local Open Scope Z_scope.

(** ** Python values that occur in a request context and in nullable columns *)

Inductive pyval :=
| PyNone
| PyInt (z : Z)
| PyStr (s : string).

#[global] Instance pyval_eq_dec : EqDecision pyval.
Proof. solve_decision. Defined.

(** Truth value testing: [None], [0] and the empty string are false. *)
Definition truthy (v : pyval) : bool :=
  match v with
  | PyNone => false
  | PyInt z => negb (z =? 0)
  | PyStr s => negb (String.eqb s "")
  end.

(** [a == b] and [a != b] *)
Definition py_eq (a b : pyval) : bool := bool_decide (a = b).
Definition py_ne (a b : pyval) : bool := negb (py_eq a b).

(** A request context is a [dict] with string keys. *)
Abbreviation dict := (gmap string pyval).

(** [d.get(k)] *)
Definition get (d : dict) (k : string) : pyval := default PyNone (d !! k).

(** [d.get(k, dflt)] *)
Definition get_or (d : dict) (k : string) (dflt : pyval) : pyval :=
  default dflt (d !! k).

(** ** Characters of a [str]

    In UTF-8 a character is a leading byte followed by its continuation
    bytes, the bytes of the form 10xxxxxx. *)

Definition is_continuation (c : Ascii.ascii) : bool :=
  let n := Ascii.N_of_ascii c in
  ((128 <=? n) && (n <? 192))%N.

(** [len(s)] *)
Fixpoint str_len (s : string) : nat :=
  match s with
  | EmptyString => O
  | String c rest => if is_continuation c then str_len rest else S (str_len rest)
  end.

(** [s[:n]]: the first [n] characters of [s], each with all of its bytes. *)
Fixpoint str_take (n : nat) (s : string) : string :=
  match s with
  | EmptyString => EmptyString
  | String c rest =>
      if is_continuation c then String c (str_take n rest)
      else match n with
           | O => EmptyString
           | S k => String c (str_take k rest)
           end
  end.

(** ** hashlib.sha256 *)

Module Hashlib.

Definition w32 (x : Z) : Z := Z.land x 0xffffffff.
Definition add32 (x y : Z) : Z := w32 (x + y).
Definition rotr (n x : Z) : Z := Z.lor (Z.shiftr x n) (w32 (Z.shiftl x (32 - n))).
Definition not32 (x : Z) : Z := Z.lxor x 0xffffffff.

Definition ch (x y z : Z) : Z := Z.lxor (Z.land x y) (Z.land (not32 x) z).
Definition maj (x y z : Z) : Z :=
  Z.lxor (Z.lxor (Z.land x y) (Z.land x z)) (Z.land y z).
Definition bsig0 (x : Z) : Z := Z.lxor (Z.lxor (rotr 2 x) (rotr 13 x)) (rotr 22 x).
Definition bsig1 (x : Z) : Z := Z.lxor (Z.lxor (rotr 6 x) (rotr 11 x)) (rotr 25 x).
Definition ssig0 (x : Z) : Z := Z.lxor (Z.lxor (rotr 7 x) (rotr 18 x)) (Z.shiftr x 3).
Definition ssig1 (x : Z) : Z := Z.lxor (Z.lxor (rotr 17 x) (rotr 19 x)) (Z.shiftr x 10).

(** Value of a lowercase hexadecimal digit. *)
Definition hex_value (c : Ascii.ascii) : Z :=
  let n := Z.of_N (Ascii.N_of_ascii c) in
  if n <? 58 then n - 48 else n - 87.

(** The 32-bit words written in hexadecimal in [s], separated by spaces. *)
Fixpoint hex_words (s : string) (acc : Z) : list Z :=
  match s with
  | EmptyString => [acc]
  | String c rest =>
      if Ascii.eqb c (Ascii.ascii_of_N 32) then acc :: hex_words rest 0
      else hex_words rest (16 * acc + hex_value c)
  end.

(** Round constants (FIPS 180-4, section 4.2.2). *)
Definition K : list Z :=
  hex_words
    ("428a2f98 71374491 b5c0fbcf e9b5dba5 3956c25b 59f111f1 923f82a4 ab1c5ed5 " +:+
     "d807aa98 12835b01 243185be 550c7dc3 72be5d74 80deb1fe 9bdc06a7 c19bf174 " +:+
     "e49b69c1 efbe4786 0fc19dc6 240ca1cc 2de92c6f 4a7484aa 5cb0a9dc 76f988da " +:+
     "983e5152 a831c66d b00327c8 bf597fc7 c6e00bf3 d5a79147 06ca6351 14292967 " +:+
     "27b70a85 2e1b2138 4d2c6dfc 53380d13 650a7354 766a0abb 81c2c92e 92722c85 " +:+
     "a2bfe8a1 a81a664b c24b8b70 c76c51a3 d192e819 d6990624 f40e3585 106aa070 " +:+
     "19a4c116 1e376c08 2748774c 34b0bcb5 391c0cb3 4ed8aa4a 5b9cca4f 682e6ff3 " +:+
     "748f82ee 78a5636f 84c87814 8cc70208 90befffa a4506ceb bef9a3f7 c67178f2")
    0.

(** Initial hash value (FIPS 180-4, section 5.3.3). *)
Definition H0 : list Z :=
  hex_words "6a09e667 bb67ae85 3c6ef372 a54ff53a 510e527f 9b05688c 1f83d9ab 5be0cd19" 0.

(** The bytes of a [str] after [.encode()]: a [string] is its UTF-8 text. *)
Definition encode (s : string) : list Z :=
  map (fun a => Z.of_N (Ascii.N_of_ascii a)) (String.list_ascii_of_string s).

(** Big-endian bytes of [x], [n] of them. *)
Fixpoint be_bytes (n : nat) (x : Z) : list Z :=
  match n with
  | O => []
  | S k => Z.land (Z.shiftr x (8 * Z.of_nat k)) 0xff :: be_bytes k x
  end.

Definition pad (msg : list Z) : list Z :=
  let len := Z.of_nat (length msg) in
  msg ++ [0x80] ++ repeat 0 (Z.to_nat ((55 - len) mod 64)) ++ be_bytes 8 (8 * len).

Fixpoint be_words (fuel : nat) (bs : list Z) : list Z :=
  match fuel, bs with
  | S k, b0 :: b1 :: b2 :: b3 :: rest =>
      (Z.shiftl b0 24 + Z.shiftl b1 16 + Z.shiftl b2 8 + b3) :: be_words k rest
  | _, _ => []
  end.

(** Message schedule; [rev_w] holds the words produced so far, latest first. *)
Fixpoint schedule (n : nat) (rev_w : list Z) : list Z :=
  match n with
  | O => rev rev_w
  | S k =>
      let w := add32 (add32 (ssig1 (nth 1 rev_w 0)) (nth 6 rev_w 0))
                     (add32 (ssig0 (nth 14 rev_w 0)) (nth 15 rev_w 0)) in
      schedule k (w :: rev_w)
  end.

Definition round (st : list Z) (kw : Z * Z) : list Z :=
  match st with
  | [a; b; c; d; e; f; g; h] =>
      let t1 := add32 (add32 (add32 h (bsig1 e)) (add32 (ch e f g) (fst kw))) (snd kw) in
      let t2 := add32 (bsig0 a) (maj a b c) in
      [add32 t1 t2; a; b; c; add32 d t1; e; f; g]
  | _ => st
  end.

Definition compress (st : list Z) (block : list Z) : list Z :=
  let w := schedule 48 (rev block) in
  zip_with add32 st (fold_left round (zip K w) st).

Fixpoint blocks (fuel : nat) (ws : list Z) (st : list Z) : list Z :=
  match fuel with
  | O => st
  | S k =>
      match ws with
      | [] => st
      | _ => blocks k (drop 16 ws) (compress st (take 16 ws))
      end
  end.

Definition hex_digit (d : Z) : Ascii.ascii :=
  Ascii.ascii_of_N (Z.to_N (if d <? 10 then 48 + d else 87 + d)).

Fixpoint hex (n : nat) (x : Z) : string :=
  match n with
  | O => ""
  | S k => String (hex_digit (Z.land (Z.shiftr x (4 * Z.of_nat k)) 0xf)) (hex k x)
  end.

(** [hashlib.sha256(data).hexdigest()] *)
Definition sha256_hexdigest (data : list Z) : string :=
  let bs := pad data in
  let ws := be_words (length bs) bs in
  let st := blocks (length ws) ws H0 in
  fold_right (fun w acc => hex 8 w +:+ acc) "" st.

End Hashlib.

(** [hash_token]: hash token for storage. *)
Definition hash_token (token : string) : string :=
  Hashlib.sha256_hexdigest (Hashlib.encode token).


(** ** models.models: the rows of the three tables *)

Module SessionModel.
Record t := mk {
  id : string;
  user_id : Z;
  created_at : Z;
  last_seen_at : Z;
  expires_at : Z;
  revoked_at : option Z;
  device_id : pyval;
  client_id : pyval;
  user_agent_hash : pyval;
  os_family : pyval;
  browser_family : pyval;
  last_ip : pyval;
  last_asn : pyval;
  last_country : pyval;
  risk_score : Z
}.

(** Attribute assignments used by the session manager. *)
Definition set_revoked_at (v : option Z) (s : t) : t :=
  mk (id s) (user_id s) (created_at s) (last_seen_at s) (expires_at s) v
     (device_id s) (client_id s) (user_agent_hash s) (os_family s)
     (browser_family s) (last_ip s) (last_asn s) (last_country s) (risk_score s).
Definition set_last_seen_at (v : Z) (s : t) : t :=
  mk (id s) (user_id s) (created_at s) v (expires_at s) (revoked_at s)
     (device_id s) (client_id s) (user_agent_hash s) (os_family s)
     (browser_family s) (last_ip s) (last_asn s) (last_country s) (risk_score s).
Definition set_risk_score (v : Z) (s : t) : t :=
  mk (id s) (user_id s) (created_at s) (last_seen_at s) (expires_at s) (revoked_at s)
     (device_id s) (client_id s) (user_agent_hash s) (os_family s)
     (browser_family s) (last_ip s) (last_asn s) (last_country s) v.
Definition set_last_ip (v : pyval) (s : t) : t :=
  mk (id s) (user_id s) (created_at s) (last_seen_at s) (expires_at s) (revoked_at s)
     (device_id s) (client_id s) (user_agent_hash s) (os_family s)
     (browser_family s) v (last_asn s) (last_country s) (risk_score s).
Definition set_last_asn (v : pyval) (s : t) : t :=
  mk (id s) (user_id s) (created_at s) (last_seen_at s) (expires_at s) (revoked_at s)
     (device_id s) (client_id s) (user_agent_hash s) (os_family s)
     (browser_family s) (last_ip s) v (last_country s) (risk_score s).
Definition set_last_country (v : pyval) (s : t) : t :=
  mk (id s) (user_id s) (created_at s) (last_seen_at s) (expires_at s) (revoked_at s)
     (device_id s) (client_id s) (user_agent_hash s) (os_family s)
     (browser_family s) (last_ip s) (last_asn s) v (risk_score s).
End SessionModel.

Module RefreshToken.
Record t := mk {
  id : string;
  session_id : string;
  token_hash : string;
  expires_at : Z;
  revoked_at : option Z;
  replaced_by : option string
}.

Definition set_revoked_at (v : option Z) (r : t) : t :=
  mk (id r) (session_id r) (token_hash r) (expires_at r) v (replaced_by r).
Definition set_replaced_by (v : option string) (r : t) : t :=
  mk (id r) (session_id r) (token_hash r) (expires_at r) (revoked_at r) v.
End RefreshToken.

Module SecurityEvent.
Record t := mk {
  user_id : Z;
  session_id : option string;
  event_type : string;
  ip_address : pyval;
  user_agent : pyval;
  details : pyval;
  created_at : Z
}.
End SecurityEvent.

#[global] Instance session_eq_dec : EqDecision SessionModel.t.
Proof. solve_decision. Defined.

#[global] Instance refresh_token_eq_dec : EqDecision RefreshToken.t.
Proof. solve_decision. Defined.

(** The relational store. *)
Record DB := mkDB {
  sessions : list SessionModel.t;
  refresh_tokens : list RefreshToken.t;
  security_events : list SecurityEvent.t
}.

(** [db.query(SessionModel).filter(SessionModel.id == session_id).first()] *)
Definition find_session (rows : list SessionModel.t) (session_id : string)
  : option SessionModel.t :=
  find (fun r => String.eqb (SessionModel.id r) session_id) rows.

(** [db.query(RefreshToken).filter(RefreshToken.token_hash == token_hash).first()] *)
Definition find_token (rows : list RefreshToken.t) (token_hash : string)
  : option RefreshToken.t :=
  find (fun r => String.eqb (RefreshToken.token_hash r) token_hash) rows.

(** Flushing a modified ORM object: UPDATE ... WHERE id = <primary key>. *)
Definition update_session (s : SessionModel.t) (rows : list SessionModel.t)
  : list SessionModel.t :=
  map (fun r => if String.eqb (SessionModel.id r) (SessionModel.id s) then s else r) rows.

Definition update_token (t : RefreshToken.t) (rows : list RefreshToken.t)
  : list RefreshToken.t :=
  map (fun r => if String.eqb (RefreshToken.id r) (RefreshToken.id t) then t else r) rows.

(** ** JSON values and the Redis client of lib.utils.cache *)

#[warnings="-register-all"]
Inductive json :=
| JNull
| JBool (b : bool)
| JNumber (z : Z)
| JString (s : string)
| JArray (items : list json)
| JObject (members : list (string * json)).

(** Truth value of what [json.loads] returns. *)
Definition json_truthy (j : json) : bool :=
  match j with
  | JNull => false
  | JBool b => b
  | JNumber z => negb (z =? 0)
  | JString s => negb (String.eqb s "")
  | JArray items => match items with [] => false | _ => true end
  | JObject members => match members with [] => false | _ => true end
  end.

(** What a caller hands to [cache_set] as [value]: data made of dicts, lists,
    strings and numbers, or an instance of a mapped class. *)
Inductive pyobject :=
| Plain (j : json)
| Instance (s : SessionModel.t).

(** [json.dumps(value)], called without a [default] hook: the encoder knows
    dict, list, tuple, str, int, float, bool and None, and raises [TypeError]
    (here [None]) for an instance of any other class, such as the mapped
    classes of models.models, which derive from the declarative [Base].  A
    stored text is represented by the value it decodes to. *)
Definition json_dumps (value : pyobject) : option json :=
  match value with
  | Plain j => Some j
  | Instance _ => None
  end.

(** The Redis server as seen through [redis_client]: whether commands go
    through at all, and for each key its payload and the instant at which it
    expires. *)
Record Redis := mkRedis {
  available : bool;
  entries : gmap string (json * Z)
}.

Record Settings := mkSettings {
  redis_cache_ttl : Z;
  refresh_token_lifetime_days : Z;
  session_absolute_limit_days : Z
}.

(** The defaults of config.Settings. *)
Definition default_settings : Settings := mkSettings 300 30 90.

Definition seconds (n : Z) : Z := n * 1000000.
(** [timedelta(days=n)] *)
Definition days (n : Z) : Z := seconds (n * 86400).

(** [json.loads(value)] as a result of [cache_get]: the text [null] decodes
    to [None]. *)
Definition json_loads (j : json) : option json :=
  match j with
  | JNull => None
  | _ => Some j
  end.

(** [cache_get]: any exception of the client yields [None].  The server
    answers GET with the payload up to and including the instant at which
    the key expires, and with nothing after it. *)
Definition cache_get (r : Redis) (key : string) (now : Z) : option json :=
  if available r then
    match entries r !! key with
    | Some (j, deadline) => if now <=? deadline then json_loads j else None
    | None => None
    end
  else None.

(** [cache_delete] *)
Definition cache_delete (r : Redis) (key : string) : Redis :=
  if available r then mkRedis (available r) (delete key (entries r)) else r.

(** ** Exceptions and results *)

Inductive exn :=
| HTTPException (status_code : Z) (detail : string)
| AttributeError
| IntegrityError
| StaleDataError.

Inductive result (A : Type) :=
| Return (a : A)
| Raise (e : exn).
Arguments Return {A} a.
Arguments Raise {A} e.

(** The 401 responses of the session manager, under the names of the error
    taxonomy. *)
Definition SessionInvalid : exn := HTTPException 401 "Session invalid".
Definition SessionExpired : exn := HTTPException 401 "Session expired".
Definition ReauthRequired : exn := HTTPException 401 "Reauthentication required".
Definition InvalidToken : exn := HTTPException 401 "Invalid refresh token".
Definition TokenReuseDetected : exn := HTTPException 401 "Refresh token reuse detected".
Definition TokenExpired : exn := HTTPException 401 "Refresh token expired".
Definition SuspiciousActivity : exn := HTTPException 401 "Suspicious activity detected".

(** The store and the cache together. *)
Record World := mkWorld {
  db : DB;
  redis : Redis
}.

(** What [load_session] returns: the decoded cache payload, or the result of
    the query. *)
Inductive loaded :=
| Cached (j : json)
| Row (s : option SessionModel.t).

(** What [user_agents.parse] exposes of a user agent: [ua.os.family] and
    [ua.browser.family]. *)
Record UserAgent := mkUserAgent {
  ua_os_family : option string;
  ua_browser_family : option string
}.

Record ua_info := mk_ua_info {
  info_os_family : pyval;
  info_browser_family : pyval;
  info_hash : pyval
}.

Record geo_info := mk_geo_info {
  geo_asn : pyval;
  geo_country : pyval
}.

(** Constants of session.py *)
Definition MAX_RISK : Z := 100.
Definition ROTATE_REFRESH_RISK : Z := 40.
Definition REAUTH_RISK : Z := 70.

(** ** The rule table of the risk scorer, signal by signal

    A signal is present in the request when its value is true in the sense
    of [truthy]: a missing key, [None] and the empty string are absent. *)

Module Table.
Definition present (request_data : dict) (k : string) : bool :=
  truthy (get request_data k).

(** Device: request device id present and different from the stored one. *)
Definition device (session : SessionModel.t) (request_data : dict) : Z :=
  if present request_data "device_id"
     && py_ne (get request_data "device_id") (SessionModel.device_id session)
  then 40 else 0.

(** Client: request client id present and different from the stored one. *)
Definition client (session : SessionModel.t) (request_data : dict) : Z :=
  if present request_data "client_id"
     && py_ne (get request_data "client_id") (SessionModel.client_id session)
  then 30 else 0.

(** User agent: request hash present and different; 5 when the browser
    family is unchanged, else 20. *)
Definition user_agent (session : SessionModel.t) (request_data : dict) : Z :=
  if present request_data "user_agent_hash"
     && py_ne (get request_data "user_agent_hash") (SessionModel.user_agent_hash session)
  then if py_eq (get request_data "browser_family") (SessionModel.browser_family session)
       then 5 else 20
  else 0.

Definition same_asn (session : SessionModel.t) (request_data : dict) : bool :=
  present request_data "asn"
  && py_eq (get request_data "asn") (SessionModel.last_asn session).

Definition same_country (session : SessionModel.t) (request_data : dict) : bool :=
  present request_data "country"
  && py_eq (get request_data "country") (SessionModel.last_country session).

(** Network: request IP present and different; 2 on the same ASN, else 8 in
    the same country, else 25. *)
Definition network (session : SessionModel.t) (request_data : dict) : Z :=
  if present request_data "ip"
     && py_ne (get request_data "ip") (SessionModel.last_ip session)
  then if same_asn session request_data then 2
       else if same_country session request_data then 8
       else 25
  else 0.

Definition score (session : SessionModel.t) (request_data : dict) : Z :=
  device session request_data + client session request_data
  + user_agent session request_data + network session request_data.
End Table.

Definition empty_db : DB := mkDB [] [] [].

(** ** Example data: one user, one session, the requests of its clients *)

Definition home_request : dict :=
  list_to_map [("ip", PyStr "198.51.100.7"); ("user_agent", PyStr "Mozilla/5.0");
               ("device_id", PyStr "device-A"); ("client_id", PyStr "web")].

Definition new_device_request : dict :=
  list_to_map [("ip", PyStr "198.51.100.7"); ("user_agent", PyStr "Mozilla/5.0");
               ("device_id", PyStr "device-B"); ("client_id", PyStr "web")].

Definition new_client_request : dict :=
  list_to_map [("ip", PyStr "198.51.100.7"); ("user_agent", PyStr "Mozilla/5.0");
               ("device_id", PyStr "device-A"); ("client_id", PyStr "cli")].

Definition takeover_request : dict :=
  list_to_map [("ip", PyStr "203.0.113.9"); ("user_agent", PyStr "Mozilla/5.0");
               ("device_id", PyStr "device-B"); ("client_id", PyStr "cli")].

(** The two bytes of U+00E9 in UTF-8, and a family name made of [n] such
    characters. *)
Definition e_acute : string :=
  String (Ascii.ascii_of_N 195) (String (Ascii.ascii_of_N 169) EmptyString).

Fixpoint accented (n : nat) : string :=
  match n with
  | O => EmptyString
  | S k => e_acute +:+ accented k
  end.

(** A user-agent parser that recognises every string as Firefox on Linux. *)
Definition linux_firefox (ua_string : string) : option UserAgent :=
  Some (mkUserAgent (Some "Linux") (Some "Firefox")).

Definition empty_world : World := mkWorld empty_db (mkRedis true ∅).

(** The session and token that [create_session] stores for [home_request]
    at instant 0 with the draws "s-1", "t-1" and "secret-1". *)
Definition example_session : SessionModel.t :=
  SessionModel.mk "s-1" 7 0 0 (days 90) None
    (PyStr "device-A") (PyStr "web")
    (PyStr (hash_token "Mozilla/5.0")) (PyStr "Linux") (PyStr "Firefox")
    (PyStr "198.51.100.7") PyNone PyNone 0.

Definition example_token : RefreshToken.t :=
  RefreshToken.mk "t-1" "s-1" (hash_token "secret-1") (days 30) None None.

Definition example_world : World :=
  mkWorld
    (mkDB [example_session] [example_token]
          [SecurityEvent.mk 7 (Some "s-1") "session_created" (PyStr "198.51.100.7")
             (PyStr "Mozilla/5.0") PyNone 0])
    (mkRedis true ∅).

(** ** lib.services.session *)

Section SessionManager.

(** [config.settings], and [user_agents.parse], which returns the parsed user
    agent or raises ([None]). *)
Variable settings : Settings.
Variable parse : string -> option UserAgent.

Definition SESSION_ABSOLUTE_LIMIT : Z := days (session_absolute_limit_days settings).
Definition REFRESH_TOKEN_LIFETIME : Z := days (refresh_token_lifetime_days settings).

(** [cache_set]: [ttl or settings.redis_cache_ttl], then [json.dumps(value)],
    then SETEX, which the server refuses for a non-positive expiry; every
    exception is swallowed. *)
Definition cache_set (r : Redis) (key : string) (value : pyobject)
    (ttl : option Z) (now : Z) : Redis :=
  if available r then
    let ttl := match ttl with
               | Some n => if n =? 0 then redis_cache_ttl settings else n
               | None => redis_cache_ttl settings
               end in
    match json_dumps value with
    | Some j =>
        if 0 <? ttl
        then mkRedis (available r) (<[key := (j, now + seconds ttl)]> (entries r))
        else r
    | None => r
    end
  else r.

(** [family[:63] if family else None] *)
Definition family63 (family : option string) : pyval :=
  match family with
  | Some f => if String.eqb f "" then PyNone else PyStr (str_take 63 f)
  | None => PyNone
  end.

(** [parse_user_agent].  For an argument that is not a [str], [hash_token]
    raises [AttributeError] in the [try] body and again in the handler, so the
    call raises ([None]). *)
Definition parse_user_agent (ua_string : pyval) : option ua_info :=
  match ua_string with
  | PyStr s =>
      let h := PyStr (str_take 64 (hash_token s)) in
      match parse s with
      | Some ua =>
          Some (mk_ua_info (family63 (ua_os_family ua)) (family63 (ua_browser_family ua)) h)
      | None => Some (mk_ua_info PyNone PyNone h)
      end
  | _ => None
  end.

(** [get_geo_info]: stub for the MaxMind integration. *)
Definition get_geo_info (ip : pyval) : geo_info := mk_geo_info PyNone PyNone.

(** [calculate_risk]: calculate risk score for request. *)
Definition calculate_risk (session : SessionModel.t) (request_data : dict) : Z :=
  let risk := 0 in
  (* Device identity *)
  let risk :=
    if truthy (get request_data "device_id")
       && py_ne (get request_data "device_id") (SessionModel.device_id session)
    then risk + 40 else risk in
  (* Client type *)
  let risk :=
    if truthy (get request_data "client_id")
       && py_ne (get request_data "client_id") (SessionModel.client_id session)
    then risk + 30 else risk in
  (* User-Agent change *)
  let risk :=
    if truthy (get request_data "user_agent_hash")
       && py_ne (get request_data "user_agent_hash") (SessionModel.user_agent_hash session)
    then
      if py_eq (get request_data "browser_family") (SessionModel.browser_family session)
      then risk + 5
      else risk + 20
    else risk in
  (* IP change *)
  let risk :=
    if truthy (get request_data "ip")
       && py_ne (get request_data "ip") (SessionModel.last_ip session)
    then
      if truthy (get request_data "asn")
         && py_eq (get request_data "asn") (SessionModel.last_asn session)
      then risk + 2
      else if truthy (get request_data "country")
              && py_eq (get request_data "country") (SessionModel.last_country session)
      then risk + 8
      else risk + 25
    else risk in
  risk.

(** [log_security_event]: adds the event and commits. *)
Definition log_security_event (w : World) (user_id : Z) (session_id : option string)
    (event_type : string) (request_data : dict) (now : Z) : World :=
  let event := SecurityEvent.mk user_id session_id event_type
                 (get request_data "ip") (get request_data "user_agent")
                 (get request_data "details") now in
  mkWorld (mkDB (sessions (db w)) (refresh_tokens (db w))
                (security_events (db w) ++ [event]))
          (redis w).

Definition session_key (session_id : string) : string := "session:" +:+ session_id.

(** [cache_session]: cache session in Redis. *)
Definition cache_session (w : World) (session : SessionModel.t) (now : Z) : World :=
  let ttl := Z.quot (SessionModel.expires_at session - now) 1000000 in
  if 0 <? ttl
  then mkWorld (db w)
         (cache_set (redis w) (session_key (SessionModel.id session))
                    (Instance session) (Some ttl) now)
  else w.

(** The primary keys and the unique [token_hash] that a commit enforces. *)
Definition session_pk_free (d : DB) (id : string) : bool :=
  forallb (fun r => negb (String.eqb (SessionModel.id r) id)) (sessions d).
Definition token_insertable (d : DB) (t : RefreshToken.t) : bool :=
  forallb (fun r => negb (String.eqb (RefreshToken.id r) (RefreshToken.id t))
                    && negb (String.eqb (RefreshToken.token_hash r) (RefreshToken.token_hash t)))
          (refresh_tokens d).

(** [create_session]: create new session and refresh token.  [session_id] and
    [token_id] are the two [uuid4] draws, [refresh_token] the
    [secrets.token_urlsafe] draw.  A commit that violates a key raises and
    leaves the store as it was. *)
Definition create_session (w : World) (user_id : Z) (request_data : dict)
    (session_id token_id refresh_token : string) (now : Z)
  : result (SessionModel.t * string) * World :=
  match parse_user_agent (get_or request_data "user_agent" (PyStr "")) with
  | None => (Raise AttributeError, w)
  | Some ua =>
      let geo := get_geo_info (get_or request_data "ip" (PyStr "")) in
      let session :=
        SessionModel.mk session_id user_id now now (now + SESSION_ABSOLUTE_LIMIT) None
          (get request_data "device_id")
          (get_or request_data "client_id" (PyStr "web"))
          (info_hash ua) (info_os_family ua) (info_browser_family ua)
          (get request_data "ip") (geo_asn geo) (geo_country geo) 0 in
      let refresh_token_record :=
        RefreshToken.mk token_id session_id (hash_token refresh_token)
          (now + REFRESH_TOKEN_LIFETIME) None None in
      if session_pk_free (db w) session_id && token_insertable (db w) refresh_token_record
      then
        let w1 := mkWorld (mkDB (sessions (db w) ++ [session])
                                (refresh_tokens (db w) ++ [refresh_token_record])
                                (security_events (db w)))
                          (redis w) in
        let w2 := log_security_event w1 user_id (Some session_id) "session_created"
                    request_data now in
        (Return (session, refresh_token), cache_session w2 session now)
      else (Raise IntegrityError, w)
  end.

(** [load_session]: load session from cache or DB. *)
Definition load_session (w : World) (session_id : string) (now : Z) : loaded * World :=
  let cache_key := session_key session_id in
  let cached := cache_get (redis w) cache_key now in
  let from_db :=
    let session := find_session (sessions (db w)) session_id in
    match session with
    | Some s =>
        match SessionModel.revoked_at s with
        | None =>
            if now <? SessionModel.expires_at s
            then (Row session, cache_session w s now)
            else (Row session, w)
        | Some _ => (Row session, w)
        end
    | None => (Row session, w)
    end in
  match cached with
  | Some j => if json_truthy j then (Cached j, w) else from_db
  | None => from_db
  end.

Definition is_none {A} (o : option A) : bool :=
  match o with None => true | Some _ => false end.

(** [revoke_session]: revoke session and all refresh tokens.  The assignment
    to [session.revoked_at] and whatever the caller assigned before are written
    by the commit; the bulk UPDATE stamps the tokens of the session whose
    [revoked_at] is NULL; [reason] is not used. *)
Definition revoke_session (w : World) (session : SessionModel.t) (now : Z) : World :=
  let session := SessionModel.set_revoked_at (Some now) session in
  let tokens :=
    map (fun r =>
           if String.eqb (RefreshToken.session_id r) (SessionModel.id session)
              && is_none (RefreshToken.revoked_at r)
           then RefreshToken.set_revoked_at (Some now) r
           else r)
        (refresh_tokens (db w)) in
  mkWorld (mkDB (update_session session (sessions (db w))) tokens
                (security_events (db w)))
          (cache_delete (redis w) (session_key (SessionModel.id session))).

(** The assignments under "Update session context". *)
Definition update_context (session : SessionModel.t) (request_data : dict)
  : SessionModel.t :=
  if truthy (get request_data "ip") then
    let geo := get_geo_info (get request_data "ip") in
    SessionModel.set_last_country (geo_country geo)
      (SessionModel.set_last_asn (geo_asn geo)
         (SessionModel.set_last_ip (get request_data "ip") session))
  else session.

Definition commit_session (w : World) (session : SessionModel.t) : World :=
  mkWorld (mkDB (update_session session (sessions (db w)))
                (refresh_tokens (db w)) (security_events (db w)))
          (redis w).

(** [authenticate_request]: authenticate request and update session.  On a
    decoded cache payload the attribute access [session.revoked_at] raises. *)
Definition authenticate_request (w : World) (session_id : string)
    (request_data : dict) (now : Z) : result SessionModel.t * World :=
  match load_session w session_id now with
  | (Cached j, w) =>
      if json_truthy j then (Raise AttributeError, w) else (Raise SessionInvalid, w)
  | (Row None, w) => (Raise SessionInvalid, w)
  | (Row (Some session), w) =>
      if negb (is_none (SessionModel.revoked_at session)) then (Raise SessionInvalid, w)
      else if SessionModel.expires_at session <? now then (Raise SessionExpired, w)
      else
        let risk := calculate_risk session request_data in
        let session :=
          SessionModel.set_risk_score (SessionModel.risk_score session + risk) session in
        let session := SessionModel.set_last_seen_at now session in
        if REAUTH_RISK <=? SessionModel.risk_score session then
          let w := revoke_session w session now in
          let w := log_security_event w (SessionModel.user_id session)
                     (Some (SessionModel.id session)) "session_revoked_risk"
                     request_data now in
          (Raise ReauthRequired, w)
        else
          let session := update_context session request_data in
          let w := commit_session w session in
          (Return session, cache_session w session now)
  end.

(** [refresh_access_token]: refresh access token with rotation.
    [new_refresh_token] is the [secrets.token_urlsafe] draw and [new_token_id]
    the [uuid4] draw. *)
Definition refresh_access_token (w : World) (refresh_token : string)
    (request_data : dict) (new_refresh_token new_token_id : string) (now : Z)
  : result (SessionModel.t * string) * World :=
  let token_hash := hash_token refresh_token in
  match find_token (refresh_tokens (db w)) token_hash with
  | None => (Raise InvalidToken, w)
  | Some token_record =>
      match load_session w (RefreshToken.session_id token_record) now with
      | (Cached j, w) =>
          if json_truthy j then (Raise AttributeError, w) else (Raise SessionInvalid, w)
      | (Row None, w) => (Raise SessionInvalid, w)
      | (Row (Some session), w) =>
          if negb (is_none (SessionModel.revoked_at session)) then (Raise SessionInvalid, w)
          (* Reuse detection *)
          else if negb (is_none (RefreshToken.revoked_at token_record)) then
            let w := revoke_session w session now in
            let w := log_security_event w (SessionModel.user_id session)
                       (Some (SessionModel.id session)) "token_reuse_detected"
                       request_data now in
            (Raise TokenReuseDetected, w)
          else if RefreshToken.expires_at token_record <? now then (Raise TokenExpired, w)
          else
            (* Calculate risk *)
            let risk := calculate_risk session request_data in
            if REAUTH_RISK <=? risk then
              let w := revoke_session w session now in
              let w := log_security_event w (SessionModel.user_id session)
                         (Some (SessionModel.id session)) "session_revoked_suspicious"
                         request_data now in
              (Raise SuspiciousActivity, w)
            else
              (* Always rotate refresh token *)
              let token_record := RefreshToken.set_revoked_at (Some now) token_record in
              let new_token_record :=
                RefreshToken.mk new_token_id (SessionModel.id session)
                  (hash_token new_refresh_token) (now + REFRESH_TOKEN_LIFETIME)
                  None None in
              let token_record :=
                RefreshToken.set_replaced_by (Some (RefreshToken.id new_token_record))
                  token_record in
              (* Update session *)
              let session := SessionModel.set_last_seen_at now session in
              let session :=
                SessionModel.set_risk_score (SessionModel.risk_score session + risk)
                  session in
              let session := update_context session request_data in
              if token_insertable (db w) new_token_record then
                let w := mkWorld
                           (mkDB (update_session session (sessions (db w)))
                                 (update_token token_record (refresh_tokens (db w))
                                    ++ [new_token_record])
                                 (security_events (db w)))
                           (redis w) in
                (Return (session, new_refresh_token), cache_session w session now)
              else (Raise IntegrityError, w)
      end
  end.

(** [revoke_all_sessions]: revoke all sessions for user. *)
Definition revoke_all_sessions (w : World) (user_id : Z) (now : Z) : World :=
  let sessions :=
    List.filter (fun s => (SessionModel.user_id s =? user_id)
                          && is_none (SessionModel.revoked_at s))
                (sessions (db w)) in
  let w := fold_left (fun w session => revoke_session w session now) sessions w in
  log_security_event w user_id None "logout_all" ∅ now.

(** Revoking a session by its id, the [Revoke] call of [step] below: the
    session is looked up with [load_session] and handed to [revoke_session]
    when the result is true.  The two calls are written in this order at
    lines 399 to 402 of routes.api.logout, the one place where
    [revoke_session] receives what [load_session] returned.  This function
    is that sequence on its own and not the route: in the route
    [db = next(get_db())] comes first, and [get_db] being a [contextmanager],
    [next] raises [TypeError] there, as it does in [get_current_user], on
    which the route depends.  On a decoded cache payload the assignment in
    [revoke_session] raises [AttributeError] and nothing is written. *)
Definition revoke_by_id (w : World) (session_id : string) (now : Z) : World :=
  match load_session w session_id now with
  | (Row (Some session), w) => revoke_session w session now
  | (_, w) => w
  end.

(** ** Calls and their sequential composition *)

Inductive call :=
| Create (user_id : Z) (request_data : dict) (session_id token_id refresh_token : string)
| Load (session_id : string)
| Authenticate (session_id : string) (request_data : dict)
| Refresh (refresh_token : string) (request_data : dict)
          (new_refresh_token new_token_id : string)
| Revoke (session_id : string)
| RevokeAll (user_id : Z).

(** One call made at instant [now]; only the state it leaves is kept. *)
Definition step (w : World) (c : call * Z) : World :=
  let now := snd c in
  match fst c with
  | Create user_id request_data session_id token_id refresh_token =>
      snd (create_session w user_id request_data session_id token_id refresh_token now)
  | Load session_id => snd (load_session w session_id now)
  | Authenticate session_id request_data =>
      snd (authenticate_request w session_id request_data now)
  | Refresh refresh_token request_data new_refresh_token new_token_id =>
      snd (refresh_access_token w refresh_token request_data
             new_refresh_token new_token_id now)
  | Revoke session_id => revoke_by_id w session_id now
  | RevokeAll user_id => revoke_all_sessions w user_id now
  end.

Definition run (w : World) (calls : list (call * Z)) : World :=
  fold_left step calls w.

(** ** Predicates on the store *)

(** The row of a session in the store. *)
Definition stored (w : World) (session_id : string) : option SessionModel.t :=
  find_session (sessions (db w)) session_id.

(** A token of session [sid] that is not revoked. *)
Definition unrevoked (sid : string) (r : RefreshToken.t) : bool :=
  String.eqb (RefreshToken.session_id r) sid && is_none (RefreshToken.revoked_at r).

(** A token of session [sid] that is neither revoked nor expired at [now]. *)
Definition usable (sid : string) (now : Z) (r : RefreshToken.t) : bool :=
  unrevoked sid r && negb (RefreshToken.expires_at r <? now).

Definition tokens_of (sid : string) (d : DB) : list RefreshToken.t :=
  List.filter (fun r => String.eqb (RefreshToken.session_id r) sid) (refresh_tokens d).

(** Every token of the session carries a revocation stamp. *)
Definition all_tokens_revoked (sid : string) (d : DB) : Prop :=
  Forall (fun r => RefreshToken.revoked_at r <> None) (tokens_of sid d).

(** The cache holds nothing under the key of the session. *)
Definition no_cache_entry (w : World) (session_id : string) : Prop :=
  entries (redis w) !! session_key session_id = None.

(** Primary key of [sessions]. *)
Definition session_ids_unique (d : DB) : Prop :=
  NoDup (map SessionModel.id (sessions d)).

(** Foreign key of [refresh_tokens.session_id]. *)
Definition tokens_have_session (d : DB) : Prop :=
  Forall (fun r => In (RefreshToken.session_id r) (map SessionModel.id (sessions d)))
         (refresh_tokens d).


(** ** Auxiliary definitions for the statements below *)

(** The part of [authenticate_request] after the session was loaded from the
    store, not revoked and not expired. *)
Definition scored (session : SessionModel.t) (request_data : dict) (now : Z)
  : SessionModel.t :=
  SessionModel.set_last_seen_at now
    (SessionModel.set_risk_score
       (SessionModel.risk_score session + calculate_risk session request_data)
       session).

(** The session object and the two token rows written by a rotation. *)
Definition rotated_session (s : SessionModel.t) (rd : dict) (now : Z) : SessionModel.t :=
  update_context
    (SessionModel.set_risk_score (SessionModel.risk_score s + calculate_risk s rd)
       (SessionModel.set_last_seen_at now s)) rd.

Definition consumed (tr : RefreshToken.t) (nid : string) (now : Z) : RefreshToken.t :=
  RefreshToken.set_replaced_by (Some nid) (RefreshToken.set_revoked_at (Some now) tr).

Definition successor (s : SessionModel.t) (nt nid : string) (now : Z) : RefreshToken.t :=
  RefreshToken.mk nid (SessionModel.id s) (hash_token nt)
    (now + REFRESH_TOKEN_LIFETIME) None None.

Definition rotated_world (w : World) (s : SessionModel.t) (tr : RefreshToken.t)
    (rd : dict) (nt nid : string) (now : Z) : World :=
  mkWorld
    (mkDB (update_session (rotated_session s rd now) (sessions (db w)))
          (update_token (consumed tr nid now) (refresh_tokens (db w))
             ++ [successor s nt nid now])
          (security_events (db w)))
    (redis w).

(** Successive presentations of the same refresh token; each attempt brings
    its request context, its two random draws and its instant. *)
Fixpoint replay (w : World) (tok : string) (attempts : list (dict * string * string * Z))
  : list (result (SessionModel.t * string)) * World :=
  match attempts with
  | [] => ([], w)
  | (rd, nt, nid, now) :: rest =>
      let r := refresh_access_token w tok rd nt nid now in
      let rs := replay (snd r) tok rest in
      (fst r :: fst rs, snd rs)
  end.

(** *** The writes of the session manager

    Every call changes the store through a sequence of five kinds of write. *)

Inductive change (w : World) : World -> Prop :=
| change_log user_id session_id event_type rd now :
    change w (log_security_event w user_id session_id event_type rd now)
| change_revoke s s0 now :
    stored w (SessionModel.id s) = Some s0 ->
    SessionModel.risk_score s0 <= SessionModel.risk_score s ->
    change w (revoke_session w s now)
| change_commit s s0 :
    stored w (SessionModel.id s) = Some s0 ->
    SessionModel.risk_score s0 <= SessionModel.risk_score s ->
    change w (commit_session w s)
| change_rotate s0 tr rd nt nid now :
    In tr (refresh_tokens (db w)) ->
    RefreshToken.revoked_at tr = None ->
    stored w (RefreshToken.session_id tr) = Some s0 ->
    change w (rotated_world w s0 tr rd nt nid now)
| change_insert session tok :
    session_pk_free (db w) (SessionModel.id session) = true ->
    RefreshToken.session_id tok = SessionModel.id session ->
    SessionModel.risk_score session = 0 ->
    change w (mkWorld (mkDB (sessions (db w) ++ [session])
                            (refresh_tokens (db w) ++ [tok])
                            (security_events (db w)))
                      (redis w)).

Definition unrevoked_count (sid : string) (d : DB) : nat :=
  length (List.filter (unrevoked sid) (refresh_tokens d)).

(** Every token belongs to a stored session, and no session has two
    unrevoked tokens. *)
Definition rotation_invariant (d : DB) : Prop :=
  tokens_have_session d /\ forall sid, (unrevoked_count sid d <= 1)%nat.

(** ** Further definitions *)

(** A lowercase hexadecimal digit. *)
Definition is_hex_digit (c : Ascii.ascii) : bool :=
  let n := Ascii.N_of_ascii c in
  ((48 <=? n)%N && (n <=? 57)%N) || ((97 <=? n)%N && (n <=? 102)%N).

(** A value that fits a nullable 63-character column: [None], or a
    non-empty string of at most 63 characters. *)
Definition family_ok (v : pyval) : Prop :=
  v = PyNone
  \/ exists f, v = PyStr f /\ f <> "" /\ (str_len f <= 63)%nat.

(** [ttl or settings.redis_cache_ttl] *)
Definition effective_ttl (ttl : option Z) : Z :=
  match ttl with
  | Some n => if n =? 0 then redis_cache_ttl settings else n
  | None => redis_cache_ttl settings
  end.

(** What a write of the session manager keeps of a row: its identity, owner,
    creation and expiry instants and fingerprint; a revocation stamp stays
    set and the risk score does not drop. *)
Definition session_kept (s0 s : SessionModel.t) : Prop :=
  SessionModel.id s = SessionModel.id s0
  /\ SessionModel.user_id s = SessionModel.user_id s0
  /\ SessionModel.created_at s = SessionModel.created_at s0
  /\ SessionModel.expires_at s = SessionModel.expires_at s0
  /\ SessionModel.device_id s = SessionModel.device_id s0
  /\ SessionModel.client_id s = SessionModel.client_id s0
  /\ SessionModel.user_agent_hash s = SessionModel.user_agent_hash s0
  /\ SessionModel.os_family s = SessionModel.os_family s0
  /\ SessionModel.browser_family s = SessionModel.browser_family s0
  /\ (SessionModel.revoked_at s0 <> None -> SessionModel.revoked_at s <> None)
  /\ SessionModel.risk_score s0 <= SessionModel.risk_score s.

(** The writes, with what is known of the written object: it comes from the
    stored row of the same id. *)
Inductive write (w : World) : World -> Prop :=
| write_log user_id session_id event_type rd now :
    write w (log_security_event w user_id session_id event_type rd now)
| write_revoke s s0 now :
    stored w (SessionModel.id s) = Some s0 -> session_kept s0 s ->
    write w (revoke_session w s now)
| write_commit s s0 :
    stored w (SessionModel.id s) = Some s0 -> session_kept s0 s ->
    write w (commit_session w s)
| write_rotate s0 tr rd nt nid now :
    In tr (refresh_tokens (db w)) ->
    RefreshToken.revoked_at tr = None ->
    stored w (RefreshToken.session_id tr) = Some s0 ->
    write w (rotated_world w s0 tr rd nt nid now)
| write_insert session tok :
    session_pk_free (db w) (SessionModel.id session) = true ->
    RefreshToken.session_id tok = SessionModel.id session ->
    SessionModel.risk_score session = 0 ->
    write w (mkWorld (mkDB (sessions (db w) ++ [session])
                           (refresh_tokens (db w) ++ [tok])
                           (security_events (db w)))
                     (redis w)).

(** The same writes by shape alone. *)
Inductive touch (w : World) : World -> Prop :=
| touch_log user_id session_id event_type rd now :
    touch w (log_security_event w user_id session_id event_type rd now)
| touch_revoke s now : touch w (revoke_session w s now)
| touch_commit s : touch w (commit_session w s)
| touch_rotate s0 tr rd nt nid now : touch w (rotated_world w s0 tr rd nt nid now)
| touch_insert session tok :
    touch w (mkWorld (mkDB (sessions (db w) ++ [session])
                           (refresh_tokens (db w) ++ [tok])
                           (security_events (db w)))
                     (redis w)).

(** Nothing is taken away from the audit trail or the token ledger, and
    nothing is put into the cache. *)
Definition grows (w w' : World) : Prop :=
  security_events (db w) `prefix_of` security_events (db w')
  /\ map RefreshToken.id (refresh_tokens (db w))
     `prefix_of` map RefreshToken.id (refresh_tokens (db w'))
  /\ available (redis w') = available (redis w)
  /\ entries (redis w') ⊆ entries (redis w).

(** The request repeats what the session has stored: each of device id,
    client id, user-agent hash and IP is absent or equal to the stored
    value. *)
Definition same_context (s : SessionModel.t) (rd : dict) : Prop :=
  (truthy (get rd "device_id") = false
   \/ get rd "device_id" = SessionModel.device_id s)
  /\ (truthy (get rd "client_id") = false
      \/ get rd "client_id" = SessionModel.client_id s)
  /\ (truthy (get rd "user_agent_hash") = false
      \/ get rd "user_agent_hash" = SessionModel.user_agent_hash s)
  /\ (truthy (get rd "ip") = false
      \/ get rd "ip" = SessionModel.last_ip s).

(** The keys of the request contexts built by the routes and by
    [get_current_user]. *)
Definition route_keys : gset string :=
  {[ "ip"; "user_agent"; "device_id"; "client_id" ]}.

(** The text that [create_session] hands to [parse_user_agent]: the value
    under [user_agent], the empty string when the key is missing, and nothing
    when the value is not a [str]. *)
Definition ua_text (rd : dict) : option string :=
  match get_or rd "user_agent" (PyStr "") with
  | PyStr s => Some s
  | _ => None
  end.


(** Primary key of [refresh_tokens]. *)
Definition token_ids_unique (d : DB) : Prop :=
  NoDup (map RefreshToken.id (refresh_tokens d)).

(** The record found for [token_hash] belongs to session [sid] and carries a
    revocation stamp. *)
Definition consumed_token (d : DB) (token_hash sid : string) : Prop :=
  exists r, find_token (refresh_tokens d) token_hash = Some r
            /\ RefreshToken.session_id r = sid
            /\ RefreshToken.revoked_at r <> None.

(** What the calls do to the table of refresh tokens: the bulk UPDATE of
    [revoke_session], the rotation of a stored record with a successor under
    a fresh id, and the insertion of a record under a fresh id. *)
Inductive ledger (rows : list RefreshToken.t) : list RefreshToken.t -> Prop :=
| ledger_stamp sid now :
    ledger rows
      (map (fun r => if String.eqb (RefreshToken.session_id r) sid
                        && is_none (RefreshToken.revoked_at r)
                     then RefreshToken.set_revoked_at (Some now) r
                     else r) rows)
| ledger_rotate tr nid now new :
    In tr rows ->
    ~ In (RefreshToken.id new) (map RefreshToken.id rows) ->
    ledger rows (update_token (consumed tr nid now) rows ++ [new])
| ledger_insert new :
    ~ In (RefreshToken.id new) (map RefreshToken.id rows) ->
    ledger rows (rows ++ [new]).


(** *** A refresh call that overlaps another call

    [refresh_access_token] reads the token record and the session with two
    SELECTs (lines 165 and 170), decides on the objects it holds, and writes
    at [db.commit()] (line 215).  When another call commits between the
    reads and the commit, the objects are those of the store as it was and
    the statements of the flush meet the store as it is.  For each modified
    object the flush issues an UPDATE by primary key that sets the
    attributes whose value differs from the loaded one, under no other
    condition, and raises [StaleDataError] when no row has that key; for an
    object none of whose attributes differs it issues nothing. *)

(** The value of a column after the UPDATE of a flush. *)
Definition written {A} `{EqDecision A} (loaded obj row : A) : A :=
  if decide (obj = loaded) then row else obj.

Definition flush_session (loaded obj row : SessionModel.t) : SessionModel.t :=
  SessionModel.mk
    (written (SessionModel.id loaded) (SessionModel.id obj) (SessionModel.id row))
    (written (SessionModel.user_id loaded) (SessionModel.user_id obj)
       (SessionModel.user_id row))
    (written (SessionModel.created_at loaded) (SessionModel.created_at obj)
       (SessionModel.created_at row))
    (written (SessionModel.last_seen_at loaded) (SessionModel.last_seen_at obj)
       (SessionModel.last_seen_at row))
    (written (SessionModel.expires_at loaded) (SessionModel.expires_at obj)
       (SessionModel.expires_at row))
    (written (SessionModel.revoked_at loaded) (SessionModel.revoked_at obj)
       (SessionModel.revoked_at row))
    (written (SessionModel.device_id loaded) (SessionModel.device_id obj)
       (SessionModel.device_id row))
    (written (SessionModel.client_id loaded) (SessionModel.client_id obj)
       (SessionModel.client_id row))
    (written (SessionModel.user_agent_hash loaded) (SessionModel.user_agent_hash obj)
       (SessionModel.user_agent_hash row))
    (written (SessionModel.os_family loaded) (SessionModel.os_family obj)
       (SessionModel.os_family row))
    (written (SessionModel.browser_family loaded) (SessionModel.browser_family obj)
       (SessionModel.browser_family row))
    (written (SessionModel.last_ip loaded) (SessionModel.last_ip obj)
       (SessionModel.last_ip row))
    (written (SessionModel.last_asn loaded) (SessionModel.last_asn obj)
       (SessionModel.last_asn row))
    (written (SessionModel.last_country loaded) (SessionModel.last_country obj)
       (SessionModel.last_country row))
    (written (SessionModel.risk_score loaded) (SessionModel.risk_score obj)
       (SessionModel.risk_score row)).

Definition flush_token (loaded obj row : RefreshToken.t) : RefreshToken.t :=
  RefreshToken.mk
    (written (RefreshToken.id loaded) (RefreshToken.id obj) (RefreshToken.id row))
    (written (RefreshToken.session_id loaded) (RefreshToken.session_id obj)
       (RefreshToken.session_id row))
    (written (RefreshToken.token_hash loaded) (RefreshToken.token_hash obj)
       (RefreshToken.token_hash row))
    (written (RefreshToken.expires_at loaded) (RefreshToken.expires_at obj)
       (RefreshToken.expires_at row))
    (written (RefreshToken.revoked_at loaded) (RefreshToken.revoked_at obj)
       (RefreshToken.revoked_at row))
    (written (RefreshToken.replaced_by loaded) (RefreshToken.replaced_by obj)
       (RefreshToken.replaced_by row)).

(** The reads and checks of [refresh_access_token], lines 164 to 187: the
    session and the token record the call goes on to rotate, or [None] when
    it raises on what it read. *)
Definition refresh_reads (w : World) (refresh_token : string) (request_data : dict)
    (now : Z) : option (SessionModel.t * RefreshToken.t) :=
  match find_token (refresh_tokens (db w)) (hash_token refresh_token) with
  | None => None
  | Some token_record =>
      match fst (load_session w (RefreshToken.session_id token_record) now) with
      | Row (Some session) =>
          if is_none (SessionModel.revoked_at session)
             && is_none (RefreshToken.revoked_at token_record)
             && negb (RefreshToken.expires_at token_record <? now)
             && negb (REAUTH_RISK <=? calculate_risk session request_data)
          then Some (session, token_record)
          else None
      | _ => None
      end
  end.

(** Whether the UPDATE of a flush finds a row with the primary key [id]. *)
Definition has_session (d : DB) (id : string) : bool :=
  existsb (fun r => String.eqb (SessionModel.id r) id) (sessions d).
Definition has_token (d : DB) (id : string) : bool :=
  existsb (fun r => String.eqb (RefreshToken.id r) id) (refresh_tokens d).

(** The assignments and the commit of the rotation, lines 192 to 215, made
    on the objects [session] and [token_record] read earlier and meeting the
    store [w].  Of the pair the call returns, [new_refresh_token] is kept;
    what the attributes of the session object show after a commit that met
    another depends on how [SessionLocal] is configured, outside these
    files. *)
Definition rotation_commit (w : World) (session : SessionModel.t)
    (token_record : RefreshToken.t) (request_data : dict)
    (new_refresh_token new_token_id : string) (now : Z) : result string * World :=
  let new_token_record := successor session new_refresh_token new_token_id now in
  if (bool_decide (rotated_session session request_data now = session)
      || has_session (db w) (SessionModel.id session))
     && (bool_decide (consumed token_record new_token_id now = token_record)
         || has_token (db w) (RefreshToken.id token_record))
  then
    if token_insertable (db w) new_token_record then
      (Return new_refresh_token,
       mkWorld
         (mkDB (map (fun r =>
                       if String.eqb (SessionModel.id r) (SessionModel.id session)
                       then flush_session session
                              (rotated_session session request_data now) r
                       else r)
                    (sessions (db w)))
               (map (fun r =>
                       if String.eqb (RefreshToken.id r) (RefreshToken.id token_record)
                       then flush_token token_record
                              (consumed token_record new_token_id now) r
                       else r)
                    (refresh_tokens (db w))
                  ++ [new_token_record])
               (security_events (db w)))
         (redis w))
    else (Raise IntegrityError, w)
  else (Raise StaleDataError, w).

(** Two refresh calls presenting the same token, each of which has read
    before either commits; the first then commits, and the second after it.
    Each call brings its request context, its two random draws and its
    instant.  [None] when one of the calls raises on what it read. *)
Definition overlapped (w : World) (refresh_token : string)
    (a b : dict * string * string * Z)
  : option (result string * result string * World) :=
  let '(rd_a, nt_a, nid_a, now_a) := a in
  let '(rd_b, nt_b, nid_b, now_b) := b in
  match refresh_reads w refresh_token rd_a now_a,
        refresh_reads w refresh_token rd_b now_b with
  | Some (s_a, tr_a), Some (s_b, tr_b) =>
      let r_a := rotation_commit w s_a tr_a rd_a nt_a nid_a now_a in
      let r_b := rotation_commit (snd r_a) s_b tr_b rd_b nt_b nid_b now_b in
      Some (fst r_a, fst r_b, snd r_b)
  | _, _ => None
  end.

(** * Properties *)

(** ** The digest and the slices of a [str] *)

Lemma hex_length n x : String.length (Hashlib.hex n x) = n.
Proof. induction n as [|n IH]; simpl; [reflexivity | rewrite IH; reflexivity]. Qed.

Lemma string_length_app (a b : string) :
  String.length (a +:+ b) = (String.length a + String.length b)%nat.
Proof. induction a as [|c a IH]; simpl; [reflexivity | rewrite IH; reflexivity]. Qed.

Lemma round_length st kw : length st = 8%nat -> length (Hashlib.round st kw) = 8%nat.
Proof.
  intros H. do 9 (destruct st as [|? st]; try discriminate). reflexivity.
Qed.

Lemma rounds_length kws : forall st,
  length st = 8%nat -> length (fold_left Hashlib.round kws st) = 8%nat.
Proof.
  induction kws as [|kw kws IH]; intros st H; simpl; [exact H|].
  apply IH, round_length, H.
Qed.

Lemma compress_length st block :
  length st = 8%nat -> length (Hashlib.compress st block) = 8%nat.
Proof.
  intros H. unfold Hashlib.compress. rewrite length_zip_with, rounds_length by exact H.
  rewrite H. reflexivity.
Qed.

Lemma blocks_length fuel : forall ws st,
  length st = 8%nat -> length (Hashlib.blocks fuel ws st) = 8%nat.
Proof.
  induction fuel as [|fuel IH]; intros ws st H; simpl; [exact H|].
  destruct ws; [exact H|]. apply IH, compress_length, H.
Qed.

Lemma digest_length (st : list Z) :
  String.length (fold_right (fun w acc => Hashlib.hex 8 w +:+ acc) "" st)
  = (8 * length st)%nat.
Proof.
  induction st as [|w st IH]; [reflexivity|].
  cbn [fold_right length]. rewrite string_length_app, hex_length, IH. lia.
Qed.

Lemma hex_digit_is_hex d : 0 <= d < 16 -> is_hex_digit (Hashlib.hex_digit d) = true.
Proof.
  intros H.
  assert (d = 0 \/ d = 1 \/ d = 2 \/ d = 3 \/ d = 4 \/ d = 5 \/ d = 6 \/ d = 7 \/
          d = 8 \/ d = 9 \/ d = 10 \/ d = 11 \/ d = 12 \/ d = 13 \/ d = 14 \/ d = 15)
    as Hd by lia.
  repeat (destruct Hd as [->|Hd]; [reflexivity|]). subst. reflexivity.
Qed.

Lemma hex_is_hex n x :
  forallb is_hex_digit (String.list_ascii_of_string (Hashlib.hex n x)) = true.
Proof.
  induction n as [|n IH]; [reflexivity|].
  cbn [Hashlib.hex String.list_ascii_of_string forallb]. rewrite IH, andb_true_r.
  apply hex_digit_is_hex. change 15 with (Z.ones 4).
  rewrite Z.land_ones by lia. apply Z.mod_pos_bound. lia.
Qed.

Lemma list_ascii_app (a b : string) :
  String.list_ascii_of_string (a +:+ b)
  = (String.list_ascii_of_string a ++ String.list_ascii_of_string b)%list.
Proof. induction a as [|c a IH]; simpl; [reflexivity | rewrite IH; reflexivity]. Qed.

Lemma digest_is_hex (st : list Z) :
  forallb is_hex_digit
    (String.list_ascii_of_string
       (fold_right (fun w acc => Hashlib.hex 8 w +:+ acc) "" st)) = true.
Proof.
  induction st as [|w st IH]; [reflexivity|].
  cbn [fold_right]. rewrite list_ascii_app, forallb_app, hex_is_hex, IH. reflexivity.
Qed.

Lemma substring_all (s : string) : String.substring 0 (String.length s) s = s.
Proof. induction s as [|c s IH]; simpl; [reflexivity | rewrite IH; reflexivity]. Qed.

Lemma hash_token_length token : String.length (hash_token token) = 64%nat.
Proof.
  unfold hash_token, Hashlib.sha256_hexdigest. cbv zeta.
  rewrite digest_length, blocks_length by reflexivity. reflexivity.
Qed.

Lemma hex_digit_leading c : is_hex_digit c = true -> is_continuation c = false.
Proof.
  unfold is_hex_digit, is_continuation. cbv zeta.
  destruct (128 <=? Ascii.N_of_ascii c)%N eqn:E; [|reflexivity].
  apply N.leb_le in E. intros H. exfalso.
  apply orb_true_iff in H as [H|H]; apply andb_true_iff in H as [_ H];
    apply N.leb_le in H; lia.
Qed.

Lemma str_take_hex s :
  forallb is_hex_digit (String.list_ascii_of_string s) = true ->
  forall n, str_take n s = String.substring 0 n s.
Proof.
  induction s as [|c s IH]; intros H n; [destruct n; reflexivity|].
  cbn [String.list_ascii_of_string forallb] in H.
  apply andb_true_iff in H as [Hc Hs].
  cbn [str_take]. rewrite (hex_digit_leading c Hc).
  destruct n as [|n]; [reflexivity|]. cbn [String.substring]. rewrite (IH Hs). reflexivity.
Qed.

Lemma str_len_hex s :
  forallb is_hex_digit (String.list_ascii_of_string s) = true ->
  str_len s = String.length s.
Proof.
  induction s as [|c s IH]; intros H; [reflexivity|].
  cbn [String.list_ascii_of_string forallb] in H.
  apply andb_true_iff in H as [Hc Hs].
  cbn [str_len String.length]. rewrite (hex_digit_leading c Hc), (IH Hs). reflexivity.
Qed.

Lemma hash_token_is_hex token :
  forallb is_hex_digit (String.list_ascii_of_string (hash_token token)) = true.
Proof. unfold hash_token, Hashlib.sha256_hexdigest. cbv zeta. apply digest_is_hex. Qed.

Lemma hash_token_slice token : str_take 64 (hash_token token) = hash_token token.
Proof.
  rewrite (str_take_hex _ (hash_token_is_hex token)).
  rewrite <- (hash_token_length token) at 1. apply substring_all.
Qed.

Lemma str_len_take n : forall s, str_len (str_take n s) = Nat.min n (str_len s).
Proof.
  intros s. revert n. induction s as [|c s IH]; intros n; [destruct n; reflexivity|].
  cbn [str_take str_len]. destruct (is_continuation c) eqn:E.
  - cbn [str_len]. rewrite E. apply IH.
  - destruct n as [|n]; [reflexivity|]. cbn [str_len]. rewrite E, IH. reflexivity.
Qed.

Lemma str_take_all n : forall s, (str_len s <= n)%nat -> str_take n s = s.
Proof.
  intros s. revert n. induction s as [|c s IH]; intros n H; [reflexivity|].
  cbn [str_take str_len] in *. destruct (is_continuation c).
  - rewrite IH by exact H. reflexivity.
  - destruct n as [|n]; [lia|]. rewrite IH by lia. reflexivity.
Qed.

Lemma str_take_prefix n : forall s, exists rest, s = str_take n s +:+ rest.
Proof.
  intros s. revert n. induction s as [|c s IH]; intros n; [exists ""; reflexivity|].
  cbn [str_take]. destruct (is_continuation c).
  - destruct (IH n) as [rest Hr]. exists rest.
    change (String c s = String c (str_take n s +:+ rest)). f_equal. exact Hr.
  - destruct n as [|n]; [exists (String c s); reflexivity|].
    destruct (IH n) as [rest Hr]. exists rest.
    change (String c s = String c (str_take n s +:+ rest)). f_equal. exact Hr.
Qed.

Lemma str_take_nonempty n s : s <> "" -> str_take (S n) s <> "".
Proof.
  destruct s as [|c s]; [congruence|]. intros _. cbn [str_take].
  destruct (is_continuation c); discriminate.
Qed.

Lemma family63_ok family : family_ok (family63 family).
Proof.
  unfold family63, family_ok. destruct family as [f|]; [|left; reflexivity].
  destruct (String.eqb f "") eqn:E; [left; reflexivity|].
  apply String.eqb_neq in E.
  right. eexists. split; [reflexivity|]. split; [apply str_take_nonempty, E|].
  rewrite str_len_take. lia.
Qed.


(** ** The cache mirror never holds a session *)

Lemma cache_set_instance r key s ttl now :
  cache_set r key (Instance s) ttl now = r.
Proof. unfold cache_set. simpl. destruct (available r); reflexivity. Qed.

Lemma cache_session_unchanged w s now : cache_session w s now = w.
Proof.
  unfold cache_session. rewrite cache_set_instance.
  destruct w; simpl. destruct (0 <? _); reflexivity.
Qed.

Lemma load_session_eq w session_id now :
  load_session w session_id now =
  (match cache_get (redis w) (session_key session_id) now with
   | Some j => if json_truthy j then Cached j else Row (stored w session_id)
   | None => Row (stored w session_id)
   end, w).
Proof.
  unfold load_session, stored.
  destruct (cache_get _ _ _) as [j|]; [destruct (json_truthy j); [reflexivity|]|];
    (destruct (find_session _ _) as [s|]; [|reflexivity];
     destruct (SessionModel.revoked_at s); [reflexivity|];
     destruct (now <? _); rewrite ?cache_session_unchanged; reflexivity).
Qed.

Lemma cache_get_no_entry w session_id now :
  no_cache_entry w session_id ->
  cache_get (redis w) (session_key session_id) now = None.
Proof.
  unfold no_cache_entry, cache_get. intros ->. destruct (available _); reflexivity.
Qed.

Lemma load_session_miss w session_id now :
  no_cache_entry w session_id ->
  load_session w session_id now = (Row (stored w session_id), w).
Proof. intros H. rewrite load_session_eq, cache_get_no_entry; auto. Qed.

(** ** Rows and their updates *)

Lemma find_session_id rows sid s :
  find_session rows sid = Some s -> SessionModel.id s = sid.
Proof.
  unfold find_session. intros H. apply find_some in H as [_ H].
  apply String.eqb_eq in H. exact H.
Qed.

Lemma find_session_In rows sid s :
  find_session rows sid = Some s -> In s rows.
Proof. unfold find_session. intros H. apply find_some in H as [H _]. exact H. Qed.

Lemma find_update_same rows s s0 :
  find_session rows (SessionModel.id s) = Some s0 ->
  find_session (update_session s rows) (SessionModel.id s) = Some s.
Proof.
  unfold find_session, update_session.
  induction rows as [|r rows IH]; simpl; [discriminate|].
  destruct (String.eqb (SessionModel.id r) (SessionModel.id s)) eqn:E.
  - intros _. rewrite String.eqb_refl. reflexivity.
  - rewrite E. exact IH.
Qed.

Lemma find_update_other rows s sid :
  sid <> SessionModel.id s ->
  find_session (update_session s rows) sid = find_session rows sid.
Proof.
  unfold find_session, update_session. intros Hne.
  induction rows as [|r rows IH]; simpl; [reflexivity|].
  destruct (String.eqb (SessionModel.id r) (SessionModel.id s)) eqn:E.
  - apply String.eqb_eq in E.
    assert (String.eqb (SessionModel.id s) sid = false) as ->
      by (apply String.eqb_neq; congruence).
    assert (String.eqb (SessionModel.id r) sid = false) as ->
      by (apply String.eqb_neq; congruence).
    exact IH.
  - rewrite IH. reflexivity.
Qed.

Lemma update_session_ids rows s :
  map SessionModel.id (update_session s rows) = map SessionModel.id rows.
Proof.
  unfold update_session. rewrite map_map. apply map_ext. intros r.
  destruct (String.eqb _ _) eqn:E; [|reflexivity].
  apply String.eqb_eq in E. congruence.
Qed.

(** ** The risk scorer *)

Lemma calculate_risk_table session request_data :
  calculate_risk session request_data = Table.score session request_data.
Proof.
  unfold calculate_risk, Table.score, Table.device, Table.client,
    Table.user_agent, Table.network, Table.same_asn, Table.same_country,
    Table.present.
  repeat match goal with |- context [if ?b then _ else _] => destruct b end; lia.
Qed.

Lemma calculate_risk_nonneg session request_data :
  0 <= calculate_risk session request_data.
Proof.
  unfold calculate_risk.
  repeat match goal with |- context [if ?b then _ else _] => destruct b end; lia.
Qed.

(** ** Branches of [revoke_session], [authenticate_request] and
       [refresh_access_token] *)

Lemma stored_log_security_event w user_id session_id event_type request_data now sid :
  stored (log_security_event w user_id session_id event_type request_data now) sid
  = stored w sid.
Proof. reflexivity. Qed.

Lemma stored_revoke_session w s s0 now :
  stored w (SessionModel.id s) = Some s0 ->
  stored (revoke_session w s now) (SessionModel.id s)
  = Some (SessionModel.set_revoked_at (Some now) s).
Proof.
  intros H.
  pose proof (find_update_same (sessions (db w))
                (SessionModel.set_revoked_at (Some now) s) s0) as P.
  simpl in P. apply P. exact H.
Qed.

Lemma revoke_session_tokens_revoked w s now :
  all_tokens_revoked (SessionModel.id s) (db (revoke_session w s now)).
Proof.
  unfold all_tokens_revoked, tokens_of, revoke_session. simpl.
  induction (refresh_tokens (db w)) as [|r rows IH]; simpl; [constructor|].
  destruct (String.eqb (RefreshToken.session_id r) (SessionModel.id s)) eqn:E; simpl.
  - destruct (RefreshToken.revoked_at r) eqn:R; simpl; rewrite E.
    + constructor; [congruence | exact IH].
    + constructor; [simpl; congruence | exact IH].
  - rewrite E. exact IH.
Qed.

Lemma authenticate_reauth w sid rd now s :
  fst (load_session w sid now) = Row (Some s) ->
  SessionModel.revoked_at s = None ->
  (SessionModel.expires_at s <? now) = false ->
  REAUTH_RISK <= SessionModel.risk_score s + calculate_risk s rd ->
  authenticate_request w sid rd now
  = (Raise ReauthRequired,
     log_security_event (revoke_session w (scored s rd now) now)
       (SessionModel.user_id s) (Some (SessionModel.id s))
       "session_revoked_risk" rd now).
Proof.
  intros Hl Hr He Hk. unfold authenticate_request.
  rewrite load_session_eq in *. simpl in Hl. rewrite Hl, Hr, He. simpl.
  destruct (REAUTH_RISK <=? _) eqn:E; [reflexivity|].
  apply Z.leb_gt in E. lia.
Qed.

Lemma authenticate_accept w sid rd now s :
  fst (load_session w sid now) = Row (Some s) ->
  SessionModel.revoked_at s = None ->
  (SessionModel.expires_at s <? now) = false ->
  SessionModel.risk_score s + calculate_risk s rd < REAUTH_RISK ->
  authenticate_request w sid rd now
  = (Return (update_context (scored s rd now) rd),
     commit_session w (update_context (scored s rd now) rd)).
Proof.
  intros Hl Hr He Hk. unfold authenticate_request.
  rewrite load_session_eq in *. simpl in Hl. rewrite Hl, Hr, He. simpl.
  destruct (REAUTH_RISK <=? _) eqn:E.
  - apply Z.leb_le in E. lia.
  - rewrite cache_session_unchanged. reflexivity.
Qed.

Lemma refresh_reuse w tok rd nt nid now tr s :
  find_token (refresh_tokens (db w)) (hash_token tok) = Some tr ->
  fst (load_session w (RefreshToken.session_id tr) now) = Row (Some s) ->
  SessionModel.revoked_at s = None ->
  RefreshToken.revoked_at tr <> None ->
  refresh_access_token w tok rd nt nid now
  = (Raise TokenReuseDetected,
     log_security_event (revoke_session w s now)
       (SessionModel.user_id s) (Some (SessionModel.id s))
       "token_reuse_detected" rd now).
Proof.
  intros Hf Hl Hr Ht. unfold refresh_access_token.
  rewrite Hf, load_session_eq in *. simpl in Hl. rewrite Hl, Hr. simpl.
  destruct (RefreshToken.revoked_at tr); [reflexivity | congruence].
Qed.

Lemma refresh_session_revoked w tok rd nt nid now tr s :
  find_token (refresh_tokens (db w)) (hash_token tok) = Some tr ->
  fst (load_session w (RefreshToken.session_id tr) now) = Row (Some s) ->
  SessionModel.revoked_at s <> None ->
  refresh_access_token w tok rd nt nid now = (Raise SessionInvalid, w).
Proof.
  intros Hf Hl Hr. unfold refresh_access_token.
  rewrite Hf, load_session_eq in *. simpl in Hl. rewrite Hl.
  destruct (SessionModel.revoked_at s); [reflexivity | congruence].
Qed.

Lemma refresh_suspicious w tok rd nt nid now tr s :
  find_token (refresh_tokens (db w)) (hash_token tok) = Some tr ->
  fst (load_session w (RefreshToken.session_id tr) now) = Row (Some s) ->
  SessionModel.revoked_at s = None ->
  RefreshToken.revoked_at tr = None ->
  (RefreshToken.expires_at tr <? now) = false ->
  REAUTH_RISK <= calculate_risk s rd ->
  refresh_access_token w tok rd nt nid now
  = (Raise SuspiciousActivity,
     log_security_event (revoke_session w s now)
       (SessionModel.user_id s) (Some (SessionModel.id s))
       "session_revoked_suspicious" rd now).
Proof.
  intros Hf Hl Hr Ht He Hk. unfold refresh_access_token.
  rewrite Hf, load_session_eq in *. simpl in Hl. rewrite Hl, Hr, Ht, He. simpl.
  destruct (REAUTH_RISK <=? _) eqn:E; [reflexivity|].
  apply Z.leb_gt in E. lia.
Qed.

Lemma refresh_below_threshold w tok rd nt nid now tr s :
  find_token (refresh_tokens (db w)) (hash_token tok) = Some tr ->
  fst (load_session w (RefreshToken.session_id tr) now) = Row (Some s) ->
  SessionModel.revoked_at s = None ->
  RefreshToken.revoked_at tr = None ->
  (RefreshToken.expires_at tr <? now) = false ->
  calculate_risk s rd < REAUTH_RISK ->
  refresh_access_token w tok rd nt nid now
  = if token_insertable (db w) (successor s nt nid now)
    then (Return (rotated_session s rd now, nt), rotated_world w s tr rd nt nid now)
    else (Raise IntegrityError, w).
Proof.
  intros Hf Hl Hr Ht He Hk. unfold refresh_access_token.
  rewrite Hf, load_session_eq in *. simpl in Hl. rewrite Hl, Hr, Ht, He. simpl.
  destruct (REAUTH_RISK <=? _) eqn:E.
  - apply Z.leb_le in E. lia.
  - fold (successor s nt nid now).
    destruct (token_insertable _ _); [|reflexivity].
    rewrite cache_session_unchanged. reflexivity.
Qed.

Lemma load_row_stored w sid now o :
  fst (load_session w sid now) = Row o -> stored w sid = o.
Proof.
  rewrite load_session_eq. simpl.
  destruct (cache_get _ _ _) as [j|]; [destruct (json_truthy j)|]; congruence.
Qed.

Lemma load_row_id w sid now s :
  fst (load_session w sid now) = Row (Some s) -> SessionModel.id s = sid.
Proof. intros H. apply load_row_stored in H. eapply find_session_id, H. Qed.

(** C5.  The risk scorer is the sum of the four per-signal deltas of the rule
    table (device 40, client 30, user agent 5 or 20, network 2, 8 or 25); a
    signal that is absent from the request adds 0; nothing caps the sum, which
    can exceed [MAX_RISK]; a request with a new device id, a new client id and
    an IP outside the stored ASN and country scores 40 + 30 + 25 = 95; with
    [REAUTH_RISK] = 70 such a request gets the session revoked by the very
    call that carries it, in [authenticate_request] and in
    [refresh_access_token]. *)
Theorem risk_scorer_rule_table :
  (forall session rd, calculate_risk session rd = Table.score session rd)
  /\ (forall session rd,
        (Table.present rd "device_id" = false -> Table.device session rd = 0)
        /\ (Table.present rd "client_id" = false -> Table.client session rd = 0)
        /\ (Table.present rd "user_agent_hash" = false -> Table.user_agent session rd = 0)
        /\ (Table.present rd "ip" = false -> Table.network session rd = 0))
  /\ (exists session rd, MAX_RISK < calculate_risk session rd)
  /\ (forall session rd,
        Table.device session rd = 40 -> Table.client session rd = 30 ->
        Table.user_agent session rd = 0 -> Table.network session rd = 25 ->
        calculate_risk session rd = 95)
  /\ REAUTH_RISK = 70
  /\ (forall w sid rd now session,
        fst (load_session w sid now) = Row (Some session) ->
        SessionModel.revoked_at session = None ->
        (SessionModel.expires_at session <? now) = false ->
        0 <= SessionModel.risk_score session ->
        calculate_risk session rd = 95 ->
        exists w' session',
          authenticate_request w sid rd now = (Raise ReauthRequired, w')
          /\ stored w' sid = Some session'
          /\ SessionModel.revoked_at session' = Some now)
  /\ (forall w tok rd nt nid now tr session,
        find_token (refresh_tokens (db w)) (hash_token tok) = Some tr ->
        fst (load_session w (RefreshToken.session_id tr) now) = Row (Some session) ->
        SessionModel.revoked_at session = None ->
        RefreshToken.revoked_at tr = None ->
        (RefreshToken.expires_at tr <? now) = false ->
        calculate_risk session rd = 95 ->
        exists w' session',
          refresh_access_token w tok rd nt nid now = (Raise SuspiciousActivity, w')
          /\ stored w' (RefreshToken.session_id tr) = Some session'
          /\ SessionModel.revoked_at session' = Some now).
Proof.
  split; [exact calculate_risk_table|].
  split.
  { intros session rd. unfold Table.device, Table.client, Table.user_agent, Table.network.
    repeat split; intros ->; reflexivity. }
  split.
  { exists (SessionModel.mk "s" 1 0 0 0 None (PyStr "d") (PyStr "web") (PyStr "h")
              PyNone (PyStr "Firefox") (PyStr "10.0.0.1") PyNone PyNone 0).
    exists (list_to_map [("device_id", PyStr "e"); ("client_id", PyStr "cli");
                         ("user_agent_hash", PyStr "g"); ("browser_family", PyStr "Chrome");
                         ("ip", PyStr "10.0.0.2")]).
    vm_compute. reflexivity. }
  split.
  { intros session rd Hd Hc Hu Hn. rewrite calculate_risk_table. unfold Table.score. lia. }
  split; [reflexivity|].
  split.
  - intros w sid rd now session Hl Hr He H0 Hk.
    pose proof (load_row_stored _ _ _ _ Hl) as Hs.
    pose proof (load_row_id _ _ _ _ Hl) as Hid.
    eexists _, _. split; [|split].
    + apply (authenticate_reauth w sid rd now session); auto.
      unfold REAUTH_RISK. lia.
    + rewrite stored_log_security_event. rewrite <- Hid.
      change (SessionModel.id session) with (SessionModel.id (scored session rd now)).
      eapply stored_revoke_session. simpl. rewrite Hid. exact Hs.
    + reflexivity.
  - intros w tok rd nt nid now tr session Hf Hl Hr Ht He Hk.
    pose proof (load_row_stored _ _ _ _ Hl) as Hs.
    pose proof (load_row_id _ _ _ _ Hl) as Hid.
    eexists _, _. split; [|split].
    + apply (refresh_suspicious w tok rd nt nid now tr session); auto.
      unfold REAUTH_RISK. lia.
    + rewrite stored_log_security_event. rewrite <- Hid.
      eapply stored_revoke_session. rewrite Hid. exact Hs.
    + reflexivity.
Qed.

(** C10.  When [authenticate_request] fails with "Reauthentication required",
    the row left by the revoking commit carries the risk score already
    increased by the delta of the failing request and [last_seen_at] set to
    the time of the request, besides [revoked_at]; when
    [refresh_access_token] revokes for risk, the row keeps the risk score and
    [last_seen_at] it had and only [revoked_at] is set. *)
Theorem reauth_failure_keeps_tipping_delta :
  (forall w sid rd now w',
     authenticate_request w sid rd now = (Raise ReauthRequired, w') ->
     exists s s',
       stored w sid = Some s /\ stored w' sid = Some s'
       /\ REAUTH_RISK <= SessionModel.risk_score s + calculate_risk s rd
       /\ SessionModel.risk_score s'
          = SessionModel.risk_score s + calculate_risk s rd
       /\ SessionModel.last_seen_at s' = now
       /\ SessionModel.revoked_at s' = Some now)
  /\ (forall w tok rd nt nid now w',
     refresh_access_token w tok rd nt nid now = (Raise SuspiciousActivity, w') ->
     exists tr s s',
       find_token (refresh_tokens (db w)) (hash_token tok) = Some tr
       /\ stored w (RefreshToken.session_id tr) = Some s
       /\ stored w' (RefreshToken.session_id tr) = Some s'
       /\ REAUTH_RISK <= calculate_risk s rd
       /\ SessionModel.risk_score s' = SessionModel.risk_score s
       /\ SessionModel.last_seen_at s' = SessionModel.last_seen_at s
       /\ SessionModel.revoked_at s' = Some now).
Proof.
  split.
  - intros w sid rd now w' H. unfold authenticate_request in H.
    rewrite load_session_eq in H.
    destruct (cache_get _ _ _) as [j|] eqn:Ec;
      [destruct (json_truthy j) eqn:Ej; [rewrite Ej in H; discriminate|]|];
      (destruct (stored w sid) as [s|] eqn:Es; [|discriminate];
       destruct (SessionModel.revoked_at s) eqn:Er; [discriminate|]; simpl in H;
       destruct (SessionModel.expires_at s <? now) eqn:Ee; [discriminate|];
       destruct (REAUTH_RISK <=? _) eqn:Ek; [|discriminate];
       apply Z.leb_le in Ek; simpl in Ek;
       injection H as <-;
       pose proof (find_session_id _ _ _ Es) as Hid;
       exists s, (SessionModel.set_revoked_at (Some now) (scored s rd now));
       split; [reflexivity|]; split;
       [ rewrite stored_log_security_event; rewrite <- Hid;
         apply (stored_revoke_session w (scored s rd now) s); simpl;
         rewrite Hid; exact Es
       | repeat split; assumption ]).
  - intros w tok rd nt nid now w' H. unfold refresh_access_token in H.
    destruct (find_token _ _) as [tr|] eqn:Ef; [|discriminate].
    rewrite load_session_eq in H.
    destruct (cache_get _ _ _) as [j|] eqn:Ec;
      [destruct (json_truthy j) eqn:Ej; [rewrite Ej in H; discriminate|]|];
      (destruct (stored w (RefreshToken.session_id tr)) as [s|] eqn:Es; [|discriminate];
       destruct (SessionModel.revoked_at s) eqn:Er; [discriminate|]; simpl in H;
       destruct (RefreshToken.revoked_at tr) eqn:Et; [discriminate|]; simpl in H;
       destruct (RefreshToken.expires_at tr <? now) eqn:Ee; [discriminate|];
       destruct (REAUTH_RISK <=? _) eqn:Ek;
       [| destruct (token_insertable _ _); discriminate];
       apply Z.leb_le in Ek;
       injection H as <-;
       pose proof (find_session_id _ _ _ Es) as Hid;
       exists tr, s, (SessionModel.set_revoked_at (Some now) s);
       split; [reflexivity|]; split; [exact Es|]; split;
       [ rewrite stored_log_security_event; rewrite <- Hid;
         apply (stored_revoke_session w s s); rewrite Hid; exact Es
       | repeat split; assumption ]).
Qed.

(** C4 (as the code has it).  A call of [authenticate_request] that returns
    the session has set [last_seen_at] to the time of the request, added the
    risk delta to [risk_score], and, when the request carries an IP, stored
    that IP with the ASN and country of the geo stub; device id, client id,
    user-agent hash, OS family and browser family keep their stored values,
    so later requests are still scored against the fingerprint the session
    had before. *)
Theorem authenticate_success_updates w sid rd now s' w' :
  authenticate_request w sid rd now = (Return s', w') ->
  exists s,
    stored w sid = Some s /\ stored w' sid = Some s'
    /\ SessionModel.last_seen_at s' = now
    /\ SessionModel.risk_score s' = SessionModel.risk_score s + calculate_risk s rd
    /\ (if truthy (get rd "ip")
        then SessionModel.last_ip s' = get rd "ip"
             /\ SessionModel.last_asn s' = PyNone
             /\ SessionModel.last_country s' = PyNone
        else SessionModel.last_ip s' = SessionModel.last_ip s
             /\ SessionModel.last_asn s' = SessionModel.last_asn s
             /\ SessionModel.last_country s' = SessionModel.last_country s)
    /\ SessionModel.device_id s' = SessionModel.device_id s
    /\ SessionModel.client_id s' = SessionModel.client_id s
    /\ SessionModel.user_agent_hash s' = SessionModel.user_agent_hash s
    /\ SessionModel.os_family s' = SessionModel.os_family s
    /\ SessionModel.browser_family s' = SessionModel.browser_family s.
Proof.
  intros H. unfold authenticate_request in H. rewrite load_session_eq in H.
  destruct (cache_get _ _ _) as [j|] eqn:Ec;
    [destruct (json_truthy j) eqn:Ej; [rewrite Ej in H; discriminate|]|];
    (destruct (stored w sid) as [s|] eqn:Es; [|discriminate];
     destruct (SessionModel.revoked_at s) eqn:Er; [discriminate|]; simpl in H;
     destruct (SessionModel.expires_at s <? now) eqn:Ee; [discriminate|];
     destruct (REAUTH_RISK <=? _) eqn:Ek; [discriminate|];
     rewrite cache_session_unchanged in H;
     injection H as <- <-;
     pose proof (find_session_id _ _ _ Es) as Hid;
     exists s; split; [reflexivity|]; split;
     [ unfold commit_session, stored; simpl; rewrite <- Hid;
       pose proof (find_update_same (sessions (db w))
                     (update_context (scored s rd now) rd) s) as P;
       assert (Hi : SessionModel.id (update_context (scored s rd now) rd)
                    = SessionModel.id s)
         by (unfold update_context; destruct (truthy _); reflexivity);
       rewrite Hi in P; apply P; rewrite Hid; exact Es
     | unfold update_context; destruct (truthy (get rd "ip"));
       simpl; repeat split ]).
Qed.

(** ** Revoking twice *)

Lemma update_session_twice a b rows :
  SessionModel.id a = SessionModel.id b ->
  update_session b (update_session a rows) = update_session b rows.
Proof.
  intros Hab. unfold update_session. rewrite map_map. apply map_ext. intros r.
  rewrite Hab.
  destruct (String.eqb (SessionModel.id r) (SessionModel.id b)) eqn:E.
  - rewrite Hab, String.eqb_refl. reflexivity.
  - rewrite E. reflexivity.
Qed.

Lemma cache_delete_twice r key : cache_delete (cache_delete r key) key = cache_delete r key.
Proof.
  unfold cache_delete.
  destruct (available r) eqn:E; simpl; rewrite ?E, ?delete_delete_eq; reflexivity.
Qed.

Lemma revoke_tokens_twice sid t1 t2 (rows : list RefreshToken.t) :
  map (fun r => if String.eqb (RefreshToken.session_id r) sid
                   && is_none (RefreshToken.revoked_at r)
                then RefreshToken.set_revoked_at (Some t2) r else r)
      (map (fun r => if String.eqb (RefreshToken.session_id r) sid
                        && is_none (RefreshToken.revoked_at r)
                     then RefreshToken.set_revoked_at (Some t1) r else r) rows)
  = map (fun r => if String.eqb (RefreshToken.session_id r) sid
                     && is_none (RefreshToken.revoked_at r)
                  then RefreshToken.set_revoked_at (Some t1) r else r) rows.
Proof.
  rewrite map_map. apply map_ext. intros r.
  destruct (String.eqb (RefreshToken.session_id r) sid) eqn:E; simpl.
  - destruct (RefreshToken.revoked_at r) eqn:R; simpl; rewrite E; simpl.
    + rewrite R. reflexivity.
    + reflexivity.
  - rewrite E. reflexivity.
Qed.

(** C3 (as the code has it).  A second [revoke_session] on the session just
    revoked changes no token (all of them carry the stamp of the first call),
    emits no security event (the first call emitted none either) and leaves
    the cache as the first eviction left it, but it overwrites the session's
    [revoked_at] with the time of the second call; the two states are equal
    when both calls are made at the same instant. *)
Theorem revoke_session_twice w s t1 t2 :
  refresh_tokens
    (db (revoke_session (revoke_session w s t1)
           (SessionModel.set_revoked_at (Some t1) s) t2))
  = refresh_tokens (db (revoke_session w s t1))
  /\ security_events
       (db (revoke_session (revoke_session w s t1)
              (SessionModel.set_revoked_at (Some t1) s) t2))
     = security_events (db w)
  /\ security_events (db (revoke_session w s t1)) = security_events (db w)
  /\ redis (revoke_session (revoke_session w s t1)
              (SessionModel.set_revoked_at (Some t1) s) t2)
     = redis (revoke_session w s t1)
  /\ revoke_session (revoke_session w s t1)
       (SessionModel.set_revoked_at (Some t1) s) t2
     = mkWorld
         (mkDB (update_session (SessionModel.set_revoked_at (Some t2) s) (sessions (db w)))
               (refresh_tokens (db (revoke_session w s t1)))
               (security_events (db w)))
         (redis (revoke_session w s t1))
  /\ (t2 = t1 ->
      revoke_session (revoke_session w s t1)
        (SessionModel.set_revoked_at (Some t1) s) t2
      = revoke_session w s t1).
Proof.
  assert (E : revoke_session (revoke_session w s t1)
                (SessionModel.set_revoked_at (Some t1) s) t2
              = mkWorld
                  (mkDB (update_session (SessionModel.set_revoked_at (Some t2) s)
                           (sessions (db w)))
                        (refresh_tokens (db (revoke_session w s t1)))
                        (security_events (db w)))
                  (redis (revoke_session w s t1))).
  { unfold revoke_session at 1. simpl.
    rewrite revoke_tokens_twice, cache_delete_twice.
    rewrite update_session_twice by reflexivity. reflexivity. }
  rewrite E. simpl. repeat split.
  intros ->. reflexivity.
Qed.

(** C2 (as the code has it).  For a refresh call that passes token lookup,
    session validity, reuse detection and token expiry, the risk branch is
    taken exactly when the delta computed for this request alone is at least
    [REAUTH_RISK], whatever the stored score; the branch revokes the session
    and its tokens without adding the delta, records a
    [session_revoked_suspicious] event and fails with "Suspicious activity
    detected"; below the threshold the call rotates the token. *)
Theorem refresh_risk_branch w tok rd nt nid now tr s :
  find_token (refresh_tokens (db w)) (hash_token tok) = Some tr ->
  fst (load_session w (RefreshToken.session_id tr) now) = Row (Some s) ->
  SessionModel.revoked_at s = None ->
  RefreshToken.revoked_at tr = None ->
  (RefreshToken.expires_at tr <? now) = false ->
  (fst (refresh_access_token w tok rd nt nid now) = Raise SuspiciousActivity
   <-> REAUTH_RISK <= calculate_risk s rd)
  /\ (REAUTH_RISK <= calculate_risk s rd ->
      fst (refresh_access_token w tok rd nt nid now) = Raise SuspiciousActivity
      /\ stored (snd (refresh_access_token w tok rd nt nid now))
                (RefreshToken.session_id tr)
         = Some (SessionModel.set_revoked_at (Some now) s)
      /\ all_tokens_revoked (RefreshToken.session_id tr)
           (db (snd (refresh_access_token w tok rd nt nid now)))
      /\ security_events (db (snd (refresh_access_token w tok rd nt nid now)))
         = (security_events (db w)
            ++ [SecurityEvent.mk (SessionModel.user_id s) (Some (SessionModel.id s))
                  "session_revoked_suspicious" (get rd "ip") (get rd "user_agent")
                  (get rd "details") now])%list)
  /\ (calculate_risk s rd < REAUTH_RISK ->
      refresh_access_token w tok rd nt nid now
      = if token_insertable (db w) (successor s nt nid now)
        then (Return (rotated_session s rd now, nt), rotated_world w s tr rd nt nid now)
        else (Raise IntegrityError, w)).
Proof.
  intros Hf Hl Hr Ht He.
  pose proof (load_row_stored _ _ _ _ Hl) as Hs.
  pose proof (load_row_id _ _ _ _ Hl) as Hid.
  assert (Hhigh : REAUTH_RISK <= calculate_risk s rd ->
                  refresh_access_token w tok rd nt nid now
                  = (Raise SuspiciousActivity,
                     log_security_event (revoke_session w s now)
                       (SessionModel.user_id s) (Some (SessionModel.id s))
                       "session_revoked_suspicious" rd now))
    by (intros Hk; apply (refresh_suspicious w tok rd nt nid now tr s); assumption).
  assert (Hlow : calculate_risk s rd < REAUTH_RISK ->
                 refresh_access_token w tok rd nt nid now
                 = if token_insertable (db w) (successor s nt nid now)
                   then (Return (rotated_session s rd now, nt),
                         rotated_world w s tr rd nt nid now)
                   else (Raise IntegrityError, w))
    by (intros Hk; apply (refresh_below_threshold w tok rd nt nid now tr s); assumption).
  split; [split|split].
  - intros Hres. destruct (Z_le_gt_dec REAUTH_RISK (calculate_risk s rd)) as [|Hgt]; [assumption|].
    rewrite Hlow in Hres by lia.
    destruct (token_insertable _ _); discriminate.
  - intros Hk. rewrite Hhigh by assumption. reflexivity.
  - intros Hk. rewrite Hhigh by assumption. simpl. repeat split.
    + rewrite <- Hid. apply (stored_revoke_session w s s). rewrite Hid. exact Hs.
    + rewrite <- Hid. apply revoke_session_tokens_revoked.
  - exact Hlow.
Qed.

(** ** Replaying a consumed token *)

Lemma find_token_hash rows h tr :
  find_token rows h = Some tr -> RefreshToken.token_hash tr = h.
Proof.
  unfold find_token. intros H. apply find_some in H as [_ H].
  apply String.eqb_eq in H. exact H.
Qed.

Lemma find_token_In rows h tr : find_token rows h = Some tr -> In tr rows.
Proof. unfold find_token. intros H. apply find_some in H as [H _]. exact H. Qed.

Lemma find_token_app rows more h tr :
  find_token rows h = Some tr -> find_token (rows ++ more) h = Some tr.
Proof.
  unfold find_token. induction rows as [|r rows IH]; simpl; [discriminate|].
  destruct (String.eqb _ _); auto.
Qed.

Lemma find_token_update rows h tr tr' :
  find_token rows h = Some tr ->
  RefreshToken.id tr' = RefreshToken.id tr ->
  RefreshToken.token_hash tr' = h ->
  find_token (update_token tr' rows) h = Some tr'.
Proof.
  unfold find_token, update_token. intros H Hi Hh.
  induction rows as [|r rows IH]; simpl in *; [discriminate|].
  destruct (String.eqb (RefreshToken.id r) (RefreshToken.id tr')) eqn:E.
  - rewrite Hh, String.eqb_refl. reflexivity.
  - destruct (String.eqb (RefreshToken.token_hash r) h) eqn:E2.
    + injection H as ->. rewrite Hi, String.eqb_refl in E. discriminate.
    + apply IH. exact H.
Qed.

Lemma find_token_map (f : RefreshToken.t -> RefreshToken.t) rows h :
  (forall r, RefreshToken.token_hash (f r) = RefreshToken.token_hash r) ->
  find_token (map f rows) h = option_map f (find_token rows h).
Proof.
  intros Hf. unfold find_token.
  induction rows as [|r rows IH]; simpl; [reflexivity|].
  rewrite Hf. destruct (String.eqb _ _); [reflexivity | exact IH].
Qed.

(** The token record found for [h] after [revoke_session]. *)
Lemma find_token_revoke_session w s now h tr :
  find_token (refresh_tokens (db w)) h = Some tr ->
  exists tr',
    find_token (refresh_tokens (db (revoke_session w s now))) h = Some tr'
    /\ RefreshToken.session_id tr' = RefreshToken.session_id tr
    /\ (RefreshToken.revoked_at tr <> None -> RefreshToken.revoked_at tr' <> None).
Proof.
  intros H. unfold revoke_session. simpl.
  rewrite find_token_map.
  - rewrite H. simpl. eexists. split; [reflexivity|].
    destruct (_ && _); simpl; split; auto; congruence.
  - intros r. destruct (_ && _); reflexivity.
Qed.

Lemma no_cache_entry_revoke_session w s now sid :
  no_cache_entry w sid -> no_cache_entry (revoke_session w s now) sid.
Proof.
  unfold no_cache_entry, revoke_session, cache_delete. simpl. intros H.
  destruct (available (redis w)); simpl; [|exact H].
  apply lookup_delete_None. right. exact H.
Qed.

Lemma update_context_id s rd : SessionModel.id (update_context s rd) = SessionModel.id s.
Proof. unfold update_context. destruct (truthy _); reflexivity. Qed.

Lemma update_context_revoked_at s rd :
  SessionModel.revoked_at (update_context s rd) = SessionModel.revoked_at s.
Proof. unfold update_context. destruct (truthy _); reflexivity. Qed.

Lemma rotated_session_id s rd now :
  SessionModel.id (rotated_session s rd now) = SessionModel.id s.
Proof. unfold rotated_session. rewrite update_context_id. reflexivity. Qed.

Lemma refresh_success_inv w tok rd nt nid now s nt' w1 :
  refresh_access_token w tok rd nt nid now = (Return (s, nt'), w1) ->
  exists tr s0,
    find_token (refresh_tokens (db w)) (hash_token tok) = Some tr
    /\ fst (load_session w (RefreshToken.session_id tr) now) = Row (Some s0)
    /\ SessionModel.revoked_at s0 = None
    /\ RefreshToken.revoked_at tr = None
    /\ (RefreshToken.expires_at tr <? now) = false
    /\ calculate_risk s0 rd < REAUTH_RISK
    /\ token_insertable (db w) (successor s0 nt nid now) = true
    /\ s = rotated_session s0 rd now /\ nt' = nt
    /\ w1 = rotated_world w s0 tr rd nt nid now.
Proof.
  intros H. pose proof H as H'. unfold refresh_access_token in H.
  destruct (find_token _ _) as [tr|] eqn:Ef; [|discriminate].
  destruct (load_session w (RefreshToken.session_id tr) now) as [l w0] eqn:El.
  assert (w0 = w) as -> by (rewrite load_session_eq in El; congruence).
  destruct l as [j|[s0|]];
    [destruct (json_truthy j); discriminate| |discriminate].
  destruct (SessionModel.revoked_at s0) eqn:Er; [discriminate|]. simpl in H.
  destruct (RefreshToken.revoked_at tr) eqn:Et; [discriminate|]. simpl in H.
  destruct (RefreshToken.expires_at tr <? now) eqn:Ee; [discriminate|].
  destruct (REAUTH_RISK <=? _) eqn:Ek; [discriminate|]. apply Z.leb_gt in Ek.
  clear H.
  assert (Hl : fst (load_session w (RefreshToken.session_id tr) now) = Row (Some s0))
    by (rewrite El; reflexivity).
  rewrite (refresh_below_threshold w tok rd nt nid now tr s0) in H' by assumption.
  destruct (token_insertable _ _) eqn:Ei; [|discriminate].
  injection H' as <- <- <-.
  exists tr, s0. repeat split; assumption.
Qed.

Lemma replay_session_revoked w tok tr s attempts :
  find_token (refresh_tokens (db w)) (hash_token tok) = Some tr ->
  no_cache_entry w (RefreshToken.session_id tr) ->
  stored w (RefreshToken.session_id tr) = Some s ->
  SessionModel.revoked_at s <> None ->
  replay w tok attempts = (repeat (Raise SessionInvalid) (length attempts), w).
Proof.
  intros Hf Hc Hs Hr. induction attempts as [|[[[rd nt] nid] now] rest IH]; [reflexivity|].
  simpl. rewrite (refresh_session_revoked w tok rd nt nid now tr s); auto.
  - simpl. rewrite IH. reflexivity.
  - rewrite load_session_miss by assumption. simpl. congruence.
Qed.

Lemma scored_risk s rd now :
  SessionModel.risk_score s <= SessionModel.risk_score (scored s rd now).
Proof. simpl. pose proof (calculate_risk_nonneg s rd). lia. Qed.

Lemma update_context_risk s rd :
  SessionModel.risk_score (update_context s rd) = SessionModel.risk_score s.
Proof. unfold update_context. destruct (truthy _); reflexivity. Qed.


Lemma create_changes w user_id rd session_id token_id refresh_token now :
  rtc change w (snd (create_session w user_id rd session_id token_id refresh_token now)).
Proof.
  unfold create_session.
  destruct (parse_user_agent _) as [ua|]; [|apply rtc_refl].
  destruct (session_pk_free _ _ && _) eqn:E; [|apply rtc_refl].
  apply andb_true_iff in E as [E _].
  simpl. rewrite cache_session_unchanged.
  eapply rtc_l; [|apply rtc_once, change_log].
  apply change_insert; [exact E | reflexivity | reflexivity].
Qed.

Lemma authenticate_changes w sid rd now :
  rtc change w (snd (authenticate_request w sid rd now)).
Proof.
  unfold authenticate_request. rewrite load_session_eq.
  destruct (cache_get _ _ _) as [j|];
    [destruct (json_truthy j) eqn:Ej; [rewrite Ej; apply rtc_refl|]|];
    (destruct (stored w sid) as [s|] eqn:Es; [|apply rtc_refl];
     pose proof (find_session_id _ _ _ Es) as Hid;
     destruct (SessionModel.revoked_at s); [apply rtc_refl|]; simpl;
     destruct (SessionModel.expires_at s <? now); [apply rtc_refl|];
     destruct (REAUTH_RISK <=? _); simpl;
     [ eapply rtc_l; [|apply rtc_once, change_log];
       apply (change_revoke w (scored s rd now) s); [simpl; rewrite Hid; exact Es|];
       apply scored_risk
     | rewrite cache_session_unchanged; apply rtc_once;
       apply (change_commit w _ s);
       [ rewrite update_context_id; simpl; rewrite Hid; exact Es
       | rewrite update_context_risk; apply scored_risk ] ]).
Qed.

Lemma refresh_changes w tok rd nt nid now :
  rtc change w (snd (refresh_access_token w tok rd nt nid now)).
Proof.
  unfold refresh_access_token.
  destruct (find_token _ _) as [tr|] eqn:Ef; [|apply rtc_refl].
  rewrite load_session_eq.
  assert (Hrow : forall s, stored w (RefreshToken.session_id tr) = Some s ->
    rtc change w
      (snd (if negb (is_none (SessionModel.revoked_at s)) then (Raise SessionInvalid, w)
       else if negb (is_none (RefreshToken.revoked_at tr))
       then (Raise TokenReuseDetected,
             log_security_event (revoke_session w s now) (SessionModel.user_id s)
               (Some (SessionModel.id s)) "token_reuse_detected" rd now)
       else if RefreshToken.expires_at tr <? now then (Raise TokenExpired, w)
       else if REAUTH_RISK <=? calculate_risk s rd
       then (Raise SuspiciousActivity,
             log_security_event (revoke_session w s now) (SessionModel.user_id s)
               (Some (SessionModel.id s)) "session_revoked_suspicious" rd now)
       else if token_insertable (db w) (successor s nt nid now)
       then (Return (rotated_session s rd now, nt),
             cache_session (rotated_world w s tr rd nt nid now)
               (rotated_session s rd now) now)
       else (Raise IntegrityError, w)))).
  { intros s Es. pose proof (find_session_id _ _ _ Es) as Hid.
    assert (Hrev : forall ty, rtc change w
              (log_security_event (revoke_session w s now) (SessionModel.user_id s)
                 (Some (SessionModel.id s)) ty rd now)).
    { intros ty. eapply rtc_l; [|apply rtc_once, change_log].
      apply (change_revoke w s s); [rewrite Hid; exact Es | lia]. }
    destruct (SessionModel.revoked_at s); [apply rtc_refl|]. simpl.
    destruct (RefreshToken.revoked_at tr) eqn:Et; simpl; [apply Hrev|].
    destruct (RefreshToken.expires_at tr <? now); [apply rtc_refl|].
    destruct (REAUTH_RISK <=? _); simpl; [apply Hrev|].
    destruct (token_insertable _ _); [|apply rtc_refl].
    simpl. rewrite cache_session_unchanged. apply rtc_once.
    apply change_rotate; [eapply find_token_In, Ef | exact Et | exact Es]. }
  destruct (cache_get _ _ _) as [j|];
    [destruct (json_truthy j) eqn:Ej; [rewrite Ej; apply rtc_refl|]|];
    (destruct (stored w (RefreshToken.session_id tr)) as [s|] eqn:Es;
     [exact (Hrow s eq_refl) | apply rtc_refl]).
Qed.

Lemma revoke_by_id_changes w sid now : rtc change w (revoke_by_id w sid now).
Proof.
  unfold revoke_by_id. rewrite load_session_eq.
  destruct (cache_get _ _ _) as [j|];
    [destruct (json_truthy j); [apply rtc_refl|]|];
    (destruct (stored w sid) as [s|] eqn:Es; [|apply rtc_refl];
     apply rtc_once, (change_revoke w s s);
     [rewrite (find_session_id _ _ _ Es); exact Es | lia]).
Qed.

Lemma find_session_unique rows s :
  NoDup (map SessionModel.id rows) -> In s rows ->
  find_session rows (SessionModel.id s) = Some s.
Proof.
  unfold find_session. induction rows as [|r rows IH]; simpl; [tauto|].
  intros Hnd [->|Hin].
  - rewrite String.eqb_refl. reflexivity.
  - inversion Hnd as [|? ? Hnotin Hnd']; subst.
    destruct (String.eqb (SessionModel.id r) (SessionModel.id s)) eqn:E.
    + apply String.eqb_eq in E. exfalso. apply Hnotin. rewrite E.
      apply list_elem_of_In, in_map. exact Hin.
    + apply IH; assumption.
Qed.

Lemma NoDup_map_filter {A B} (g : A -> B) (f : A -> bool) (l : list A) :
  NoDup (map g l) -> NoDup (map g (List.filter f l)).
Proof.
  induction l as [|a l IH]; simpl; [auto|].
  intros Hnd. inversion Hnd as [|? ? Hnotin Hnd']; subst.
  destruct (f a); simpl; [|auto].
  constructor; [|auto].
  intros Hin. apply Hnotin. apply list_elem_of_In.
  apply list_elem_of_In, in_map_iff in Hin as (x & Hx & Hin).
  apply in_map_iff. exists x. split; [exact Hx|].
  apply filter_In in Hin. tauto.
Qed.

Lemma stored_revoke_session_other w s now sid :
  sid <> SessionModel.id s ->
  stored (revoke_session w s now) sid = stored w sid.
Proof. intros Hne. unfold stored, revoke_session. simpl. apply find_update_other. exact Hne. Qed.

Lemma fold_revoke_changes now (l : list SessionModel.t) :
  forall w,
    NoDup (map SessionModel.id l) ->
    (forall s, In s l -> stored w (SessionModel.id s) = Some s) ->
    rtc change w (fold_left (fun w session => revoke_session w session now) l w).
Proof.
  induction l as [|s l IH]; intros w Hnd Hst; simpl; [apply rtc_refl|].
  inversion Hnd as [|? ? Hnotin Hnd']; subst.
  eapply rtc_l.
  - apply (change_revoke w s s); [apply Hst; left; reflexivity | lia].
  - apply IH; [exact Hnd'|].
    intros s2 Hin. rewrite stored_revoke_session_other.
    + apply Hst. right. exact Hin.
    + intros Heq. apply Hnotin. rewrite <- Heq. apply list_elem_of_In, in_map. exact Hin.
Qed.

Lemma revoke_all_changes w user_id now :
  session_ids_unique (db w) -> rtc change w (revoke_all_sessions w user_id now).
Proof.
  intros Hu. unfold revoke_all_sessions.
  eapply rtc_r; [|apply change_log].
  apply fold_revoke_changes.
  - apply NoDup_map_filter. exact Hu.
  - intros s Hin. apply filter_In in Hin as [Hin _].
    apply find_session_unique; assumption.
Qed.

Lemma step_changes w c :
  session_ids_unique (db w) -> rtc change w (step w c).
Proof.
  intros Hu. destruct c as [[] now]; unfold step; simpl.
  - apply create_changes.
  - rewrite load_session_eq. apply rtc_refl.
  - apply authenticate_changes.
  - apply refresh_changes.
  - apply revoke_by_id_changes.
  - apply revoke_all_changes. exact Hu.
Qed.

(** *** What the writes preserve *)

Lemma session_pk_free_notin d id :
  session_pk_free d id = true -> ~ In id (map SessionModel.id (sessions d)).
Proof.
  unfold session_pk_free. intros H Hin.
  apply in_map_iff in Hin as (r & Hr & Hin).
  rewrite forallb_forall in H. specialize (H r Hin).
  rewrite <- Hr, String.eqb_refl in H. discriminate.
Qed.

Lemma change_ids w w' :
  change w w' ->
  (map SessionModel.id (sessions (db w')) = map SessionModel.id (sessions (db w)))
  \/ (exists session,
        sessions (db w') = (sessions (db w) ++ [session])%list
        /\ ~ In (SessionModel.id session) (map SessionModel.id (sessions (db w)))).
Proof.
  intros [ | s s0 now _ _ | s s0 _ _ | s0 tr rd nt nid now _ _ _ | session tok Hfree _ _];
    simpl; try (left; first [reflexivity | apply update_session_ids]).
  right. exists session. split; [reflexivity|].
  apply session_pk_free_notin. exact Hfree.
Qed.

Lemma change_unique w w' :
  change w w' -> session_ids_unique (db w) -> session_ids_unique (db w').
Proof.
  unfold session_ids_unique. intros Hc Hu.
  destruct (change_ids _ _ Hc) as [->|(session & -> & Hnotin)]; [exact Hu|].
  rewrite map_app. simpl. apply NoDup_app. split; [exact Hu|]. split.
  - intros x Hx Hin. apply list_elem_of_In in Hx. apply list_elem_of_In in Hin.
    simpl in Hin. destruct Hin as [<-|[]]. contradiction.
  - apply NoDup_singleton.
Qed.

Lemma changes_unique w w' :
  rtc change w w' -> session_ids_unique (db w) -> session_ids_unique (db w').
Proof. induction 1; eauto using change_unique. Qed.

Lemma run_unique w calls :
  session_ids_unique (db w) -> session_ids_unique (db (run w calls)).
Proof.
  revert w. induction calls as [|c calls IH]; intros w Hu; simpl; [exact Hu|].
  apply IH. eapply changes_unique; [apply step_changes|]; exact Hu.
Qed.

Lemma run_changes w calls :
  session_ids_unique (db w) -> rtc change w (run w calls).
Proof.
  revert w. induction calls as [|c calls IH]; intros w Hu; simpl; [apply rtc_refl|].
  eapply rtc_trans; [apply step_changes; exact Hu|].
  apply IH. eapply changes_unique; [apply step_changes|]; exact Hu.
Qed.

(** *** Risk scores under the writes *)

Lemma find_session_app rows more sid s :
  find_session rows sid = Some s -> find_session (rows ++ more) sid = Some s.
Proof.
  unfold find_session. induction rows as [|r rows IH]; simpl; [discriminate|].
  destruct (String.eqb _ _); auto.
Qed.




Lemma find_session_fresh rows session :
  ~ In (SessionModel.id session) (map SessionModel.id rows) ->
  find_session (rows ++ [session]) (SessionModel.id session) = Some session.
Proof.
  unfold find_session. induction rows as [|r rows IH]; simpl; intros Hn.
  - rewrite String.eqb_refl. reflexivity.
  - destruct (String.eqb (SessionModel.id r) (SessionModel.id session)) eqn:E.
    + apply String.eqb_eq in E. tauto.
    + apply IH. tauto.
Qed.


(** *** Unrevoked tokens under the writes *)

Lemma filter_length_le {A} (p q : A -> bool) (l : list A) :
  (forall x, q x = true -> p x = true) ->
  (length (List.filter q l) <= length (List.filter p l))%nat.
Proof.
  intros Hpq. induction l as [|a l IH]; simpl; [lia|].
  destruct (q a) eqn:Eq.
  - rewrite (Hpq _ Eq). simpl. lia.
  - destruct (p a); simpl; lia.
Qed.

Lemma filter_map_length_le {A} (p : A -> bool) (g : A -> A) (l : list A) :
  (forall x, p (g x) = true -> p x = true) ->
  (length (List.filter p (map g l)) <= length (List.filter p l))%nat.
Proof.
  intros Hg. induction l as [|a l IH]; simpl; [lia|].
  destruct (p (g a)) eqn:E.
  - rewrite (Hg _ E). simpl. lia.
  - destruct (p a); simpl; lia.
Qed.

Lemma filter_map_length_lt {A} (p : A -> bool) (g : A -> A) (l : list A) x :
  (forall x, p (g x) = true -> p x = true) ->
  In x l -> p x = true -> p (g x) = false ->
  (length (List.filter p (map g l)) < length (List.filter p l))%nat.
Proof.
  intros Hg Hin Hpx Hgx. induction l as [|a l IH]; simpl; [destruct Hin|].
  destruct Hin as [->|Hin].
  - rewrite Hgx, Hpx. simpl.
    pose proof (filter_map_length_le p g l Hg). lia.
  - specialize (IH Hin). destruct (p (g a)) eqn:E.
    + rewrite (Hg _ E). simpl. lia.
    + destruct (p a); simpl; lia.
Qed.

Lemma filter_none {A} (p : A -> bool) (l : list A) :
  (forall x, In x l -> p x = false) -> List.filter p l = [].
Proof.
  induction l as [|a l IH]; simpl; intros H; [reflexivity|].
  rewrite (H a) by (left; reflexivity). apply IH. intros x Hx. apply H. right. exact Hx.
Qed.

Lemma unrevoked_session_id sid r :
  unrevoked sid r = true -> RefreshToken.session_id r = sid.
Proof.
  unfold unrevoked. intros H. apply andb_true_iff in H as [H _].
  apply String.eqb_eq. exact H.
Qed.

Lemma change_rotation_invariant w w' :
  change w w' -> rotation_invariant (db w) -> rotation_invariant (db w').
Proof.
  unfold rotation_invariant, tokens_have_session, unrevoked_count.
  intros [ | s s0 now _ _ | s s0 _ _ | s0 tr rd nt nid now Hin Ht H0
         | session tok Hfree Htok _] [Hfk Hcnt]; simpl.
  - split; assumption.
  - split.
    + rewrite update_session_ids. apply Forall_map.
      eapply Forall_impl; [exact Hfk|]. intros r Hr.
      destruct (_ && _); exact Hr.
    + intros sid. etransitivity; [|apply (Hcnt sid)].
      apply filter_map_length_le. intros r.
      destruct (String.eqb (RefreshToken.session_id r) (SessionModel.id s)
                && is_none (RefreshToken.revoked_at r)); [|auto].
      unfold unrevoked. simpl. rewrite andb_false_r. discriminate.
  - split; [rewrite update_session_ids|]; assumption.
  - pose proof (find_session_id _ _ _ H0) as Hid.
    assert (Hg : forall sid r,
      unrevoked sid (if String.eqb (RefreshToken.id r) (RefreshToken.id (consumed tr nid now))
                     then consumed tr nid now else r) = true ->
      unrevoked sid r = true).
    { intros sid r. destruct (String.eqb _ _); [|auto].
      unfold unrevoked. simpl. rewrite andb_false_r. discriminate. }
    split.
    + rewrite update_session_ids. apply Forall_app. split.
      * unfold update_token. apply Forall_map.
        eapply Forall_impl; [exact Hfk|]. intros r Hr. simpl.
        destruct (String.eqb _ _); [|exact Hr]. simpl.
        rewrite Forall_forall in Hfk. apply list_elem_of_In in Hin.
        apply (Hfk tr Hin).
      * constructor; [|constructor]. simpl.
        apply in_map. eapply find_session_In, H0.
    + intros sid. rewrite List.filter_app, length_app. simpl.
      specialize (Hcnt sid).
      pose proof (filter_map_length_le (unrevoked sid)
                    (fun r => if String.eqb (RefreshToken.id r)
                                   (RefreshToken.id (consumed tr nid now))
                              then consumed tr nid now else r)
                    (refresh_tokens (db w)) (Hg sid)) as Hle.
      fold (update_token (consumed tr nid now) (refresh_tokens (db w))) in Hle.
      destruct (unrevoked sid (successor s0 nt nid now)) eqn:Ex; simpl; [|lia].
      apply unrevoked_session_id in Ex. simpl in Ex.
      assert (Hptr : unrevoked sid tr = true).
      { unfold unrevoked. rewrite Ht. simpl. rewrite andb_true_r.
        apply String.eqb_eq. congruence. }
      pose proof (filter_map_length_lt (unrevoked sid)
                    (fun r => if String.eqb (RefreshToken.id r)
                                   (RefreshToken.id (consumed tr nid now))
                              then consumed tr nid now else r)
                    (refresh_tokens (db w)) tr (Hg sid) Hin Hptr) as Hlt.
      fold (update_token (consumed tr nid now) (refresh_tokens (db w))) in Hlt.
      assert (Hgx : unrevoked sid
                      (if String.eqb (RefreshToken.id tr)
                            (RefreshToken.id (consumed tr nid now))
                       then consumed tr nid now else tr) = false).
      { simpl. rewrite String.eqb_refl. unfold unrevoked. simpl.
        apply andb_false_r. }
      specialize (Hlt Hgx). lia.
  - pose proof (session_pk_free_notin _ _ Hfree) as Hnotin. split.
    + apply Forall_app. split.
      * eapply Forall_impl; [exact Hfk|]. intros r Hr. simpl in Hr.
        rewrite map_app. apply in_or_app. left. exact Hr.
      * constructor; [|constructor]. rewrite Htok, map_app.
        apply in_or_app. right. left. reflexivity.
    + intros sid. rewrite List.filter_app, length_app. simpl.
      specialize (Hcnt sid).
      destruct (unrevoked sid tok) eqn:Ex; simpl; [|lia].
      apply unrevoked_session_id in Ex.
      assert (List.filter (unrevoked sid) (refresh_tokens (db w)) = []) as ->.
      { apply filter_none. intros r Hr.
        destruct (unrevoked sid r) eqn:Er; [|reflexivity]. exfalso.
        apply unrevoked_session_id in Er.
        rewrite Forall_forall in Hfk. apply list_elem_of_In in Hr.
        apply Hnotin. rewrite <- Htok, Ex, <- Er. apply (Hfk r Hr). }
      simpl. lia.
Qed.

Lemma changes_rotation_invariant w w' :
  rtc change w w' -> rotation_invariant (db w) -> rotation_invariant (db w').
Proof. induction 1; eauto using change_rotation_invariant. Qed.

Lemma empty_db_invariant : rotation_invariant empty_db /\ session_ids_unique empty_db.
Proof.
  unfold rotation_invariant, tokens_have_session, unrevoked_count, session_ids_unique.
  simpl. repeat split; try constructor. intros; lia.
Qed.

Lemma token_insertable_fresh d t :
  token_insertable d t = true ->
  ~ In (RefreshToken.id t) (map RefreshToken.id (refresh_tokens d)).
Proof.
  intros H Hin. apply in_map_iff in Hin as (r & Hr & Hin).
  unfold token_insertable in H. rewrite forallb_forall in H.
  specialize (H r Hin). apply andb_true_iff in H as [H _].
  rewrite Hr, String.eqb_refl in H. discriminate.
Qed.

Lemma filter_length_pos {A} (p : A -> bool) (l : list A) x :
  In x l -> p x = true -> (1 <= length (List.filter p l))%nat.
Proof.
  induction l as [|a l IH]; simpl; [tauto|].
  intros [->|Hin] Hp.
  - rewrite Hp. simpl. lia.
  - specialize (IH Hin Hp). destruct (p a); simpl; lia.
Qed.

Lemma tokens_of_fresh_session d sid :
  tokens_have_session d -> session_pk_free d sid = true -> tokens_of sid d = [].
Proof.
  unfold tokens_have_session, tokens_of. intros Hfk Hfree.
  apply filter_none. intros r Hr. apply String.eqb_neq. intros Heq.
  apply (session_pk_free_notin _ _ Hfree). rewrite <- Heq.
  rewrite Forall_forall in Hfk. apply Hfk. apply list_elem_of_In. exact Hr.
Qed.

Lemma unrevoked_fresh_session d sid :
  tokens_have_session d -> session_pk_free d sid = true ->
  List.filter (unrevoked sid) (refresh_tokens d) = [].
Proof.
  unfold tokens_have_session. intros Hfk Hfree.
  apply filter_none. intros r Hr.
  destruct (unrevoked sid r) eqn:E; [|reflexivity]. exfalso.
  apply unrevoked_session_id in E.
  apply (session_pk_free_notin _ _ Hfree). rewrite <- E.
  rewrite Forall_forall in Hfk. apply Hfk. apply list_elem_of_In. exact Hr.
Qed.

(** [create_session] on a request whose user agent is a [str] (or missing)
    and with draws that collide with nothing stored. *)
Lemma create_session_succeeds w user_id rd session_id token_id tok now ua :
  ua_text rd = Some ua ->
  session_pk_free (db w) session_id = true ->
  token_insertable (db w)
    (RefreshToken.mk token_id session_id (hash_token tok)
       (now + REFRESH_TOKEN_LIFETIME) None None) = true ->
  exists os browser,
    family_ok os /\ family_ok browser
    /\ create_session w user_id rd session_id token_id tok now
       = (Return
            (SessionModel.mk session_id user_id now now (now + SESSION_ABSOLUTE_LIMIT)
               None (get rd "device_id") (get_or rd "client_id" (PyStr "web"))
               (PyStr (hash_token ua)) os browser (get rd "ip") PyNone PyNone 0,
             tok),
          mkWorld
            (mkDB
               (sessions (db w)
                ++ [SessionModel.mk session_id user_id now now
                      (now + SESSION_ABSOLUTE_LIMIT) None (get rd "device_id")
                      (get_or rd "client_id" (PyStr "web")) (PyStr (hash_token ua))
                      os browser (get rd "ip") PyNone PyNone 0])
               (refresh_tokens (db w)
                ++ [RefreshToken.mk token_id session_id (hash_token tok)
                      (now + REFRESH_TOKEN_LIFETIME) None None])
               (security_events (db w)
                ++ [SecurityEvent.mk user_id (Some session_id) "session_created"
                      (get rd "ip") (get rd "user_agent") (get rd "details") now]))
            (redis w)).
Proof.
  unfold ua_text, create_session. intros Hua Hpk Htok.
  destruct (get_or rd "user_agent" (PyStr "")) as [|z|ua']; try discriminate.
  injection Hua as ->.
  unfold parse_user_agent. cbv zeta. rewrite hash_token_slice.
  destruct (parse ua) as [agent|]; cbn [info_hash info_os_family info_browser_family];
    rewrite Hpk, Htok; cbn [andb]; rewrite cache_session_unchanged.
  - exists (family63 (ua_os_family agent)), (family63 (ua_browser_family agent)).
    split; [apply family63_ok|]. split; [apply family63_ok|]. reflexivity.
  - exists PyNone, PyNone.
    split; [left; reflexivity|]. split; [left; reflexivity|]. reflexivity.
Qed.

(** C7.  In every state reached from the empty store by any sequence of
    calls, each session has at most one refresh token that is neither revoked
    nor expired, at any instant, and every token belongs to a stored session.
    [create_session], given a user agent that is a [str] and draws that
    collide with nothing stored, returns and adds exactly one token, the only
    token of the new session; [refresh_access_token], when its checks pass
    and its draw is fresh, returns, stamps the presented record and appends
    its successor in the same commit, after which the successor is the one
    unrevoked token of the session; [revoke_session] leaves no token of the
    session without a stamp. *)
Theorem at_most_one_usable_token :
  (forall r calls,
     rotation_invariant (db (run (mkWorld empty_db r) calls))
     /\ forall sid now,
          (length (List.filter (usable sid now)
                     (refresh_tokens (db (run (mkWorld empty_db r) calls)))) <= 1)%nat)
  /\ (forall w user_id rd session_id token_id refresh_token now ua,
        ua_text rd = Some ua ->
        session_pk_free (db w) session_id = true ->
        token_insertable (db w)
          (RefreshToken.mk token_id session_id (hash_token refresh_token)
             (now + REFRESH_TOKEN_LIFETIME) None None) = true ->
        exists session w',
          create_session w user_id rd session_id token_id refresh_token now
          = (Return (session, refresh_token), w')
          /\ refresh_tokens (db w')
             = (refresh_tokens (db w)
                ++ [RefreshToken.mk token_id session_id (hash_token refresh_token)
                      (now + REFRESH_TOKEN_LIFETIME) None None])%list
          /\ (tokens_have_session (db w) ->
              tokens_of session_id (db w')
              = [RefreshToken.mk token_id session_id (hash_token refresh_token)
                   (now + REFRESH_TOKEN_LIFETIME) None None]
              /\ unrevoked_count session_id (db w') = 1%nat))
  /\ (forall w user_id rd session_id token_id refresh_token now session tok w',
        create_session w user_id rd session_id token_id refresh_token now
        = (Return (session, tok), w') ->
        refresh_tokens (db w')
        = (refresh_tokens (db w)
           ++ [RefreshToken.mk token_id session_id (hash_token refresh_token)
                 (now + REFRESH_TOKEN_LIFETIME) None None])%list)
  /\ (forall w tok rd nt nid now tr s,
        find_token (refresh_tokens (db w)) (hash_token tok) = Some tr ->
        fst (load_session w (RefreshToken.session_id tr) now) = Row (Some s) ->
        SessionModel.revoked_at s = None ->
        RefreshToken.revoked_at tr = None ->
        (RefreshToken.expires_at tr <? now) = false ->
        calculate_risk s rd < REAUTH_RISK ->
        token_insertable (db w) (successor s nt nid now) = true ->
        exists w',
          refresh_access_token w tok rd nt nid now
          = (Return (rotated_session s rd now, nt), w')
          /\ refresh_tokens (db w')
             = (update_token (consumed tr nid now) (refresh_tokens (db w))
                ++ [successor s nt nid now])%list
          /\ find_token (refresh_tokens (db w')) (hash_token tok)
             = Some (consumed tr nid now)
          /\ RefreshToken.revoked_at (consumed tr nid now) = Some now
          /\ RefreshToken.replaced_by (consumed tr nid now) = Some nid
          /\ RefreshToken.revoked_at (successor s nt nid now) = None
          /\ (rotation_invariant (db w) ->
              unrevoked_count (SessionModel.id s) (db w') = 1%nat))
  /\ (forall w tok rd nt nid now s nt' w',
        refresh_access_token w tok rd nt nid now = (Return (s, nt'), w') ->
        exists tr,
          find_token (refresh_tokens (db w)) (hash_token tok) = Some tr
          /\ RefreshToken.revoked_at tr = None
          /\ refresh_tokens (db w')
             = (update_token (consumed tr nid now) (refresh_tokens (db w))
                ++ [successor s nt nid now])%list
          /\ RefreshToken.revoked_at (consumed tr nid now) = Some now
          /\ RefreshToken.replaced_by (consumed tr nid now)
             = Some (RefreshToken.id (successor s nt nid now)))
  /\ (forall w s now,
        all_tokens_revoked (SessionModel.id s) (db (revoke_session w s now))
        /\ unrevoked_count (SessionModel.id s) (db (revoke_session w s now)) = 0%nat).
Proof.
  split; [|split; [|split; [|split; [|split]]]].
  - intros r calls.
    destruct empty_db_invariant as [Hinv Hu].
    pose proof (changes_rotation_invariant _ _
                  (run_changes (mkWorld empty_db r) calls Hu) Hinv) as Hrun.
    split; [exact Hrun|]. intros sid now. destruct Hrun as [_ Hcnt].
    etransitivity; [|apply (Hcnt sid)].
    apply filter_length_le. intros x Hx. unfold usable in Hx.
    apply andb_true_iff in Hx as [Hx _]. exact Hx.
  - intros w user_id rd session_id token_id refresh_token now ua Hua Hpk Htok.
    destruct (create_session_succeeds w user_id rd session_id token_id refresh_token
                now ua Hua Hpk Htok) as (os & browser & _ & _ & E).
    eexists _, _. split; [exact E|]. split; [reflexivity|].
    intros Hfk. unfold tokens_of, unrevoked_count. cbn [db refresh_tokens].
    rewrite !List.filter_app, (unrevoked_fresh_session _ _ Hfk Hpk).
    pose proof (tokens_of_fresh_session _ _ Hfk Hpk) as E0. unfold tokens_of in E0.
    rewrite E0. cbn [List.filter RefreshToken.session_id app].
    unfold unrevoked. cbn [RefreshToken.session_id RefreshToken.revoked_at is_none].
    rewrite String.eqb_refl. split; reflexivity.
  - intros w user_id rd session_id token_id refresh_token now session tok w' H.
    unfold create_session in H.
    destruct (parse_user_agent _) as [ua|]; [|discriminate].
    destruct (session_pk_free _ _ && _); [|discriminate].
    rewrite cache_session_unchanged in H. injection H as _ _ <-. reflexivity.
  - intros w tok rd nt nid now tr s Hf Hl Hr Ht He Hk Hi.
    pose proof (load_row_stored _ _ _ _ Hl) as Hs.
    pose proof (find_session_id _ _ _ Hs) as Hid.
    eexists. split.
    { rewrite (refresh_below_threshold w tok rd nt nid now tr s) by assumption.
      rewrite Hi. reflexivity. }
    split; [reflexivity|]. split.
    { unfold rotated_world. cbn [db refresh_tokens]. apply find_token_app.
      apply (find_token_update _ _ tr); [exact Hf | reflexivity |].
      simpl. eapply find_token_hash, Hf. }
    split; [reflexivity|]. split; [reflexivity|]. split; [reflexivity|].
    intros Hinv.
    assert (Hc : change w (rotated_world w s tr rd nt nid now)).
    { apply change_rotate; [eapply find_token_In, Hf | exact Ht | exact Hs]. }
    destruct (change_rotation_invariant _ _ Hc Hinv) as [_ Hcnt].
    specialize (Hcnt (SessionModel.id s)).
    assert (1 <= unrevoked_count (SessionModel.id s)
                   (db (rotated_world w s tr rd nt nid now)))%nat; [|lia].
    unfold unrevoked_count.
    apply (filter_length_pos _ _ (successor s nt nid now)).
    + unfold rotated_world. cbn [db refresh_tokens].
      apply in_or_app. right. left. reflexivity.
    + unfold unrevoked, successor. cbn. rewrite String.eqb_refl. reflexivity.
  - intros w tok rd nt nid now s nt' w' H.
    destruct (refresh_success_inv _ _ _ _ _ _ _ _ _ H)
      as (tr & s0 & Hf & Hl & Hr & Ht & He & Hk & Hi & -> & _ & ->).
    exists tr. split; [exact Hf|]. split; [exact Ht|]. split; [|split; reflexivity].
    unfold rotated_world, successor. simpl. rewrite rotated_session_id. reflexivity.
  - intros w s now. split; [apply revoke_session_tokens_revoked|].
    unfold unrevoked_count. apply length_zero_iff_nil, filter_none.
    intros r Hr.
    pose proof (revoke_session_tokens_revoked w s now) as Hall.
    unfold all_tokens_revoked, tokens_of in Hall. rewrite Forall_forall in Hall.
    unfold unrevoked.
    destruct (String.eqb (RefreshToken.session_id r) (SessionModel.id s)) eqn:E;
      [|reflexivity].
    assert (Hin : In r (List.filter
                          (fun r => String.eqb (RefreshToken.session_id r)
                                      (SessionModel.id s))
                          (refresh_tokens (db (revoke_session w s now)))))
      by (apply filter_In; split; assumption).
    apply list_elem_of_In in Hin. specialize (Hall r Hin).
    destruct (RefreshToken.revoked_at r); [reflexivity | congruence].
Qed.

(** C8.  [load_session] never fills the cache: [cache_session] hands the
    mapped instance to [cache_set], whose [json.dumps] raises and is
    swallowed, so the lookup leaves store and cache as they were and, in a
    cache that holds nothing under the session's key, the next lookup misses
    again and reads the store; a lookup that does hit returns the decoded
    payload, which is not a row of the store. *)
Theorem load_session_never_backfills :
  (forall w session_id now, snd (load_session w session_id now) = w)
  /\ (forall w session_id now now',
        no_cache_entry w session_id ->
        fst (load_session w session_id now) = Row (stored w session_id)
        /\ cache_get (redis (snd (load_session w session_id now)))
                     (session_key session_id) now' = None)
  /\ (forall w session_id now j,
        cache_get (redis w) (session_key session_id) now = Some j ->
        json_truthy j = true ->
        fst (load_session w session_id now) = Cached j).
Proof.
  split; [|split].
  - intros w session_id now. rewrite load_session_eq. reflexivity.
  - intros w session_id now now' Hc. rewrite load_session_miss by exact Hc.
    simpl. split; [reflexivity|]. apply cache_get_no_entry. exact Hc.
  - intros w session_id now j Hj Ht. rewrite load_session_eq, Hj, Ht. reflexivity.
Qed.

(** * Further properties *)

(** ** [hash_token] and [parse_user_agent] *)

(** X1.  [hash_token] always returns 64 lowercase hexadecimal digits, so the
    slice [[:64]] taken by [parse_user_agent] keeps the whole digest and the
    value fits the 64-character columns. *)
Theorem hash_token_hex64 token :
  String.length (hash_token token) = 64%nat
  /\ forallb is_hex_digit (String.list_ascii_of_string (hash_token token)) = true
  /\ String.substring 0 64 (hash_token token) = hash_token token
  /\ str_len (hash_token token) = 64%nat
  /\ str_take 64 (hash_token token) = hash_token token.
Proof.
  pose proof (hash_token_length token) as L.
  split; [exact L|]. split; [apply hash_token_is_hex|]. split.
  - rewrite <- L at 1. apply substring_all.
  - split; [|apply hash_token_slice].
    rewrite (str_len_hex _ (hash_token_is_hex token)). exact L.
Qed.

(** X2.  On a [str], [parse_user_agent] never raises: it returns the full
    SHA-256 digest of the string as [hash] whether or not the parser fails,
    both families are [None] when the parser fails, and each family is
    [None] or a non-empty string of at most 63 characters: a family of at
    most 63 characters is returned whole, a longer one is cut after its
    63rd character, never inside one.  On [None] or an integer the call
    raises, because the handler calls [hash_token] again. *)
Theorem parse_user_agent_result :
  (forall s, exists os browser,
      parse_user_agent (PyStr s) = Some (mk_ua_info os browser (PyStr (hash_token s)))
      /\ family_ok os /\ family_ok browser
      /\ (parse s = None -> os = PyNone /\ browser = PyNone)
      /\ (forall ua, parse s = Some ua ->
            os = family63 (ua_os_family ua)
            /\ browser = family63 (ua_browser_family ua)))
  /\ family63 None = PyNone
  /\ family63 (Some "") = PyNone
  /\ (forall f, f <> "" -> (str_len f <= 63)%nat -> family63 (Some f) = PyStr f)
  /\ (forall f, f <> "" ->
        exists g rest,
          family63 (Some f) = PyStr g /\ f = g +:+ rest /\ g <> ""
          /\ str_len g = Nat.min 63 (str_len f))
  /\ parse_user_agent PyNone = None
  /\ (forall z, parse_user_agent (PyInt z) = None).
Proof.
  assert (Hne : forall f, f <> "" -> family63 (Some f) = PyStr (str_take 63 f)).
  { intros f Hf. unfold family63. apply String.eqb_neq in Hf. rewrite Hf. reflexivity. }
  split; [|split; [reflexivity|split; [reflexivity|split; [|split; [|split; reflexivity]]]]].
  - intros s. unfold parse_user_agent. rewrite hash_token_slice.
    destruct (parse s) as [ua|].
    + eexists _, _. split; [reflexivity|].
      split; [apply family63_ok|]. split; [apply family63_ok|].
      split; [discriminate|]. intros ua' [= <-]. split; reflexivity.
    + exists PyNone, PyNone. split; [reflexivity|].
      split; [left; reflexivity|]. split; [left; reflexivity|].
      split; [auto | discriminate].
  - intros f Hf Hl. rewrite (Hne f Hf), str_take_all by exact Hl. reflexivity.
  - intros f Hf. destruct (str_take_prefix 63 f) as [rest Hr].
    exists (str_take 63 f), rest. split; [apply Hne, Hf|]. split; [exact Hr|].
    split; [apply str_take_nonempty, Hf | apply str_len_take].
Qed.

(** ** The cache functions *)

(** X3.  On a reachable Redis, a plain value stored by [cache_set] with a
    positive effective TTL is returned by [cache_get] up to and including
    the instant [now + ttl] seconds and no longer after it ([None] is
    returned as [None], as for a miss); other keys are not affected; after
    [cache_delete] the key is gone.  A missing or zero [ttl] stands for
    [settings.redis_cache_ttl]. *)
Theorem cache_round_trip r key j ttl now t :
  available r = true ->
  0 < effective_ttl ttl ->
  cache_get (cache_set r key (Plain j) ttl now) key t
  = (if t <=? now + seconds (effective_ttl ttl) then json_loads j else None)
  /\ (j <> JNull -> json_loads j = Some j)
  /\ (forall key', key' <> key ->
        cache_get (cache_set r key (Plain j) ttl now) key' t = cache_get r key' t)
  /\ cache_get (cache_delete (cache_set r key (Plain j) ttl now) key) key t = None
  /\ effective_ttl None = redis_cache_ttl settings
  /\ effective_ttl (Some 0) = redis_cache_ttl settings.
Proof.
  intros Ha Ht.
  assert (E : cache_set r key (Plain j) ttl now
              = mkRedis true (<[key := (j, now + seconds (effective_ttl ttl))]> (entries r))).
  { unfold cache_set. rewrite Ha. simpl. fold (effective_ttl ttl).
    destruct (0 <? effective_ttl ttl) eqn:E; [reflexivity|].
    apply Z.ltb_ge in E. lia. }
  rewrite E. unfold cache_get, cache_delete. simpl.
  split; [rewrite lookup_insert_eq; reflexivity|].
  split; [intros Hj; destruct j; [congruence | reflexivity ..]|].
  split; [|split; [rewrite lookup_delete_eq; reflexivity | split; reflexivity]].
  intros key' Hne. rewrite lookup_insert_ne by congruence. rewrite Ha. reflexivity.
Qed.

(** X4.  The answer of the session manager and the store it leaves do not
    depend on the cache when the lookup of the session key misses: two worlds
    with the same store, both missing, get the same result and the same store
    from [authenticate_request] and from [refresh_access_token].  An
    unreachable Redis always misses. *)
Theorem cache_miss_is_transparent w1 w2 :
  db w1 = db w2 ->
  (forall sid rd now,
     cache_get (redis w1) (session_key sid) now = None ->
     cache_get (redis w2) (session_key sid) now = None ->
     fst (authenticate_request w1 sid rd now) = fst (authenticate_request w2 sid rd now)
     /\ db (snd (authenticate_request w1 sid rd now))
        = db (snd (authenticate_request w2 sid rd now)))
  /\ (forall tok rd nt nid now,
        (forall sid, cache_get (redis w1) (session_key sid) now = None) ->
        (forall sid, cache_get (redis w2) (session_key sid) now = None) ->
        fst (refresh_access_token w1 tok rd nt nid now)
        = fst (refresh_access_token w2 tok rd nt nid now)
        /\ db (snd (refresh_access_token w1 tok rd nt nid now))
           = db (snd (refresh_access_token w2 tok rd nt nid now)))
  /\ (available (redis w1) = false ->
      forall key now, cache_get (redis w1) key now = None).
Proof.
  destruct w1 as [d r1], w2 as [d2 r2]. simpl. intros <-.
  split; [|split].
  - intros sid rd now H1 H2. unfold authenticate_request.
    rewrite !load_session_eq. simpl. rewrite H1, H2. unfold stored. simpl.
    destruct (find_session (sessions d) sid) as [s|]; [|split; reflexivity].
    destruct (SessionModel.revoked_at s); [split; reflexivity|]. simpl.
    destruct (SessionModel.expires_at s <? now); [split; reflexivity|].
    destruct (REAUTH_RISK <=? _); [split; reflexivity|].
    rewrite !cache_session_unchanged. split; reflexivity.
  - intros tok rd nt nid now H1 H2. unfold refresh_access_token. simpl.
    destruct (find_token (refresh_tokens d) (hash_token tok)) as [tr|];
      [|split; reflexivity].
    rewrite !load_session_eq. simpl. rewrite H1, H2. unfold stored. simpl.
    destruct (find_session (sessions d) (RefreshToken.session_id tr)) as [s|];
      [|split; reflexivity].
    destruct (SessionModel.revoked_at s); [split; reflexivity|]. simpl.
    destruct (RefreshToken.revoked_at tr); [split; reflexivity|]. simpl.
    destruct (RefreshToken.expires_at tr <? now); [split; reflexivity|].
    destruct (REAUTH_RISK <=? _); [split; reflexivity|].
    simpl. destruct (token_insertable _ _); [|split; reflexivity].
    rewrite !cache_session_unchanged. split; reflexivity.
  - intros Ha key now. unfold cache_get. rewrite Ha. reflexivity.
Qed.

(** ** Writes, call by call *)

Lemma session_kept_refl s : session_kept s s.
Proof. unfold session_kept. repeat split; auto; lia. Qed.

Lemma session_kept_trans a b c : session_kept a b -> session_kept b c -> session_kept a c.
Proof.
  unfold session_kept.
  intros (?&?&?&?&?&?&?&?&?&?&?) (?&?&?&?&?&?&?&?&?&?&?).
  repeat split; try congruence; try lia; auto.
Qed.

Lemma session_kept_scored s rd now : session_kept s (scored s rd now).
Proof.
  unfold session_kept. simpl. pose proof (calculate_risk_nonneg s rd).
  repeat split; auto; lia.
Qed.

Lemma session_kept_update_context s rd : session_kept s (update_context s rd).
Proof.
  unfold session_kept, update_context.
  destruct (truthy _); simpl; repeat split; auto; lia.
Qed.

Lemma session_kept_set_revoked s v : session_kept s (SessionModel.set_revoked_at (Some v) s).
Proof. unfold session_kept. simpl. repeat split; auto; try discriminate; lia. Qed.

Lemma session_kept_rotated s rd now : session_kept s (rotated_session s rd now).
Proof.
  unfold rotated_session.
  eapply session_kept_trans; [|apply session_kept_update_context].
  unfold session_kept. simpl. pose proof (calculate_risk_nonneg s rd).
  repeat split; auto; lia.
Qed.

Lemma write_change w w' : write w w' -> change w w'.
Proof.
  intros [ | s s0 now Hs Hk | s s0 Hs Hk | s0 tr rd nt nid now Hin Ht Hs
         | session tok Hf Ht Hr].
  - apply change_log.
  - apply (change_revoke w s s0); [exact Hs | apply Hk].
  - apply (change_commit w s s0); [exact Hs | apply Hk].
  - apply change_rotate; assumption.
  - apply change_insert; assumption.
Qed.

Lemma write_touch w w' : write w w' -> touch w w'.
Proof. intros []; constructor. Qed.

Lemma writes_touches w w' : rtc write w w' -> rtc touch w w'.
Proof. induction 1; [apply rtc_refl | eapply rtc_l; eauto using write_touch]. Qed.

Lemma writes_changes w w' : rtc write w w' -> rtc change w w'.
Proof. induction 1; [apply rtc_refl | eapply rtc_l; eauto using write_change]. Qed.

Lemma create_writes w user_id rd session_id token_id refresh_token now :
  rtc write w (snd (create_session w user_id rd session_id token_id refresh_token now)).
Proof.
  unfold create_session.
  destruct (parse_user_agent _) as [ua|]; [|apply rtc_refl].
  destruct (session_pk_free _ _ && _) eqn:E; [|apply rtc_refl].
  apply andb_true_iff in E as [E _].
  simpl. rewrite cache_session_unchanged.
  eapply rtc_l; [|apply rtc_once, write_log].
  apply write_insert; [exact E | reflexivity | reflexivity].
Qed.

Lemma authenticate_writes w sid rd now :
  rtc write w (snd (authenticate_request w sid rd now)).
Proof.
  unfold authenticate_request. rewrite load_session_eq.
  destruct (cache_get _ _ _) as [j|];
    [destruct (json_truthy j) eqn:Ej; [rewrite Ej; apply rtc_refl|]|];
    (destruct (stored w sid) as [s|] eqn:Es; [|apply rtc_refl];
     pose proof (find_session_id _ _ _ Es) as Hid;
     destruct (SessionModel.revoked_at s); [apply rtc_refl|]; simpl;
     destruct (SessionModel.expires_at s <? now); [apply rtc_refl|];
     destruct (REAUTH_RISK <=? _); simpl;
     [ eapply rtc_l; [|apply rtc_once, write_log];
       apply (write_revoke w (scored s rd now) s); [simpl; rewrite Hid; exact Es|];
       apply session_kept_scored
     | rewrite cache_session_unchanged; apply rtc_once;
       apply (write_commit w _ s);
       [ rewrite update_context_id; simpl; rewrite Hid; exact Es
       | eapply session_kept_trans;
         [apply session_kept_scored | apply session_kept_update_context] ] ]).
Qed.

Lemma refresh_writes w tok rd nt nid now :
  rtc write w (snd (refresh_access_token w tok rd nt nid now)).
Proof.
  unfold refresh_access_token.
  destruct (find_token _ _) as [tr|] eqn:Ef; [|apply rtc_refl].
  rewrite load_session_eq.
  assert (Hrow : forall s, stored w (RefreshToken.session_id tr) = Some s ->
    rtc write w
      (snd (if negb (is_none (SessionModel.revoked_at s)) then (Raise SessionInvalid, w)
       else if negb (is_none (RefreshToken.revoked_at tr))
       then (Raise TokenReuseDetected,
             log_security_event (revoke_session w s now) (SessionModel.user_id s)
               (Some (SessionModel.id s)) "token_reuse_detected" rd now)
       else if RefreshToken.expires_at tr <? now then (Raise TokenExpired, w)
       else if REAUTH_RISK <=? calculate_risk s rd
       then (Raise SuspiciousActivity,
             log_security_event (revoke_session w s now) (SessionModel.user_id s)
               (Some (SessionModel.id s)) "session_revoked_suspicious" rd now)
       else if token_insertable (db w) (successor s nt nid now)
       then (Return (rotated_session s rd now, nt),
             cache_session (rotated_world w s tr rd nt nid now)
               (rotated_session s rd now) now)
       else (Raise IntegrityError, w)))).
  { intros s Es. pose proof (find_session_id _ _ _ Es) as Hid.
    assert (Hrev : forall ty, rtc write w
              (log_security_event (revoke_session w s now) (SessionModel.user_id s)
                 (Some (SessionModel.id s)) ty rd now)).
    { intros ty. eapply rtc_l; [|apply rtc_once, write_log].
      apply (write_revoke w s s); [rewrite Hid; exact Es | apply session_kept_refl]. }
    destruct (SessionModel.revoked_at s); [apply rtc_refl|]. simpl.
    destruct (RefreshToken.revoked_at tr) eqn:Et; simpl; [apply Hrev|].
    destruct (RefreshToken.expires_at tr <? now); [apply rtc_refl|].
    destruct (REAUTH_RISK <=? _); simpl; [apply Hrev|].
    destruct (token_insertable _ _); [|apply rtc_refl].
    simpl. rewrite cache_session_unchanged. apply rtc_once.
    apply write_rotate; [eapply find_token_In, Ef | exact Et | exact Es]. }
  destruct (cache_get _ _ _) as [j|];
    [destruct (json_truthy j) eqn:Ej; [rewrite Ej; apply rtc_refl|]|];
    (destruct (stored w (RefreshToken.session_id tr)) as [s|] eqn:Es;
     [exact (Hrow s eq_refl) | apply rtc_refl]).
Qed.

Lemma revoke_by_id_writes w sid now : rtc write w (revoke_by_id w sid now).
Proof.
  unfold revoke_by_id. rewrite load_session_eq.
  destruct (cache_get _ _ _) as [j|];
    [destruct (json_truthy j); [apply rtc_refl|]|];
    (destruct (stored w sid) as [s|] eqn:Es; [|apply rtc_refl];
     apply rtc_once, (write_revoke w s s);
     [rewrite (find_session_id _ _ _ Es); exact Es | apply session_kept_refl]).
Qed.

Lemma fold_revoke_writes now (l : list SessionModel.t) :
  forall w,
    NoDup (map SessionModel.id l) ->
    (forall s, In s l -> stored w (SessionModel.id s) = Some s) ->
    rtc write w (fold_left (fun w session => revoke_session w session now) l w).
Proof.
  induction l as [|s l IH]; intros w Hnd Hst; simpl; [apply rtc_refl|].
  inversion Hnd as [|? ? Hnotin Hnd']; subst.
  eapply rtc_l.
  - apply (write_revoke w s s); [apply Hst; left; reflexivity | apply session_kept_refl].
  - apply IH; [exact Hnd'|].
    intros s2 Hin. rewrite stored_revoke_session_other.
    + apply Hst. right. exact Hin.
    + intros Heq. apply Hnotin. rewrite <- Heq. apply list_elem_of_In, in_map. exact Hin.
Qed.

Lemma revoke_all_writes w user_id now :
  session_ids_unique (db w) -> rtc write w (revoke_all_sessions w user_id now).
Proof.
  intros Hu. unfold revoke_all_sessions.
  eapply rtc_r; [|apply write_log].
  apply fold_revoke_writes.
  - apply NoDup_map_filter. exact Hu.
  - intros s Hin. apply filter_In in Hin as [Hin _].
    apply find_session_unique; assumption.
Qed.

Lemma step_writes w c : session_ids_unique (db w) -> rtc write w (step w c).
Proof.
  intros Hu. destruct c as [[] now]; unfold step; simpl.
  - apply create_writes.
  - rewrite load_session_eq. apply rtc_refl.
  - apply authenticate_writes.
  - apply refresh_writes.
  - apply revoke_by_id_writes.
  - apply revoke_all_writes. exact Hu.
Qed.

Lemma run_writes w calls : session_ids_unique (db w) -> rtc write w (run w calls).
Proof.
  revert w. induction calls as [|c calls IH]; intros w Hu; simpl; [apply rtc_refl|].
  eapply rtc_trans; [apply step_writes; exact Hu|].
  apply IH. eapply changes_unique; [apply writes_changes, step_writes|]; exact Hu.
Qed.

Lemma fold_revoke_touches now (l : list SessionModel.t) :
  forall w, rtc touch w (fold_left (fun w session => revoke_session w session now) l w).
Proof.
  induction l as [|s l IH]; intros w; simpl; [apply rtc_refl|].
  eapply rtc_l; [apply touch_revoke | apply IH].
Qed.

Lemma step_touches w c : rtc touch w (step w c).
Proof.
  destruct c as [[] now]; unfold step; simpl.
  - apply writes_touches, create_writes.
  - rewrite load_session_eq. apply rtc_refl.
  - apply writes_touches, authenticate_writes.
  - apply writes_touches, refresh_writes.
  - apply writes_touches, revoke_by_id_writes.
  - unfold revoke_all_sessions. eapply rtc_r; [apply fold_revoke_touches | apply touch_log].
Qed.

Lemma run_touches w calls : rtc touch w (run w calls).
Proof.
  revert w. induction calls as [|c calls IH]; intros w; simpl; [apply rtc_refl|].
  eapply rtc_trans; [apply step_touches | apply IH].
Qed.

(** ** What no sequence of calls undoes *)

Lemma update_token_ids t rows :
  map RefreshToken.id (update_token t rows) = map RefreshToken.id rows.
Proof.
  unfold update_token. rewrite map_map. apply map_ext. intros r.
  destruct (String.eqb _ _) eqn:E; [|reflexivity].
  apply String.eqb_eq in E. congruence.
Qed.

Lemma cache_delete_entries r key : entries (cache_delete r key) ⊆ entries r.
Proof.
  unfold cache_delete. destruct (available r); simpl; [apply delete_subseteq | reflexivity].
Qed.

Lemma cache_delete_available r key : available (cache_delete r key) = available r.
Proof. unfold cache_delete. destruct (available r) eqn:E; simpl; auto. Qed.

Lemma grows_refl w : grows w w.
Proof. unfold grows. split; [|split; [|split]]; reflexivity. Qed.

Lemma grows_trans a b c : grows a b -> grows b c -> grows a c.
Proof.
  unfold grows. intros (E1 & T1 & A1 & C1) (E2 & T2 & A2 & C2).
  split; [|split; [|split]]; try (etransitivity; eassumption); congruence.
Qed.

Lemma touch_grows w w' : touch w w' -> grows w w'.
Proof.
  unfold grows.
  intros [ | s now | s | s0 tr rd nt nid now | session tok]; simpl.
  - split; [|split; [|split]]; try reflexivity. apply prefix_app_r. reflexivity.
  - split; [|split; [|split]]; try reflexivity.
    + rewrite map_map. erewrite map_ext; [reflexivity|].
      intros r. simpl. destruct (_ && _); reflexivity.
    + apply cache_delete_available.
    + apply cache_delete_entries.
  - split; [|split; [|split]]; reflexivity.
  - split; [|split; [|split]]; try reflexivity.
    rewrite map_app, update_token_ids. apply prefix_app_r. reflexivity.
  - split; [|split; [|split]]; try reflexivity.
    rewrite map_app. apply prefix_app_r. reflexivity.
Qed.

Lemma touches_grow w w' : rtc touch w w' -> grows w w'.
Proof.
  induction 1; [apply grows_refl|].
  eapply grows_trans; [apply touch_grows|]; eassumption.
Qed.

(** X5.  No call of the session manager ever puts an entry into the cache:
    after any sequence of create, load, authenticate, refresh, revoke and
    revoke-all calls the cache holds a part of the entries it held before,
    with their payloads and deadlines; the calls only evict. *)
Theorem calls_never_fill_cache w calls :
  entries (redis (run w calls)) ⊆ entries (redis w)
  /\ available (redis (run w calls)) = available (redis w)
  /\ (forall key now j,
        cache_get (redis (run w calls)) key now = Some j ->
        cache_get (redis w) key now = Some j).
Proof.
  destruct (touches_grow _ _ (run_touches w calls)) as (_ & _ & Ha & Hsub).
  split; [exact Hsub|]. split; [exact Ha|].
  intros key now j. unfold cache_get. rewrite Ha.
  destruct (available (redis w)); [|discriminate].
  destruct (entries (redis (run w calls)) !! key) as [[j' d]|] eqn:E; [|discriminate].
  rewrite (lookup_weaken _ _ _ _ E Hsub). auto.
Qed.

(** X6.  The security events are append-only: after any sequence of calls
    the events recorded before are still there, unchanged and in the same
    order, at the head of the table. *)
Theorem security_events_append_only w calls :
  security_events (db w) `prefix_of` security_events (db (run w calls)).
Proof. exact (proj1 (touches_grow _ _ (run_touches w calls))). Qed.

(** X7.  Refresh tokens are never deleted: after any sequence of calls the
    table still holds a row for every token id it held, in the same order,
    followed by the rows added since. *)
Theorem refresh_tokens_never_deleted w calls :
  map RefreshToken.id (refresh_tokens (db w))
  `prefix_of` map RefreshToken.id (refresh_tokens (db (run w calls)))
  /\ (length (refresh_tokens (db w)) <= length (refresh_tokens (db (run w calls))))%nat.
Proof.
  destruct (touches_grow _ _ (run_touches w calls)) as (_ & Ht & _).
  split; [exact Ht|].
  apply prefix_length in Ht. rewrite !length_map in Ht. exact Ht.
Qed.

Lemma update_session_kept rows s' s0 sid s :
  find_session rows (SessionModel.id s') = Some s0 ->
  session_kept s0 s' ->
  find_session rows sid = Some s ->
  exists s'', find_session (update_session s' rows) sid = Some s'' /\ session_kept s s''.
Proof.
  intros H0 Hk Hs.
  destruct (String.eqb sid (SessionModel.id s')) eqn:E.
  - apply String.eqb_eq in E. subst sid.
    exists s'. split; [eapply find_update_same, H0|]. congruence.
  - apply String.eqb_neq in E. exists s. split; [|apply session_kept_refl].
    rewrite find_update_other; assumption.
Qed.

Lemma write_kept w w' sid s :
  write w w' -> stored w sid = Some s ->
  exists s', stored w' sid = Some s' /\ session_kept s s'.
Proof.
  unfold stored.
  intros [ | s1 s0 now H0 Hk | s1 s0 H0 Hk | s0 tr rd nt nid now _ _ H0
         | session tok _ _ _] Hs; simpl.
  - exists s. split; [exact Hs | apply session_kept_refl].
  - apply (update_session_kept _ (SessionModel.set_revoked_at (Some now) s1) s0);
      [exact H0 | | exact Hs].
    eapply session_kept_trans; [exact Hk | apply session_kept_set_revoked].
  - apply (update_session_kept _ s1 s0); assumption.
  - apply (update_session_kept _ (rotated_session s0 rd now) s0).
    + rewrite rotated_session_id, (find_session_id _ _ _ H0). exact H0.
    + apply session_kept_rotated.
    + exact Hs.
  - exists s. split; [apply find_session_app; exact Hs | apply session_kept_refl].
Qed.

Lemma writes_kept w w' :
  rtc write w w' ->
  forall sid s, stored w sid = Some s ->
  exists s', stored w' sid = Some s' /\ session_kept s s'.
Proof.
  induction 1 as [w|w w1 w2 Hc _ IH]; intros sid s Hs.
  - exists s. split; [exact Hs | apply session_kept_refl].
  - destruct (write_kept _ _ _ _ Hc Hs) as (s1 & Hs1 & Hk1).
    destruct (IH _ _ Hs1) as (s2 & Hs2 & Hk2).
    exists s2. split; [exact Hs2 | eapply session_kept_trans; eassumption].
Qed.

(** X8.  Revocation is terminal and sessions are never deleted: on a store
    with unique session ids, a session that is revoked is still stored and
    still revoked after any sequence of calls. *)
Theorem revocation_is_terminal w calls sid s :
  session_ids_unique (db w) ->
  stored w sid = Some s ->
  SessionModel.revoked_at s <> None ->
  exists s', stored (run w calls) sid = Some s'
             /\ SessionModel.revoked_at s' <> None.
Proof.
  intros Hu Hs Hr.
  destruct (writes_kept _ _ (run_writes w calls Hu) sid s Hs) as (s' & Hs' & Hk).
  exists s'. split; [exact Hs'|]. apply Hk. exact Hr.
Qed.

(** X9.  What a session is created with stays: on a store with unique session
    ids, no sequence of calls changes a stored session's owner, creation
    instant, expiry instant (it is never extended), device id, client id,
    user-agent hash, OS family or browser family. *)
Theorem session_creation_fields_fixed w calls sid s :
  session_ids_unique (db w) ->
  stored w sid = Some s ->
  exists s', stored (run w calls) sid = Some s'
    /\ SessionModel.user_id s' = SessionModel.user_id s
    /\ SessionModel.created_at s' = SessionModel.created_at s
    /\ SessionModel.expires_at s' = SessionModel.expires_at s
    /\ SessionModel.device_id s' = SessionModel.device_id s
    /\ SessionModel.client_id s' = SessionModel.client_id s
    /\ SessionModel.user_agent_hash s' = SessionModel.user_agent_hash s
    /\ SessionModel.os_family s' = SessionModel.os_family s
    /\ SessionModel.browser_family s' = SessionModel.browser_family s.
Proof.
  intros Hu Hs.
  destruct (writes_kept _ _ (run_writes w calls Hu) sid s Hs)
    as (s' & Hs' & _ & ? & ? & ? & ? & ? & ? & ? & ? & _).
  exists s'. repeat split; assumption.
Qed.

(** ** Failures *)

(** X10.  A failing [authenticate_request] writes nothing unless it revokes:
    when it fails with "Session invalid" or "Session expired", or with the
    [AttributeError] of a cache hit, store and cache are exactly as they
    were; when it fails with "Reauthentication required", the session is
    revoked at the instant of the call, none of its tokens is left without a
    stamp and one [session_revoked_risk] event has been added. *)
Theorem authenticate_failures w sid rd now e :
  fst (authenticate_request w sid rd now) = Raise e ->
  (e = SessionInvalid \/ e = SessionExpired \/ e = AttributeError ->
   snd (authenticate_request w sid rd now) = w)
  /\ (e = ReauthRequired ->
      exists s s',
        stored w sid = Some s
        /\ stored (snd (authenticate_request w sid rd now)) sid = Some s'
        /\ SessionModel.revoked_at s' = Some now
        /\ all_tokens_revoked sid (db (snd (authenticate_request w sid rd now)))
        /\ security_events (db (snd (authenticate_request w sid rd now)))
           = (security_events (db w)
              ++ [SecurityEvent.mk (SessionModel.user_id s) (Some sid)
                    "session_revoked_risk" (get rd "ip") (get rd "user_agent")
                    (get rd "details") now])%list).
Proof.
  clear parse.
  unfold authenticate_request. rewrite load_session_eq.
  destruct (cache_get _ _ _) as [j|];
    [destruct (json_truthy j) eqn:Ej;
       [rewrite Ej; simpl; intros [= <-]; split; [reflexivity | discriminate]|]|];
    (destruct (stored w sid) as [s|] eqn:Es;
       [|simpl; intros [= <-]; split; [reflexivity | discriminate]];
     pose proof (find_session_id _ _ _ Es) as Hid;
     destruct (SessionModel.revoked_at s);
       [simpl; intros [= <-]; split; [reflexivity | discriminate]|]; simpl;
     destruct (SessionModel.expires_at s <? now);
       [simpl; intros [= <-]; split; [reflexivity | discriminate]|];
     destruct (REAUTH_RISK <=? _); simpl; [|discriminate];
     intros [= <-]; split; [intros [|[|]]; discriminate|]; intros _;
     exists s, (SessionModel.set_revoked_at (Some now) (scored s rd now));
     split; [reflexivity|]; split;
     [ rewrite <- Hid; apply (stored_revoke_session w (scored s rd now) s);
       simpl; rewrite Hid; exact Es |];
     split; [reflexivity|]; split;
     [ rewrite <- Hid; apply (revoke_session_tokens_revoked w (scored s rd now) now)
     | rewrite Hid; reflexivity ]).
Qed.

(** X11.  A failing [refresh_access_token] writes nothing unless it revokes:
    when it fails with "Invalid refresh token", "Session invalid" or "Refresh
    token expired", with the [IntegrityError] of a colliding draw or with the
    [AttributeError] of a cache hit, store and cache are exactly as they
    were, so an unknown, expired or colliding token costs the session
    nothing; when it fails with "Refresh token reuse detected" or "Suspicious
    activity detected", the session is revoked at the instant of the call
    with the risk score it had, none of its tokens is left without a stamp
    and one event has been added. *)
Theorem refresh_failures w tok rd nt nid now e :
  fst (refresh_access_token w tok rd nt nid now) = Raise e ->
  (e = InvalidToken \/ e = SessionInvalid \/ e = TokenExpired
   \/ e = IntegrityError \/ e = AttributeError ->
   snd (refresh_access_token w tok rd nt nid now) = w)
  /\ (e = TokenReuseDetected \/ e = SuspiciousActivity ->
      exists tr s s',
        find_token (refresh_tokens (db w)) (hash_token tok) = Some tr
        /\ stored w (RefreshToken.session_id tr) = Some s
        /\ stored (snd (refresh_access_token w tok rd nt nid now))
                  (RefreshToken.session_id tr) = Some s'
        /\ SessionModel.revoked_at s' = Some now
        /\ SessionModel.risk_score s' = SessionModel.risk_score s
        /\ all_tokens_revoked (RefreshToken.session_id tr)
             (db (snd (refresh_access_token w tok rd nt nid now)))
        /\ length (security_events
                     (db (snd (refresh_access_token w tok rd nt nid now))))
           = S (length (security_events (db w)))).
Proof.
  clear parse.
  unfold refresh_access_token.
  destruct (find_token _ _) as [tr|];
    [|simpl; intros [= <-]; split; [reflexivity | intros [|]; discriminate]].
  rewrite load_session_eq.
  assert (Hrev : forall s ty,
    stored w (RefreshToken.session_id tr) = Some s ->
    exists tr0 s0 s',
      Some tr = Some tr0
      /\ stored w (RefreshToken.session_id tr0) = Some s0
      /\ stored (log_security_event (revoke_session w s now) (SessionModel.user_id s)
                   (Some (SessionModel.id s)) ty rd now)
                (RefreshToken.session_id tr0) = Some s'
      /\ SessionModel.revoked_at s' = Some now
      /\ SessionModel.risk_score s' = SessionModel.risk_score s0
      /\ all_tokens_revoked (RefreshToken.session_id tr0)
           (db (log_security_event (revoke_session w s now) (SessionModel.user_id s)
                  (Some (SessionModel.id s)) ty rd now))
      /\ length (security_events
                   (db (log_security_event (revoke_session w s now)
                          (SessionModel.user_id s) (Some (SessionModel.id s)) ty rd now)))
         = S (length (security_events (db w)))).
  { intros s ty Es. pose proof (find_session_id _ _ _ Es) as Hid.
    exists tr, s, (SessionModel.set_revoked_at (Some now) s).
    split; [reflexivity|]. split; [exact Es|]. split.
    { rewrite stored_log_security_event, <- Hid.
      apply (stored_revoke_session w s s). rewrite Hid. exact Es. }
    split; [reflexivity|]. split; [reflexivity|]. split.
    { rewrite <- Hid. apply (revoke_session_tokens_revoked w s now). }
    simpl. rewrite length_app. simpl. lia. }
  destruct (cache_get _ _ _) as [j|];
    [destruct (json_truthy j) eqn:Ej;
       [rewrite Ej; simpl; intros [= <-]; split;
          [reflexivity | intros [|]; discriminate]|]|];
    (destruct (stored w (RefreshToken.session_id tr)) as [s|] eqn:Es;
       [|simpl; intros [= <-]; split; [reflexivity | intros [|]; discriminate]];
     destruct (SessionModel.revoked_at s);
       [simpl; intros [= <-]; split; [reflexivity | intros [|]; discriminate]|]; simpl;
     destruct (RefreshToken.revoked_at tr);
       [simpl; intros [= <-]; split;
          [intros [|[|[|[|]]]]; discriminate | intros _; apply (Hrev s _ eq_refl)]|];
     simpl;
     destruct (RefreshToken.expires_at tr <? now);
       [simpl; intros [= <-]; split; [reflexivity | intros [|]; discriminate]|];
     destruct (REAUTH_RISK <=? _); simpl;
       [intros [= <-]; split;
          [intros [|[|[|[|]]]]; discriminate | intros _; apply (Hrev s _ eq_refl)]|];
     destruct (token_insertable _ _); simpl;
       [discriminate
       | intros [= <-]; split; [reflexivity | intros [|]; discriminate]]).
Qed.

(** ** Revocation *)

Lemma tokens_of_revoke_other w s now sid :
  sid <> SessionModel.id s ->
  tokens_of sid (db (revoke_session w s now)) = tokens_of sid (db w).
Proof.
  intros Hne. unfold tokens_of, revoke_session. simpl.
  induction (refresh_tokens (db w)) as [|r rows IH]; [reflexivity|].
  cbn [map List.filter].
  destruct (String.eqb (RefreshToken.session_id r) (SessionModel.id s)) eqn:E.
  - apply String.eqb_eq in E.
    assert (String.eqb (RefreshToken.session_id r) sid = false) as Hr
      by (apply String.eqb_neq; congruence).
    destruct (is_none (RefreshToken.revoked_at r)); simpl; rewrite Hr; exact IH.
  - simpl. rewrite IH. reflexivity.
Qed.

(** X12.  [revoke_session] touches only its session: the rows of the other
    sessions and all their tokens are unchanged, no security event is added,
    and the only cache key that can disappear is the session's own. *)
Theorem revoke_session_frame w s now :
  (forall sid, sid <> SessionModel.id s ->
     stored (revoke_session w s now) sid = stored w sid
     /\ tokens_of sid (db (revoke_session w s now)) = tokens_of sid (db w))
  /\ security_events (db (revoke_session w s now)) = security_events (db w)
  /\ (forall key, key <> session_key (SessionModel.id s) ->
        entries (redis (revoke_session w s now)) !! key = entries (redis w) !! key).
Proof.
  split; [|split].
  - intros sid Hne. split.
    + apply stored_revoke_session_other. exact Hne.
    + apply tokens_of_revoke_other. exact Hne.
  - reflexivity.
  - intros key Hne. unfold revoke_session, cache_delete. simpl.
    destruct (available (redis w)); simpl; [|reflexivity].
    apply lookup_delete_ne. congruence.
Qed.

Lemma cache_get_after_delete r key now : cache_get (cache_delete r key) key now = None.
Proof.
  unfold cache_get, cache_delete. destruct (available r) eqn:E; simpl.
  - rewrite lookup_delete_eq. reflexivity.
  - rewrite E. reflexivity.
Qed.

(** X13.  Once [revoke_session] has run on a stored session, every
    [authenticate_request] for it and every [refresh_access_token] presenting
    one of its tokens fails with "Session invalid" and changes nothing,
    whatever the request, the instant and the state of the token; the cache
    cannot answer for the session, its key having been evicted. *)
Theorem revoked_session_is_rejected w s s0 now :
  stored w (SessionModel.id s) = Some s0 ->
  (forall rd t,
     authenticate_request (revoke_session w s now) (SessionModel.id s) rd t
     = (Raise SessionInvalid, revoke_session w s now))
  /\ (forall tok rd nt nid t tr,
        find_token (refresh_tokens (db (revoke_session w s now))) (hash_token tok)
        = Some tr ->
        RefreshToken.session_id tr = SessionModel.id s ->
        refresh_access_token (revoke_session w s now) tok rd nt nid t
        = (Raise SessionInvalid, revoke_session w s now))
  /\ (forall t, cache_get (redis (revoke_session w s now))
                  (session_key (SessionModel.id s)) t = None).
Proof.
  intros Hs.
  assert (Hc : forall t, cache_get (redis (revoke_session w s now))
                           (session_key (SessionModel.id s)) t = None)
    by (intros t; apply cache_get_after_delete).
  pose proof (stored_revoke_session w s s0 now Hs) as Hst.
  split; [|split; [|exact Hc]].
  - intros rd t. unfold authenticate_request.
    rewrite load_session_eq, Hc, Hst. reflexivity.
  - intros tok rd nt nid t tr Hf Hid. unfold refresh_access_token.
    rewrite Hf, load_session_eq, Hid, Hc, Hst. reflexivity.
Qed.

Lemma fold_revoke_rows now (l : list SessionModel.t) :
  forall w r',
    In r' (sessions (db (fold_left (fun w session => revoke_session w session now) l w))) ->
    SessionModel.revoked_at r' <> None
    \/ (In r' (sessions (db w)) /\ ~ In (SessionModel.id r') (map SessionModel.id l)).
Proof.
  induction l as [|s l IH]; intros w r' Hin; simpl in *; [right; tauto|].
  destruct (IH _ _ Hin) as [Hr|[Hin1 Hnot]]; [left; exact Hr|].
  unfold revoke_session, update_session in Hin1. simpl in Hin1.
  apply in_map_iff in Hin1 as (r & Hr & Hinr).
  destruct (String.eqb (SessionModel.id r) (SessionModel.id s)) eqn:E.
  - left. subst r'. simpl. discriminate.
  - right. subst r'. split; [exact Hinr|].
    apply String.eqb_neq in E. intros [Heq|Hin']; [congruence | tauto].
Qed.

Lemma fold_revoke_events now (l : list SessionModel.t) :
  forall w,
    security_events (db (fold_left (fun w session => revoke_session w session now) l w))
    = security_events (db w).
Proof. induction l as [|s l IH]; intros w; simpl; [reflexivity | rewrite IH; reflexivity]. Qed.

Lemma all_tokens_revoked_revoke w s now sid :
  all_tokens_revoked sid (db w) -> all_tokens_revoked sid (db (revoke_session w s now)).
Proof.
  unfold all_tokens_revoked, tokens_of, revoke_session. simpl.
  induction (refresh_tokens (db w)) as [|r rows IH]; [auto|].
  cbn [map List.filter]. intros H.
  assert (Hsid : RefreshToken.session_id
                   (if String.eqb (RefreshToken.session_id r) (SessionModel.id s)
                       && is_none (RefreshToken.revoked_at r)
                    then RefreshToken.set_revoked_at (Some now) r else r)
                 = RefreshToken.session_id r)
    by (destruct (_ && _); reflexivity).
  rewrite Hsid.
  destruct (String.eqb (RefreshToken.session_id r) sid) eqn:E; [|apply IH; exact H].
  inversion H as [|? ? Hr Hrest]; subst. constructor; [|apply IH; exact Hrest].
  destruct (_ && _); simpl; [discriminate | exact Hr].
Qed.

Lemma fold_revoke_tokens now (l : list SessionModel.t) :
  forall w s, In s l ->
    all_tokens_revoked (SessionModel.id s)
      (db (fold_left (fun w session => revoke_session w session now) l w)).
Proof.
  assert (Hkeep : forall (l : list SessionModel.t) w sid,
    all_tokens_revoked sid (db w) ->
    all_tokens_revoked sid
      (db (fold_left (fun w session => revoke_session w session now) l w))).
  { induction l0 as [|s l0 IH]; intros w sid H; simpl; [exact H|].
    apply IH, all_tokens_revoked_revoke, H. }
  induction l as [|a l IH]; intros w s Hin; simpl; [destruct Hin|].
  destruct Hin as [->|Hin].
  - apply Hkeep, revoke_session_tokens_revoked.
  - apply IH, Hin.
Qed.

Lemma fold_revoke_stored_other now (l : list SessionModel.t) :
  forall w sid,
    ~ In sid (map SessionModel.id l) ->
    stored (fold_left (fun w session => revoke_session w session now) l w) sid
    = stored w sid.
Proof.
  induction l as [|s l IH]; intros w sid Hn; simpl in *; [reflexivity|].
  rewrite IH by tauto. apply stored_revoke_session_other. intros ->. tauto.
Qed.

Lemma unique_id_eq rows a b :
  NoDup (map SessionModel.id rows) -> In a rows -> In b rows ->
  SessionModel.id a = SessionModel.id b -> a = b.
Proof.
  intros Hu Ha Hb Hid.
  pose proof (find_session_unique rows a Hu Ha) as Fa.
  pose proof (find_session_unique rows b Hu Hb) as Fb.
  rewrite Hid in Fa. congruence.
Qed.

(** X14.  After [revoke_all_sessions] every session of the user is revoked,
    every token of each session it revoked carries a stamp, and exactly one
    [logout_all] event has been added; when session ids are unique, the
    sessions of other users are left as they were. *)
Theorem revoke_all_sessions_effect w user_id now :
  (forall r, In r (sessions (db (revoke_all_sessions w user_id now))) ->
     SessionModel.user_id r = user_id -> SessionModel.revoked_at r <> None)
  /\ (forall s, In s (sessions (db w)) -> SessionModel.user_id s = user_id ->
        SessionModel.revoked_at s = None ->
        all_tokens_revoked (SessionModel.id s) (db (revoke_all_sessions w user_id now)))
  /\ security_events (db (revoke_all_sessions w user_id now))
     = (security_events (db w)
        ++ [SecurityEvent.mk user_id None "logout_all" PyNone PyNone PyNone now])%list
  /\ (session_ids_unique (db w) ->
      forall sid s, stored w sid = Some s -> SessionModel.user_id s <> user_id ->
      stored (revoke_all_sessions w user_id now) sid = Some s).
Proof.
  unfold revoke_all_sessions.
  set (l := List.filter _ (sessions (db w))).
  assert (Hl : forall s, In s l <->
            In s (sessions (db w)) /\ SessionModel.user_id s = user_id
            /\ SessionModel.revoked_at s = None).
  { intros s. unfold l. rewrite filter_In, andb_true_iff, Z.eqb_eq.
    destruct (SessionModel.revoked_at s); simpl; intuition congruence. }
  split; [|split; [|split]].
  - intros r Hin Hu. simpl in Hin.
    destruct (fold_revoke_rows now l w r Hin) as [Hr|[Hin0 Hnot]]; [exact Hr|].
    intros Hnone. apply Hnot. apply in_map. apply Hl. tauto.
  - intros s Hin Hu Hr. apply (fold_revoke_tokens now l w s). apply Hl. tauto.
  - simpl. rewrite fold_revoke_events. reflexivity.
  - intros Huniq sid s Hs Hne. rewrite stored_log_security_event.
    rewrite fold_revoke_stored_other; [exact Hs|].
    intros Hin. apply in_map_iff in Hin as (s' & Hid & Hin').
    apply Hl in Hin' as (Hin' & Hu' & _).
    pose proof (find_session_id _ _ _ Hs) as Hids.
    pose proof (find_session_In _ _ _ Hs) as Hins.
    assert (s' = s) by (eapply unique_id_eq; eauto; congruence).
    congruence.
Qed.

(** ** A token that was issued is accepted once *)

Lemma token_insertable_In d t r :
  token_insertable d t = true -> In r (refresh_tokens d) ->
  RefreshToken.id r <> RefreshToken.id t
  /\ RefreshToken.token_hash r <> RefreshToken.token_hash t.
Proof.
  unfold token_insertable. intros H Hin. rewrite forallb_forall in H.
  specialize (H r Hin). apply andb_true_iff in H as [H1 H2].
  apply negb_true_iff in H1, H2. apply String.eqb_neq in H1, H2. tauto.
Qed.

Lemma find_token_fresh rows x :
  (forall r, In r rows -> RefreshToken.token_hash r <> RefreshToken.token_hash x) ->
  find_token (rows ++ [x]) (RefreshToken.token_hash x) = Some x.
Proof.
  unfold find_token. induction rows as [|r rows IH]; simpl; intros H.
  - rewrite String.eqb_refl. reflexivity.
  - assert (String.eqb (RefreshToken.token_hash r) (RefreshToken.token_hash x) = false)
      as -> by (apply String.eqb_neq, H; left; reflexivity).
    apply IH. intros r' Hr'. apply H. right. exact Hr'.
Qed.

(** X15.  The secret returned by [create_session] is accepted by the next
    [refresh_access_token]: presented before the token expires, from a
    context whose risk delta is below [REAUTH_RISK], with a cache that misses
    and draws that collide with no stored token, the call rotates the token
    and returns the session. *)
Theorem create_then_refresh
    w user_id rd session_id token_id tok now s tok' w1 rd2 nt nid now2 :
  create_session w user_id rd session_id token_id tok now = (Return (s, tok'), w1) ->
  cache_get (redis w1) (session_key session_id) now2 = None ->
  now2 <= now + REFRESH_TOKEN_LIFETIME ->
  calculate_risk s rd2 < REAUTH_RISK ->
  token_insertable (db w1) (successor s nt nid now2) = true ->
  tok' = tok
  /\ refresh_access_token w1 tok rd2 nt nid now2
     = (Return (rotated_session s rd2 now2, nt),
        rotated_world w1 s
          (RefreshToken.mk token_id session_id (hash_token tok)
             (now + REFRESH_TOKEN_LIFETIME) None None)
          rd2 nt nid now2).
Proof.
  intros H Hc Ht Hk Hi. unfold create_session in H.
  destruct (parse_user_agent _) as [ua|]; [|discriminate].
  destruct (session_pk_free _ _ && _) eqn:E; [|discriminate].
  apply andb_true_iff in E as [Epk Etok].
  rewrite cache_session_unchanged in H. injection H as <- <- <-.
  split; [reflexivity|].
  set (s := SessionModel.mk session_id _ _ _ _ _ _ _ _ _ _ _ _ _ _) in *.
  set (rec := RefreshToken.mk token_id session_id (hash_token tok) _ None None) in *.
  set (w1 := log_security_event _ _ _ _ _ _) in *.
  assert (Hf : find_token (refresh_tokens (db w1)) (hash_token tok) = Some rec).
  { unfold w1. simpl. apply (find_token_fresh (refresh_tokens (db w)) rec).
    intros r Hr. apply (token_insertable_In _ _ _ Etok Hr). }
  assert (Hs : stored w1 session_id = Some s).
  { unfold w1. rewrite stored_log_security_event. unfold stored. simpl.
    apply (find_session_fresh (sessions (db w)) s).
    apply session_pk_free_notin. exact Epk. }
  rewrite (refresh_below_threshold w1 tok rd2 nt nid now2 rec s); auto.
  - rewrite Hi. reflexivity.
  - rewrite load_session_eq. cbn [fst].
    change (RefreshToken.session_id rec) with session_id.
    rewrite Hc, Hs. reflexivity.
  - simpl. apply Z.ltb_ge. exact Ht.
Qed.

Lemma update_token_hash_fresh t rows h :
  In t rows \/ RefreshToken.token_hash t <> h ->
  (forall r, In r rows -> RefreshToken.token_hash r <> h) ->
  forall r, In r (update_token t rows) -> RefreshToken.token_hash r <> h.
Proof.
  intros Ht H r Hin. unfold update_token in Hin.
  apply in_map_iff in Hin as (r0 & Hr & Hin).
  destruct (String.eqb _ _); subst r; [|apply H, Hin].
  destruct Ht as [Ht|Ht]; [apply H, Ht | exact Ht].
Qed.

(** X16.  The secret returned by a successful [refresh_access_token] is
    accepted by the next one under the same conditions, so rotations chain:
    each call consumes the token the previous call issued. *)
Theorem refresh_then_refresh w tok rd nt nid now s nt' w1 rd2 nt2 nid2 now2 :
  refresh_access_token w tok rd nt nid now = (Return (s, nt'), w1) ->
  cache_get (redis w1) (session_key (SessionModel.id s)) now2 = None ->
  now2 <= now + REFRESH_TOKEN_LIFETIME ->
  calculate_risk s rd2 < REAUTH_RISK ->
  token_insertable (db w1) (successor s nt2 nid2 now2) = true ->
  nt' = nt
  /\ refresh_access_token w1 nt rd2 nt2 nid2 now2
     = (Return (rotated_session s rd2 now2, nt2),
        rotated_world w1 s (successor s nt nid now) rd2 nt2 nid2 now2).
Proof.
  intros H Hc Ht Hk Hi.
  destruct (refresh_success_inv _ _ _ _ _ _ _ _ _ H)
    as (tr & s0 & Hf & Hl & Hr & Htr & He & Hk0 & Hi0 & -> & -> & ->).
  split; [reflexivity|].
  pose proof (load_row_stored _ _ _ _ Hl) as Hs0.
  pose proof (load_row_id _ _ _ _ Hl) as Hid0.
  set (s := rotated_session s0 rd now) in *.
  set (w1 := rotated_world w s0 tr rd nt nid now) in *.
  assert (Hids : SessionModel.id s = SessionModel.id s0) by apply rotated_session_id.
  assert (Hsucc : successor s nt nid now = successor s0 nt nid now)
    by (unfold successor; rewrite Hids; reflexivity).
  assert (Hf1 : find_token (refresh_tokens (db w1)) (hash_token nt)
                = Some (successor s0 nt nid now)).
  { unfold w1, rotated_world. simpl.
    apply (find_token_fresh _ (successor s0 nt nid now)).
    apply update_token_hash_fresh.
    - right. simpl.
      apply (token_insertable_In _ _ _ Hi0 (find_token_In _ _ _ Hf)).
    - intros r Hr'. apply (token_insertable_In _ _ _ Hi0 Hr'). }
  assert (Hs1 : stored w1 (SessionModel.id s0) = Some s).
  { unfold w1, rotated_world, stored. simpl. rewrite <- Hids.
    apply (find_update_same _ s s0). rewrite Hids, Hid0. exact Hs0. }
  assert (Hr1 : SessionModel.revoked_at s = None).
  { unfold s, rotated_session. rewrite update_context_revoked_at. exact Hr. }
  rewrite Hsucc.
  rewrite (refresh_below_threshold w1 nt rd2 nt2 nid2 now2 (successor s0 nt nid now) s);
    auto.
  - rewrite Hi. reflexivity.
  - rewrite load_session_eq. cbn [fst].
    change (RefreshToken.session_id (successor s0 nt nid now)) with (SessionModel.id s0).
    rewrite <- Hids, Hc, Hids, Hs1. reflexivity.
  - simpl. apply Z.ltb_ge. exact Ht.
Qed.

(** X17.  [refresh_access_token] never looks at the session's [expires_at]:
    for a stored session that is past its expiry but not revoked,
    [authenticate_request] fails with "Session expired" and changes nothing,
    while a refresh presenting a token that is itself unrevoked and unexpired,
    from a context below [REAUTH_RISK], rotates the token and returns the
    session. *)
Theorem refresh_ignores_session_expiry w tok rd nt nid now tr s :
  find_token (refresh_tokens (db w)) (hash_token tok) = Some tr ->
  stored w (RefreshToken.session_id tr) = Some s ->
  cache_get (redis w) (session_key (RefreshToken.session_id tr)) now = None ->
  SessionModel.revoked_at s = None ->
  SessionModel.expires_at s < now ->
  RefreshToken.revoked_at tr = None ->
  now <= RefreshToken.expires_at tr ->
  calculate_risk s rd < REAUTH_RISK ->
  token_insertable (db w) (successor s nt nid now) = true ->
  authenticate_request w (RefreshToken.session_id tr) rd now = (Raise SessionExpired, w)
  /\ refresh_access_token w tok rd nt nid now
     = (Return (rotated_session s rd now, nt), rotated_world w s tr rd nt nid now).
Proof.
  intros Hf Hs Hc Hr He Htr Hte Hk Hi. split.
  - unfold authenticate_request. rewrite load_session_eq, Hc, Hs, Hr. simpl.
    apply Z.ltb_lt in He. rewrite He. reflexivity.
  - rewrite (refresh_below_threshold w tok rd nt nid now tr s); auto.
    + rewrite Hi. reflexivity.
    + rewrite load_session_eq. cbn [fst]. rewrite Hc, Hs. reflexivity.
    + apply Z.ltb_ge. exact Hte.
Qed.

(** ** Scores *)

Lemma py_ne_same v : py_ne v v = false.
Proof. unfold py_ne, py_eq. rewrite bool_decide_eq_true_2; reflexivity. Qed.

Lemma signal_unchanged v stored_v :
  truthy v = false \/ v = stored_v -> truthy v && py_ne v stored_v = false.
Proof.
  intros [->| ->]; [reflexivity|]. rewrite py_ne_same. apply andb_false_r.
Qed.

Lemma same_context_risk s rd : same_context s rd -> calculate_risk s rd = 0.
Proof.
  intros (Hd & Hc & Hu & Hi). unfold calculate_risk.
  rewrite (signal_unchanged _ _ Hd), (signal_unchanged _ _ Hc),
    (signal_unchanged _ _ Hu), (signal_unchanged _ _ Hi).
  reflexivity.
Qed.

Lemma same_context_after s rd now :
  same_context s rd -> same_context (update_context (scored s rd now) rd) rd.
Proof.
  intros (Hd & Hc & Hu & Hi). unfold same_context, update_context.
  destruct (truthy (get rd "ip")) eqn:E; simpl; auto.
Qed.

(** X18.  A session that only receives requests repeating its stored device
    id, client id, user-agent hash and IP is scored 0 on each of them: any
    number of [authenticate_request] calls made before its expiry leave it
    unrevoked with the risk score it had, provided that score was below
    [REAUTH_RISK] to begin with. *)
Theorem calm_session_keeps_score w sid s rd times :
  stored w sid = Some s ->
  SessionModel.revoked_at s = None ->
  SessionModel.risk_score s < REAUTH_RISK ->
  same_context s rd ->
  no_cache_entry w sid ->
  Forall (fun t => t <= SessionModel.expires_at s) times ->
  calculate_risk s rd = 0
  /\ exists s',
       stored (run w (map (fun t => (Authenticate sid rd, t)) times)) sid = Some s'
       /\ SessionModel.risk_score s' = SessionModel.risk_score s
       /\ SessionModel.revoked_at s' = None.
Proof.
  intros Hs Hr Hk Hc Hn Ht. split; [apply same_context_risk, Hc|].
  revert w s Hs Hr Hk Hc Hn Ht.
  induction times as [|t times IH]; intros w s Hs Hr Hk Hc Hn Ht.
  - exists s. auto.
  - inversion Ht as [|? ? Ht1 Ht2]; subst.
    pose proof (same_context_risk s rd Hc) as H0.
    pose proof (find_session_id _ _ _ Hs) as Hid.
    change (run w (map (fun t => (Authenticate sid rd, t)) (t :: times)))
      with (run (snd (authenticate_request w sid rd t))
              (map (fun t => (Authenticate sid rd, t)) times)).
    rewrite (authenticate_accept w sid rd t s).
    + simpl.
      set (s1 := update_context (scored s rd t) rd).
      assert (Hid1 : SessionModel.id s1 = sid)
        by (unfold s1; rewrite update_context_id; exact Hid).
      assert (Hs1 : stored (commit_session w s1) sid = Some s1).
      { unfold stored, commit_session. simpl. rewrite <- Hid1.
        apply (find_update_same _ s1 s). rewrite Hid1. exact Hs. }
      assert (Hrisk : SessionModel.risk_score s1 = SessionModel.risk_score s)
        by (unfold s1; rewrite update_context_risk; simpl; lia).
      assert (Hexp : SessionModel.expires_at s1 = SessionModel.expires_at s)
        by (unfold s1, update_context; destruct (truthy _); reflexivity).
      destruct (IH (commit_session w s1) s1) as (s' & Hs' & Hr' & Hv'); auto.
      * unfold s1. rewrite update_context_revoked_at. exact Hr.
      * lia.
      * apply same_context_after. exact Hc.
      * rewrite Hexp. exact Ht2.
      * exists s'. split; [exact Hs'|]. split; [lia | exact Hv'].
    + rewrite load_session_miss by exact Hn. rewrite Hs. reflexivity.
    + exact Hr.
    + apply Z.ltb_ge. exact Ht1.
    + lia.
Qed.

(** X19.  The risk delta of one request lies between 0 and 115: the four
    signals add at most 40, 30, 20 and 25. *)
Theorem calculate_risk_bounds session rd : 0 <= calculate_risk session rd <= 115.
Proof.
  unfold calculate_risk.
  repeat match goal with |- context [if ?b then _ else _] => destruct b end; lia.
Qed.

Lemma route_context_missing (rd : dict) k :
  dom rd ⊆ route_keys -> k ∉ route_keys -> get rd k = PyNone.
Proof.
  clear settings parse. intros Hd Hk. unfold get.
  assert (rd !! k = None) as -> by (apply not_elem_of_dom; set_solver).
  reflexivity.
Qed.

(** X20.  For the request contexts the routes build, which hold only the keys
    [ip], [user_agent], [device_id] and [client_id], the user-agent rule never
    fires and an IP change always counts as a geo jump: the delta is the
    device rule plus the client rule plus 25 for a changed IP, one of
    0, 25, 30, 40, 55, 65, 70, 95, and it reaches [REAUTH_RISK] exactly when
    device id and client id both differ from the stored ones. *)
Theorem route_context_risk session rd :
  dom rd ⊆ route_keys ->
  calculate_risk session rd
  = Table.device session rd + Table.client session rd
    + (if Table.present rd "ip"
          && py_ne (get rd "ip") (SessionModel.last_ip session)
       then 25 else 0)
  /\ In (calculate_risk session rd) [0; 25; 30; 40; 55; 65; 70; 95]
  /\ (REAUTH_RISK <= calculate_risk session rd
      <-> Table.device session rd = 40 /\ Table.client session rd = 30).
Proof.
  clear settings parse. intros Hd.
  assert (Hu : get rd "user_agent_hash" = PyNone)
    by (apply route_context_missing; [exact Hd | unfold route_keys; set_unfold; intuition discriminate]).
  assert (Ha : get rd "asn" = PyNone)
    by (apply route_context_missing; [exact Hd | unfold route_keys; set_unfold; intuition discriminate]).
  assert (Hc : get rd "country" = PyNone)
    by (apply route_context_missing; [exact Hd | unfold route_keys; set_unfold; intuition discriminate]).
  assert (E : calculate_risk session rd
              = Table.device session rd + Table.client session rd
                + (if Table.present rd "ip"
                      && py_ne (get rd "ip") (SessionModel.last_ip session)
                   then 25 else 0)).
  { unfold calculate_risk, Table.device, Table.client, Table.present.
    rewrite Hu, Ha, Hc. simpl.
    repeat match goal with |- context [if ?b then _ else _] => destruct b end; lia. }
  split; [exact E|]. rewrite E. unfold REAUTH_RISK, Table.device, Table.client.
  split.
  - repeat match goal with |- context [if ?b then _ else _] => destruct b end;
      simpl; tauto.
  - repeat match goal with |- context [if ?b then _ else _] => destruct b end;
      split; try lia; intros [? ?]; try lia; try discriminate.
Qed.

(** ** Revoking by id and creating *)

(** X21.  Revoking a session by its id, [load_session] followed by
    [revoke_session]: when the cache misses, a stored session, revoked or
    not, gets the instant of the call as its [revoked_at] and none of its
    tokens is left without a stamp, without any security event being
    recorded; an unknown session id changes nothing. *)
Theorem revoke_by_id_effect w sid now :
  cache_get (redis w) (session_key sid) now = None ->
  match stored w sid with
  | Some s =>
      revoke_by_id w sid now = revoke_session w s now
      /\ stored (revoke_by_id w sid now) sid
         = Some (SessionModel.set_revoked_at (Some now) s)
      /\ all_tokens_revoked sid (db (revoke_by_id w sid now))
      /\ security_events (db (revoke_by_id w sid now)) = security_events (db w)
  | None => revoke_by_id w sid now = w
  end.
Proof.
  intros Hc. unfold revoke_by_id. rewrite load_session_eq, Hc.
  destruct (stored w sid) as [s|] eqn:Es; [|reflexivity].
  pose proof (find_session_id _ _ _ Es) as Hid. cbn [fst snd].
  split; [reflexivity|]. split; [|split; [|reflexivity]].
  - rewrite <- Hid. apply (stored_revoke_session w s s). rewrite Hid. exact Es.
  - rewrite <- Hid. apply revoke_session_tokens_revoked.
Qed.


(** ** The table of refresh tokens, call by call *)

Lemma unique_token_id_eq rows a b :
  NoDup (map RefreshToken.id rows) -> In a rows -> In b rows ->
  RefreshToken.id a = RefreshToken.id b -> a = b.
Proof.
  induction rows as [|r rows IH]; simpl; [tauto|].
  intros Hnd Ha Hb Hid. inversion Hnd as [|? ? Hnotin Hnd']; subst.
  destruct Ha as [->|Ha], Hb as [->|Hb]; [reflexivity| | |auto].
  - exfalso. apply Hnotin. rewrite Hid. apply list_elem_of_In, in_map. exact Hb.
  - exfalso. apply Hnotin. rewrite <- Hid. apply list_elem_of_In, in_map. exact Ha.
Qed.

Lemma find_token_map_in (f : RefreshToken.t -> RefreshToken.t) rows h :
  (forall r, In r rows -> RefreshToken.token_hash (f r) = RefreshToken.token_hash r) ->
  find_token (map f rows) h = option_map f (find_token rows h).
Proof.
  unfold find_token.
  induction rows as [|r rows IH]; intros Hf; simpl; [reflexivity|].
  rewrite Hf by (left; reflexivity).
  destruct (String.eqb _ _); [reflexivity|].
  apply IH. intros r' Hr'. apply Hf. right. exact Hr'.
Qed.

Lemma stamp_ids sid now rows :
  map RefreshToken.id
    (map (fun r => if String.eqb (RefreshToken.session_id r) sid
                      && is_none (RefreshToken.revoked_at r)
                   then RefreshToken.set_revoked_at (Some now) r
                   else r) rows)
  = map RefreshToken.id rows.
Proof.
  rewrite map_map. apply map_ext. intros r. destruct (_ && _); reflexivity.
Qed.

Lemma NoDup_snoc (ids : list string) id :
  NoDup ids -> ~ In id ids -> NoDup (ids ++ [id]).
Proof.
  intros Hnd Hn. apply NoDup_app. split; [exact Hnd|]. split.
  - intros x Hx Hin. apply list_elem_of_In in Hx. apply list_elem_of_In in Hin.
    simpl in Hin. destruct Hin as [<-|[]]. contradiction.
  - apply NoDup_singleton.
Qed.

Lemma ledger_unique rows rows' :
  ledger rows rows' ->
  NoDup (map RefreshToken.id rows) -> NoDup (map RefreshToken.id rows').
Proof.
  intros [sid now | tr nid now new Hin Hfresh | new Hfresh] Hnd.
  - rewrite stamp_ids. exact Hnd.
  - rewrite map_app, update_token_ids. apply NoDup_snoc; assumption.
  - rewrite map_app. apply NoDup_snoc; assumption.
Qed.

Lemma ledger_consumed rows rows' h sid :
  ledger rows rows' ->
  NoDup (map RefreshToken.id rows) ->
  (exists r, find_token rows h = Some r /\ RefreshToken.session_id r = sid
             /\ RefreshToken.revoked_at r <> None) ->
  exists r, find_token rows' h = Some r /\ RefreshToken.session_id r = sid
            /\ RefreshToken.revoked_at r <> None.
Proof.
  intros [sid0 now | tr nid now new Hin Hfresh | new Hfresh] Hnd (r & Hf & Hs & Hr).
  - rewrite find_token_map by (intros x; destruct (_ && _); reflexivity).
    rewrite Hf. simpl. eexists. split; [reflexivity|].
    destruct (_ && _); simpl; split; auto; discriminate.
  - unfold update_token.
    assert (E : find_token
                  (map (fun x => if String.eqb (RefreshToken.id x)
                                      (RefreshToken.id (consumed tr nid now))
                                 then consumed tr nid now else x) rows) h
                = option_map (fun x => if String.eqb (RefreshToken.id x)
                                            (RefreshToken.id (consumed tr nid now))
                                       then consumed tr nid now else x)
                    (find_token rows h)).
    { apply find_token_map_in. intros x Hx.
      destruct (String.eqb _ _) eqn:E; [|reflexivity].
      apply String.eqb_eq in E. simpl in E.
      rewrite (unique_token_id_eq rows x tr Hnd Hx Hin E). reflexivity. }
    rewrite Hf in E. simpl in E.
    eexists. split; [apply find_token_app; exact E|].
    destruct (String.eqb _ _) eqn:E2; [|split; assumption].
    apply String.eqb_eq in E2. simpl in E2.
    rewrite <- (unique_token_id_eq rows r tr Hnd (find_token_In _ _ _ Hf) Hin E2).
    simpl. split; [exact Hs | discriminate].
  - exists r. split; [apply find_token_app; exact Hf|]. split; assumption.
Qed.

Lemma ledgers_keep rows rows' h sid :
  rtc ledger rows rows' ->
  NoDup (map RefreshToken.id rows) ->
  (exists r, find_token rows h = Some r /\ RefreshToken.session_id r = sid
             /\ RefreshToken.revoked_at r <> None) ->
  NoDup (map RefreshToken.id rows')
  /\ exists r, find_token rows' h = Some r /\ RefreshToken.session_id r = sid
               /\ RefreshToken.revoked_at r <> None.
Proof.
  induction 1 as [rows|rows rows1 rows2 Hl _ IH]; intros Hnd Hc; [split; assumption|].
  apply IH; [eapply ledger_unique | eapply ledger_consumed]; eassumption.
Qed.

Lemma ledgers_unique rows rows' :
  rtc ledger rows rows' ->
  NoDup (map RefreshToken.id rows) -> NoDup (map RefreshToken.id rows').
Proof. induction 1; eauto using ledger_unique. Qed.

Lemma revoke_ledger w s now :
  ledger (refresh_tokens (db w)) (refresh_tokens (db (revoke_session w s now))).
Proof. unfold revoke_session. cbn [db refresh_tokens]. apply ledger_stamp. Qed.

Lemma create_ledger w user_id rd session_id token_id refresh_token now :
  rtc ledger (refresh_tokens (db w))
    (refresh_tokens
       (db (snd (create_session w user_id rd session_id token_id refresh_token now)))).
Proof.
  unfold create_session.
  destruct (parse_user_agent _) as [ua|]; [|apply rtc_refl].
  destruct (session_pk_free _ _ && _) eqn:E; [|apply rtc_refl].
  apply andb_true_iff in E as [_ E].
  cbn [snd]. rewrite cache_session_unchanged. cbn [db refresh_tokens log_security_event].
  apply rtc_once, ledger_insert, token_insertable_fresh, E.
Qed.

Lemma authenticate_ledger w sid rd now :
  rtc ledger (refresh_tokens (db w))
    (refresh_tokens (db (snd (authenticate_request w sid rd now)))).
Proof.
  unfold authenticate_request. rewrite load_session_eq.
  destruct (cache_get _ _ _) as [j|];
    [destruct (json_truthy j) eqn:Ej; [rewrite Ej; apply rtc_refl|]|];
    (destruct (stored w sid) as [s|]; [|apply rtc_refl];
     destruct (SessionModel.revoked_at s); [apply rtc_refl|]; simpl;
     destruct (SessionModel.expires_at s <? now); [apply rtc_refl|];
     destruct (REAUTH_RISK <=? _);
     [ apply rtc_once, (revoke_ledger w (scored s rd now) now)
     | rewrite cache_session_unchanged; apply rtc_refl ]).
Qed.

Lemma refresh_ledger w tok rd nt nid now :
  rtc ledger (refresh_tokens (db w))
    (refresh_tokens (db (snd (refresh_access_token w tok rd nt nid now)))).
Proof.
  unfold refresh_access_token.
  destruct (find_token _ _) as [tr|] eqn:Ef; [|apply rtc_refl].
  rewrite load_session_eq.
  destruct (cache_get _ _ _) as [j|];
    [destruct (json_truthy j) eqn:Ej; [rewrite Ej; apply rtc_refl|]|];
    (destruct (stored w (RefreshToken.session_id tr)) as [s|]; [|apply rtc_refl];
     destruct (SessionModel.revoked_at s); [apply rtc_refl|]; simpl;
     destruct (RefreshToken.revoked_at tr); simpl;
       [apply rtc_once, (revoke_ledger w s now)|];
     destruct (RefreshToken.expires_at tr <? now); [apply rtc_refl|];
     destruct (REAUTH_RISK <=? _); simpl;
       [apply rtc_once, (revoke_ledger w s now)|];
     destruct (token_insertable _ _) eqn:Ei; [|apply rtc_refl];
     cbn [snd]; rewrite cache_session_unchanged; cbn [db refresh_tokens];
     apply rtc_once;
     apply (ledger_rotate _ tr nid now);
       [eapply find_token_In, Ef | apply (token_insertable_fresh _ _ Ei)]).
Qed.

Lemma revoke_by_id_ledger w sid now :
  rtc ledger (refresh_tokens (db w)) (refresh_tokens (db (revoke_by_id w sid now))).
Proof.
  unfold revoke_by_id. rewrite load_session_eq.
  destruct (cache_get _ _ _) as [j|];
    [destruct (json_truthy j); [apply rtc_refl|]|];
    (destruct (stored w sid) as [s|]; [|apply rtc_refl];
     apply rtc_once, revoke_ledger).
Qed.

Lemma fold_revoke_ledger now (l : list SessionModel.t) :
  forall w,
    rtc ledger (refresh_tokens (db w))
      (refresh_tokens
         (db (fold_left (fun w session => revoke_session w session now) l w))).
Proof.
  induction l as [|s l IH]; intros w; simpl; [apply rtc_refl|].
  eapply rtc_l; [apply (revoke_ledger w s now) | apply IH].
Qed.

Lemma step_ledger w c :
  rtc ledger (refresh_tokens (db w)) (refresh_tokens (db (step w c))).
Proof.
  destruct c as [[] now]; unfold step; simpl.
  - apply create_ledger.
  - rewrite load_session_eq. apply rtc_refl.
  - apply authenticate_ledger.
  - apply refresh_ledger.
  - apply revoke_by_id_ledger.
  - unfold revoke_all_sessions. cbn [db refresh_tokens log_security_event].
    apply fold_revoke_ledger.
Qed.

Lemma run_ledger w calls :
  rtc ledger (refresh_tokens (db w)) (refresh_tokens (db (run w calls))).
Proof.
  revert w. induction calls as [|c calls IH]; intros w; simpl; [apply rtc_refl|].
  eapply rtc_trans; [apply step_ledger | apply IH].
Qed.

Lemma run_no_cache_entry w calls sid :
  no_cache_entry w sid -> no_cache_entry (run w calls) sid.
Proof.
  unfold no_cache_entry. intros H.
  destruct (touches_grow _ _ (run_touches w calls)) as (_ & _ & _ & Hsub).
  eapply lookup_weaken_None; eassumption.
Qed.

(** ** Replaying a consumed token in any later state *)

(** C1 (as the code has it).  Let a token be consumed by a successful
    rotation and let any sequence of calls follow.  The session is still
    stored.  While it is unrevoked, the first replay of the consumed token
    fails with "Refresh token reuse detected", revokes the session and all of
    its tokens and records a [token_reuse_detected] event, and every further
    replay fails with "Session invalid" and changes nothing; once the session
    is revoked, every replay fails with "Session invalid" and changes
    nothing.  The ids of sessions and tokens are the primary keys of their
    tables, and the cache holds nothing under the session's key. *)
Theorem replay_after_rotation
    w tok rd nt nid now s w1 calls rd1 nt1 nid1 now1 attempts :
  session_ids_unique (db w) ->
  token_ids_unique (db w) ->
  refresh_access_token w tok rd nt nid now = (Return (s, nt), w1) ->
  no_cache_entry w1 (SessionModel.id s) ->
  exists s2,
    stored (run w1 calls) (SessionModel.id s) = Some s2
    /\ (SessionModel.revoked_at s2 = None ->
        fst (replay (run w1 calls) tok ((rd1, nt1, nid1, now1) :: attempts))
        = Raise TokenReuseDetected :: repeat (Raise SessionInvalid) (length attempts)
        /\ snd (replay (run w1 calls) tok ((rd1, nt1, nid1, now1) :: attempts))
           = log_security_event (revoke_session (run w1 calls) s2 now1)
               (SessionModel.user_id s2) (Some (SessionModel.id s2))
               "token_reuse_detected" rd1 now1
        /\ stored (snd (replay (run w1 calls) tok ((rd1, nt1, nid1, now1) :: attempts)))
                  (SessionModel.id s)
           = Some (SessionModel.set_revoked_at (Some now1) s2)
        /\ all_tokens_revoked (SessionModel.id s)
             (db (snd (replay (run w1 calls) tok
                         ((rd1, nt1, nid1, now1) :: attempts)))))
    /\ (SessionModel.revoked_at s2 <> None ->
        replay (run w1 calls) tok ((rd1, nt1, nid1, now1) :: attempts)
        = (repeat (Raise SessionInvalid) (S (length attempts)), run w1 calls)).
Proof.
  intros Hu Ht H Hc.
  destruct (refresh_success_inv _ _ _ _ _ _ _ _ _ H)
    as (tr & s0 & Hf & Hl & Hr & Htr & He & Hk & Hi & -> & _ & ->).
  pose proof (load_row_stored _ _ _ _ Hl) as Hs0.
  pose proof (load_row_id _ _ _ _ Hl) as Hid0.
  set (s := rotated_session s0 rd now) in *.
  set (w1 := rotated_world w s0 tr rd nt nid now) in *.
  assert (Hids : SessionModel.id s = SessionModel.id s0) by apply rotated_session_id.
  rewrite Hids in *.
  (* the state left by the rotation *)
  assert (Hc1 : change w w1).
  { apply change_rotate; [eapply find_token_In, Hf | exact Htr | exact Hs0]. }
  assert (Hu1 : session_ids_unique (db w1)) by (eapply change_unique; eassumption).
  assert (Ht1 : NoDup (map RefreshToken.id (refresh_tokens (db w1)))).
  { unfold w1, rotated_world. cbn [db refresh_tokens].
    rewrite map_app, update_token_ids.
    apply NoDup_snoc; [exact Ht | apply (token_insertable_fresh _ _ Hi)]. }
  assert (Hf1 : exists r,
             find_token (refresh_tokens (db w1)) (hash_token tok) = Some r
             /\ RefreshToken.session_id r = SessionModel.id s0
             /\ RefreshToken.revoked_at r <> None).
  { exists (consumed tr nid now). split; [|split; [simpl; congruence | discriminate]].
    unfold w1, rotated_world. cbn [db refresh_tokens]. apply find_token_app.
    apply (find_token_update _ _ tr); [exact Hf | reflexivity |].
    simpl. eapply find_token_hash, Hf. }
  assert (Hs1 : stored w1 (SessionModel.id s0) = Some s).
  { unfold w1, rotated_world, stored. simpl. rewrite <- Hids.
    apply (find_update_same _ s s0). rewrite Hids, Hid0. exact Hs0. }
  (* the state in which the token is replayed *)
  set (w2 := run w1 calls).
  destruct (ledgers_keep _ _ (hash_token tok) (SessionModel.id s0)
              (run_ledger w1 calls) Ht1 Hf1) as (_ & tr2 & Hf2 & Hsid2 & Hrev2).
  fold w2 in Hf2.
  destruct (writes_kept _ _ (run_writes w1 calls Hu1) _ _ Hs1) as (s2 & Hs2 & _).
  fold w2 in Hs2.
  assert (Hc2 : no_cache_entry w2 (SessionModel.id s0))
    by (apply run_no_cache_entry; exact Hc).
  pose proof (find_session_id _ _ _ Hs2) as Hid2.
  exists s2. split; [exact Hs2|]. split.
  - intros Hr2.
    assert (E1 : refresh_access_token w2 tok rd1 nt1 nid1 now1
                 = (Raise TokenReuseDetected,
                    log_security_event (revoke_session w2 s2 now1)
                      (SessionModel.user_id s2) (Some (SessionModel.id s2))
                      "token_reuse_detected" rd1 now1)).
    { apply (refresh_reuse w2 tok rd1 nt1 nid1 now1 tr2 s2);
        [exact Hf2 | | exact Hr2 | exact Hrev2].
      rewrite Hsid2, load_session_miss by exact Hc2. simpl. congruence. }
    set (w3 := log_security_event (revoke_session w2 s2 now1)
                 (SessionModel.user_id s2) (Some (SessionModel.id s2))
                 "token_reuse_detected" rd1 now1) in *.
    assert (Hs3 : stored w3 (SessionModel.id s0)
                  = Some (SessionModel.set_revoked_at (Some now1) s2)).
    { unfold w3. rewrite stored_log_security_event. rewrite <- Hid2.
      apply (stored_revoke_session w2 s2 s2). rewrite Hid2. exact Hs2. }
    destruct (find_token_revoke_session w2 s2 now1 _ _ Hf2) as (tr3 & Hf3 & Hsid3 & _).
    assert (E2 : replay w3 tok attempts
                 = (repeat (Raise SessionInvalid) (length attempts), w3)).
    { apply (replay_session_revoked w3 tok tr3
               (SessionModel.set_revoked_at (Some now1) s2)).
      - exact Hf3.
      - rewrite Hsid3, Hsid2. unfold w3.
        apply (no_cache_entry_revoke_session w2 s2 now1). exact Hc2.
      - rewrite Hsid3, Hsid2. exact Hs3.
      - simpl. congruence. }
    cbn [replay]. rewrite E1. cbn [fst snd]. rewrite E2. cbn [fst snd].
    split; [reflexivity|]. split; [reflexivity|]. split; [exact Hs3|].
    rewrite <- Hid2. exact (revoke_session_tokens_revoked w2 s2 now1).
  - intros Hr2.
    apply (replay_session_revoked w2 tok tr2 s2
             ((rd1, nt1, nid1, now1) :: attempts)).
    + exact Hf2.
    + rewrite Hsid2. exact Hc2.
    + rewrite Hsid2. exact Hs2.
    + exact Hr2.
Qed.

(** ** Two refresh calls presenting the same token *)

Lemma written_same {A} `{EqDecision A} (loaded obj : A) : written loaded obj loaded = obj.
Proof. unfold written. destruct (decide (obj = loaded)); congruence. Qed.

Lemma written_untouched {A} `{EqDecision A} (loaded row : A) : written loaded loaded row = row.
Proof. unfold written. destruct (decide (loaded = loaded)); congruence. Qed.

Lemma flush_session_same loaded obj : flush_session loaded obj loaded = obj.
Proof. unfold flush_session. rewrite !written_same. destruct obj; reflexivity. Qed.

Lemma flush_token_same loaded obj : flush_token loaded obj loaded = obj.
Proof. unfold flush_token. rewrite !written_same. destruct obj; reflexivity. Qed.

Lemma find_session_map (f : SessionModel.t -> SessionModel.t) rows sid :
  (forall r, SessionModel.id (f r) = SessionModel.id r) ->
  find_session (map f rows) sid = option_map f (find_session rows sid).
Proof.
  intros Hf. unfold find_session.
  induction rows as [|r rows IH]; simpl; [reflexivity|].
  rewrite Hf. destruct (String.eqb _ _); [reflexivity | exact IH].
Qed.

Lemma flush_session_rows s obj rows :
  NoDup (map SessionModel.id rows) ->
  find_session rows (SessionModel.id s) = Some s ->
  SessionModel.id obj = SessionModel.id s ->
  map (fun r => if String.eqb (SessionModel.id r) (SessionModel.id s)
                then flush_session s obj r else r) rows
  = update_session obj rows.
Proof.
  intros Hnd Hs Hid. unfold update_session. apply map_ext_in. intros r Hr.
  rewrite Hid. destruct (String.eqb _ _) eqn:E; [|reflexivity].
  apply String.eqb_eq in E.
  rewrite (unique_id_eq rows r s Hnd Hr (find_session_In _ _ _ Hs) E).
  apply flush_session_same.
Qed.

Lemma flush_token_rows tr obj rows :
  NoDup (map RefreshToken.id rows) ->
  In tr rows ->
  RefreshToken.id obj = RefreshToken.id tr ->
  map (fun r => if String.eqb (RefreshToken.id r) (RefreshToken.id tr)
                then flush_token tr obj r else r) rows
  = update_token obj rows.
Proof.
  intros Hnd Hin Hid. unfold update_token. apply map_ext_in. intros r Hr.
  rewrite Hid. destruct (String.eqb _ _) eqn:E; [|reflexivity].
  apply String.eqb_eq in E.
  rewrite (unique_token_id_eq rows r tr Hnd Hr Hin E).
  apply flush_token_same.
Qed.

Lemma has_session_stored d sid s :
  find_session (sessions d) sid = Some s -> has_session d sid = true.
Proof.
  intros H. unfold has_session. apply existsb_exists. exists s.
  split; [eapply find_session_In, H|].
  rewrite (find_session_id _ _ _ H). apply String.eqb_refl.
Qed.

Lemma has_token_In d tr : In tr (refresh_tokens d) -> has_token d (RefreshToken.id tr) = true.
Proof.
  intros H. unfold has_token. apply existsb_exists. exists tr.
  split; [exact H | apply String.eqb_refl].
Qed.

(** When nothing was committed in between, the commit is the one of
    [refresh_access_token]. *)
Lemma rotation_commit_same_store w s tr rd nt nid now :
  session_ids_unique (db w) ->
  token_ids_unique (db w) ->
  stored w (SessionModel.id s) = Some s ->
  In tr (refresh_tokens (db w)) ->
  rotation_commit w s tr rd nt nid now
  = if token_insertable (db w) (successor s nt nid now)
    then (Return nt, rotated_world w s tr rd nt nid now)
    else (Raise IntegrityError, w).
Proof.
  intros Hu Ht Hs Hin. unfold rotation_commit. cbv zeta.
  rewrite (has_session_stored _ _ _ Hs), (has_token_In _ _ Hin), !orb_true_r.
  cbn [andb].
  destruct (token_insertable _ _); [|reflexivity].
  unfold rotated_world.
  rewrite (flush_session_rows s (rotated_session s rd now) _ Hu Hs
             (rotated_session_id s rd now)).
  rewrite (flush_token_rows tr (consumed tr nid now) _ Ht Hin eq_refl).
  reflexivity.
Qed.

Lemma refresh_reads_inv w tok rd now s tr :
  refresh_reads w tok rd now = Some (s, tr) ->
  find_token (refresh_tokens (db w)) (hash_token tok) = Some tr
  /\ fst (load_session w (RefreshToken.session_id tr) now) = Row (Some s)
  /\ SessionModel.revoked_at s = None
  /\ RefreshToken.revoked_at tr = None
  /\ (RefreshToken.expires_at tr <? now) = false
  /\ calculate_risk s rd < REAUTH_RISK.
Proof.
  unfold refresh_reads.
  destruct (find_token _ _) as [tr0|]; [|discriminate].
  destruct (fst (load_session w (RefreshToken.session_id tr0) now))
    as [j|[s0|]] eqn:El; try discriminate.
  destruct (is_none (SessionModel.revoked_at s0)) eqn:E1; [|discriminate].
  destruct (is_none (RefreshToken.revoked_at tr0)) eqn:E2; [|discriminate].
  destruct (RefreshToken.expires_at tr0 <? now) eqn:E3; [discriminate|].
  destruct (REAUTH_RISK <=? calculate_risk s0 rd) eqn:E4; [discriminate|].
  cbn [andb negb]. intros [= <- <-]. apply Z.leb_gt in E4.
  destruct (SessionModel.revoked_at s0); [discriminate|].
  destruct (RefreshToken.revoked_at tr0); [discriminate|].
  repeat split; auto.
Qed.

Lemma refresh_reads_rotates w tok rd nt nid now s tr :
  refresh_reads w tok rd now = Some (s, tr) ->
  refresh_access_token w tok rd nt nid now
  = if token_insertable (db w) (successor s nt nid now)
    then (Return (rotated_session s rd now, nt), rotated_world w s tr rd nt nid now)
    else (Raise IntegrityError, w).
Proof.
  intros H. destruct (refresh_reads_inv _ _ _ _ _ _ H) as (Hf & Hl & Hr & Ht & He & Hk).
  apply (refresh_below_threshold w tok rd nt nid now tr s); assumption.
Qed.

Lemma token_insertable_after_rotation w s tr rd nt nid now new :
  In tr (refresh_tokens (db w)) ->
  token_insertable (db w) new = true ->
  RefreshToken.id new <> nid ->
  RefreshToken.token_hash new <> hash_token nt ->
  token_insertable (db (rotated_world w s tr rd nt nid now)) new = true.
Proof.
  intros Hin Hi Hnid Hh. unfold token_insertable, rotated_world.
  cbn [db refresh_tokens]. rewrite forallb_app. apply andb_true_iff. split.
  - apply forallb_forall. intros r Hr. unfold update_token in Hr.
    apply in_map_iff in Hr as (r0 & <- & Hr0).
    destruct (String.eqb (RefreshToken.id r0) _).
    + destruct (token_insertable_In _ _ _ Hi Hin) as [H1 H2]. simpl.
      apply andb_true_iff. split; apply negb_true_iff, String.eqb_neq; assumption.
    + destruct (token_insertable_In _ _ _ Hi Hr0) as [H1 H2].
      apply andb_true_iff. split; apply negb_true_iff, String.eqb_neq; assumption.
  - cbn [forallb successor RefreshToken.id RefreshToken.token_hash].
    rewrite andb_true_r. apply andb_true_iff.
    split; apply negb_true_iff, String.eqb_neq; congruence.
Qed.

(** C9 (as the code has it).  Take two refresh calls presenting the same
    token, on a store whose ids are unique, with draws that are fresh and
    differ from each other.  When the second call reads after the first has
    committed its rotation, it finds the record revoked, fails with "Refresh
    token reuse detected" and revokes the session.  When each call reads
    before either commits, nothing excludes the second: both calls return a
    new secret; the commit of the second stamps the record over the stamp of
    the first; the successors of both are stored, unrevoked, so the session
    has at least two unrevoked tokens; the session is not revoked and no
    security event is recorded.  A commit that meets the store it read is
    the commit of [refresh_access_token]. *)
Theorem overlapping_refreshes_both_rotate
    w tok rd_a nt_a nid_a now_a rd_b nt_b nid_b now_b s tr :
  session_ids_unique (db w) ->
  token_ids_unique (db w) ->
  refresh_reads w tok rd_a now_a = Some (s, tr) ->
  refresh_reads w tok rd_b now_b = Some (s, tr) ->
  token_insertable (db w) (successor s nt_a nid_a now_a) = true ->
  token_insertable (db w) (successor s nt_b nid_b now_b) = true ->
  nid_b <> nid_a ->
  hash_token nt_b <> hash_token nt_a ->
  (refresh_access_token w tok rd_a nt_a nid_a now_a
   = (Return (rotated_session s rd_a now_a, nt_a),
      rotated_world w s tr rd_a nt_a nid_a now_a)
   /\ rotation_commit w s tr rd_a nt_a nid_a now_a
      = (Return nt_a, rotated_world w s tr rd_a nt_a nid_a now_a)
   /\ fst (refresh_access_token (rotated_world w s tr rd_a nt_a nid_a now_a)
             tok rd_b nt_b nid_b now_b)
      = Raise TokenReuseDetected
   /\ exists s',
        stored (snd (refresh_access_token (rotated_world w s tr rd_a nt_a nid_a now_a)
                       tok rd_b nt_b nid_b now_b)) (SessionModel.id s) = Some s'
        /\ SessionModel.revoked_at s' = Some now_b)
  /\ exists w2,
       overlapped w tok (rd_a, nt_a, nid_a, now_a) (rd_b, nt_b, nid_b, now_b)
       = Some (Return nt_a, Return nt_b, w2)
       /\ (exists tr', find_token (refresh_tokens (db w2)) (hash_token tok) = Some tr'
                       /\ RefreshToken.revoked_at tr' = Some now_b)
       /\ In (successor s nt_a nid_a now_a) (refresh_tokens (db w2))
       /\ In (successor s nt_b nid_b now_b) (refresh_tokens (db w2))
       /\ (2 <= unrevoked_count (SessionModel.id s) (db w2))%nat
       /\ (exists s2, stored w2 (SessionModel.id s) = Some s2
                      /\ SessionModel.revoked_at s2 = None)
       /\ security_events (db w2) = security_events (db w).
Proof.
  intros Hu Ht Ha Hb Hia Hib Hnid Hhash.
  destruct (refresh_reads_inv _ _ _ _ _ _ Ha) as (Hf & Hla & Hr & Htr & Hea & Hka).
  destruct (refresh_reads_inv _ _ _ _ _ _ Hb) as (_ & Hlb & _ & _ & Heb & Hkb).
  pose proof (load_row_stored _ _ _ _ Hla) as Hs.
  pose proof (find_session_id _ _ _ Hs) as Hid.
  pose proof (find_token_In _ _ _ Hf) as Hin.
  rewrite <- Hid in Hs.
  set (w1 := rotated_world w s tr rd_a nt_a nid_a now_a).
  assert (Ea : refresh_access_token w tok rd_a nt_a nid_a now_a
               = (Return (rotated_session s rd_a now_a, nt_a), w1))
    by (rewrite (refresh_reads_rotates _ _ _ _ _ _ _ _ Ha), Hia; reflexivity).
  assert (Ca : rotation_commit w s tr rd_a nt_a nid_a now_a = (Return nt_a, w1))
    by (rewrite rotation_commit_same_store, Hia by assumption; reflexivity).
  (* what the first commit leaves *)
  assert (Hf1 : find_token (refresh_tokens (db w1)) (hash_token tok)
                = Some (consumed tr nid_a now_a)).
  { unfold w1, rotated_world. cbn [db refresh_tokens]. apply find_token_app.
    apply (find_token_update _ _ tr); [exact Hf | reflexivity |].
    simpl. eapply find_token_hash, Hf. }
  assert (Hs1 : stored w1 (SessionModel.id s) = Some (rotated_session s rd_a now_a)).
  { unfold w1, rotated_world, stored. cbn [db sessions].
    rewrite <- (rotated_session_id s rd_a now_a).
    apply (find_update_same _ _ s). rewrite rotated_session_id. exact Hs. }
  assert (Hi1 : token_insertable (db w1) (successor s nt_b nid_b now_b) = true)
    by (apply token_insertable_after_rotation; assumption).
  split.
  - split; [exact Ea|]. split; [exact Ca|].
    assert (Hl1 : fst (load_session w1 (RefreshToken.session_id tr) now_b)
                  = Row (Some (rotated_session s rd_a now_a))).
    { rewrite load_session_eq in *. cbn [fst] in *.
      change (redis w1) with (redis w).
      destruct (cache_get (redis w) _ now_b) as [j|];
        [destruct (json_truthy j); [discriminate|]|];
        rewrite <- Hid, Hs1; reflexivity. }
    assert (E : refresh_access_token w1 tok rd_b nt_b nid_b now_b
                = (Raise TokenReuseDetected,
                   log_security_event
                     (revoke_session w1 (rotated_session s rd_a now_a) now_b)
                     (SessionModel.user_id (rotated_session s rd_a now_a))
                     (Some (SessionModel.id (rotated_session s rd_a now_a)))
                     "token_reuse_detected" rd_b now_b)).
    { apply (refresh_reuse w1 tok rd_b nt_b nid_b now_b (consumed tr nid_a now_a));
        [exact Hf1 | exact Hl1 | | discriminate].
      unfold rotated_session. rewrite update_context_revoked_at. exact Hr. }
    rewrite E. cbn [fst snd]. split; [reflexivity|].
    exists (SessionModel.set_revoked_at (Some now_b) (rotated_session s rd_a now_a)).
    split; [|reflexivity].
    rewrite stored_log_security_event, <- (rotated_session_id s rd_a now_a).
    apply (stored_revoke_session w1 _ (rotated_session s rd_a now_a)).
    rewrite rotated_session_id. exact Hs1.
  - (* both calls have read [w] *)
    assert (Hnid_a : RefreshToken.id tr <> nid_a)
      by (apply (token_insertable_In _ _ _ Hia Hin)).
    eexists. split.
    { unfold overlapped. rewrite Ha, Hb, Ca. cbn [fst snd].
      unfold rotation_commit. cbv zeta.
      rewrite (has_session_stored _ _ _ Hs1).
      assert (has_token (db w1) (RefreshToken.id tr) = true) as ->.
      { apply (has_token_In (db w1) (consumed tr nid_a now_a)).
        eapply find_token_In, Hf1. }
      rewrite !orb_true_r. cbn [andb]. rewrite Hi1. reflexivity. }
    cbn [snd db refresh_tokens sessions security_events].
    set (fB := fun r => if String.eqb (RefreshToken.id r) (RefreshToken.id tr)
                        then flush_token tr (consumed tr nid_b now_b) r else r).
    assert (HfB : forall r, RefreshToken.token_hash (fB r) = RefreshToken.token_hash r).
    { intros r. unfold fB. destruct (String.eqb _ _); [|reflexivity].
      unfold flush_token. cbn. apply written_untouched. }
    assert (Hsucc : fB (successor s nt_a nid_a now_a) = successor s nt_a nid_a now_a).
    { unfold fB. cbn [successor RefreshToken.id].
      assert (String.eqb nid_a (RefreshToken.id tr) = false) as ->
        by (apply String.eqb_neq; congruence).
      reflexivity. }
    assert (Htok1 : refresh_tokens (db w1)
                    = (update_token (consumed tr nid_a now_a) (refresh_tokens (db w))
                       ++ [successor s nt_a nid_a now_a])%list) by reflexivity.
    split.
    { exists (fB (consumed tr nid_a now_a)). split.
      - apply find_token_app. rewrite (find_token_map fB) by exact HfB.
        rewrite Hf1. reflexivity.
      - unfold fB. cbn [consumed RefreshToken.set_replaced_by RefreshToken.set_revoked_at
                        RefreshToken.id].
        rewrite String.eqb_refl. unfold flush_token. cbn. rewrite Htr. reflexivity. }
    split.
    { apply in_or_app. left. rewrite Htok1, map_app. apply in_or_app. right.
      cbn [map]. rewrite Hsucc. left. reflexivity. }
    split; [apply in_or_app; right; left; reflexivity|].
    split.
    { unfold unrevoked_count. cbn [db refresh_tokens].
      rewrite Htok1, map_app, !List.filter_app, !length_app. cbn [map].
      rewrite Hsucc.
      assert (Hun : forall nt nid now,
                unrevoked (SessionModel.id s) (successor s nt nid now) = true).
      { intros. unfold unrevoked, successor. cbn. rewrite String.eqb_refl. reflexivity. }
      cbn [List.filter]. rewrite !Hun. cbn [length]. lia. }
    split; [|reflexivity].
    set (gB := fun r => if String.eqb (SessionModel.id r) (SessionModel.id s)
                        then flush_session s (rotated_session s rd_b now_b) r else r).
    assert (HgB : forall r, SessionModel.id (gB r) = SessionModel.id r).
    { intros r. unfold gB. destruct (String.eqb _ _); [|reflexivity].
      unfold flush_session. cbn. rewrite rotated_session_id. apply written_untouched. }
    exists (gB (rotated_session s rd_a now_a)). split.
    + unfold stored. cbn [db sessions]. rewrite (find_session_map gB) by exact HgB.
      unfold stored in Hs1. rewrite Hs1. reflexivity.
    + unfold gB. rewrite rotated_session_id, String.eqb_refl.
      unfold flush_session. cbn [SessionModel.revoked_at].
      unfold rotated_session. rewrite !update_context_revoked_at.
      cbn [SessionModel.revoked_at SessionModel.set_risk_score
           SessionModel.set_last_seen_at].
      rewrite written_untouched. exact Hr.
Qed.

End SessionManager.

(** * Concrete runs *)

Example sha256_abc :
  hash_token "abc" = "ba7816bf8f01cfea414140de5dae2223b00361a396177a9cb410ff61f20015ad".
Proof. vm_compute. reflexivity. Qed.

Example sha256_two_blocks :
  hash_token "aaaaaaaaaaaaaaaaaaaaaaaaaaaaaaaaaaaaaaaaaaaaaaaaaaaaaaaaaaaaaaaaaaaaaa"
  = "6bd5e5034855a11241f0dee8fc72850ffd9955b28347a86428b5fa19119f6ad0".
Proof. vm_compute. reflexivity. Qed.

Example sha256_empty :
  hash_token "" = "e3b0c44298fc1c149afbf4c8996fb92427ae41e4649b934ca495991b7852b855".
Proof. vm_compute. reflexivity. Qed.

Example create_example_world :
  create_session default_settings linux_firefox empty_world 7 home_request
    "s-1" "t-1" "secret-1" 0
  = (Return (example_session, "secret-1"), example_world).
Proof. vm_compute. reflexivity. Qed.

(** A login without a User-Agent header: the key is present with value
    [None], and [parse_user_agent] raises. *)
Example create_without_user_agent :
  create_session default_settings linux_firefox empty_world 7
    (list_to_map [("ip", PyStr "198.51.100.7"); ("user_agent", PyNone);
                  ("device_id", PyNone); ("client_id", PyStr "web")])
    "s-1" "t-1" "secret-1" 0
  = (Raise AttributeError, empty_world).
Proof. vm_compute. reflexivity. Qed.

(** The scenario of the specification, as the code runs it: the same request
    leaves the score at 0; a new device id adds 40; the stored device id is
    not replaced, so the next request from the new device with a new client id
    is scored 40 + 30 and the total of 110 revokes the session. *)
Example scenario_scores :
  option_map SessionModel.risk_score
    (stored (run default_settings linux_firefox example_world
               [(Authenticate "s-1" home_request, seconds 10)]) "s-1") = Some 0
  /\ option_map SessionModel.risk_score
       (stored (run default_settings linux_firefox example_world
                  [(Authenticate "s-1" home_request, seconds 10);
                   (Authenticate "s-1" new_device_request, seconds 20)]) "s-1") = Some 40
  /\ fst (authenticate_request default_settings
            (run default_settings linux_firefox example_world
               [(Authenticate "s-1" home_request, seconds 10);
                (Authenticate "s-1" new_device_request, seconds 20)])
            "s-1" takeover_request (seconds 30)) = Raise ReauthRequired
  /\ fst (authenticate_request default_settings
            (run default_settings linux_firefox example_world
               [(Authenticate "s-1" home_request, seconds 10);
                (Authenticate "s-1" new_device_request, seconds 20);
                (Authenticate "s-1" takeover_request, seconds 30)])
            "s-1" home_request (seconds 40)) = Raise SessionInvalid.
Proof. vm_compute. repeat split. Qed.

(** ** Inputs on which the claims as first stated fail *)

(** C1 as stated fails: after the rotation of "secret-1", the first replay is
    answered "Refresh token reuse detected", the second "Session invalid". *)
Lemma second_replay_is_session_invalid :
  (exists s,
     fst (refresh_access_token default_settings example_world "secret-1"
            home_request "secret-2" "t-2" (seconds 10))
     = Return (s, "secret-2"))
  /\ fst (replay default_settings
            (snd (refresh_access_token default_settings example_world "secret-1"
                    home_request "secret-2" "t-2" (seconds 10)))
            "secret-1"
            [(home_request, "secret-3", "t-3", seconds 20);
             (home_request, "secret-4", "t-4", seconds 30)])
     = [Raise TokenReuseDetected; Raise SessionInvalid]
  /\ SessionInvalid <> TokenReuseDetected.
Proof.
  split; [|split].
  - eexists. vm_compute. reflexivity.
  - vm_compute. reflexivity.
  - discriminate.
Qed.

(** C2 as stated fails: with a stored score of 40, a refresh whose own delta
    is 30 brings the score to 70 = [REAUTH_RISK], and the call rotates the
    token and returns the unrevoked session. *)
Lemma refresh_ignores_cumulative_score :
  option_map SessionModel.risk_score
    (stored (snd (authenticate_request default_settings example_world "s-1"
                    new_device_request (seconds 10))) "s-1") = Some 40
  /\ exists s',
       fst (refresh_access_token default_settings
              (snd (authenticate_request default_settings example_world "s-1"
                      new_device_request (seconds 10)))
              "secret-1" new_client_request "secret-2" "t-2" (seconds 20))
       = Return (s', "secret-2")
       /\ SessionModel.risk_score s' = 70
       /\ REAUTH_RISK <= SessionModel.risk_score s'
       /\ SessionModel.revoked_at s' = None.
Proof.
  split; [vm_compute; reflexivity|].
  eexists. split; [vm_compute; reflexivity|].
  split; [reflexivity|]. split; [discriminate | reflexivity].
Qed.

(** C3 as stated fails: a second [revoke_session] ten seconds after the first
    replaces the stored [revoked_at], and the two states differ. *)
Lemma second_revoke_overwrites_revoked_at :
  option_map SessionModel.revoked_at
    (stored (revoke_session example_world example_session (seconds 10)) "s-1")
  = Some (Some (seconds 10))
  /\ option_map SessionModel.revoked_at
       (stored (revoke_session
                  (revoke_session example_world example_session (seconds 10))
                  (SessionModel.set_revoked_at (Some (seconds 10)) example_session)
                  (seconds 20)) "s-1")
     = Some (Some (seconds 20))
  /\ revoke_session
       (revoke_session example_world example_session (seconds 10))
       (SessionModel.set_revoked_at (Some (seconds 10)) example_session)
       (seconds 20)
     <> revoke_session example_world example_session (seconds 10).
Proof.
  split; [vm_compute; reflexivity|]. split; [vm_compute; reflexivity|].
  intros H.
  apply (f_equal (fun w => option_map SessionModel.revoked_at (stored w "s-1"))) in H.
  vm_compute in H. discriminate.
Qed.

(** C4 as stated fails: an accepted request from device-B leaves device-A as
    the stored device id, and the same request repeated is scored against
    device-A again, which revokes the session. *)
Lemma authenticate_keeps_stored_device_id :
  exists s' w',
    authenticate_request default_settings example_world "s-1"
      new_device_request (seconds 10) = (Return s', w')
    /\ get new_device_request "device_id" = PyStr "device-B"
    /\ SessionModel.device_id s' = PyStr "device-A"
    /\ stored w' "s-1" = Some s'
    /\ fst (authenticate_request default_settings w' "s-1"
              new_device_request (seconds 20)) = Raise ReauthRequired.
Proof.
  eexists. eexists. split; [vm_compute; reflexivity|].
  repeat split; vm_compute; reflexivity.
Qed.

(** C9 as stated fails: two refresh calls present "secret-1" and each reads
    the store before either commits.  Both return a new secret; the second
    commit stamps the record again and names its own successor; "t-2" and
    "t-3" are both unrevoked; the session is not revoked and no
    [token_reuse_detected] event is recorded. *)
Lemma overlapping_refreshes_defeat_reuse_detection :
  exists w2,
    overlapped default_settings example_world "secret-1"
      (home_request, "secret-2", "t-2", seconds 10)
      (home_request, "secret-3", "t-3", seconds 11)
    = Some (Return "secret-2", Return "secret-3", w2)
    /\ Return "secret-3" <> Raise (A := string) TokenReuseDetected
    /\ map (fun r => (RefreshToken.id r, RefreshToken.revoked_at r,
                      RefreshToken.replaced_by r))
           (refresh_tokens (db w2))
       = [("t-1", Some (seconds 11), Some "t-3");
          ("t-2", None, None);
          ("t-3", None, None)]
    /\ unrevoked_count "s-1" (db w2) = 2%nat
    /\ option_map SessionModel.revoked_at (stored w2 "s-1") = Some None
    /\ security_events (db w2) = security_events (db example_world).
Proof.
  eexists. split; [vm_compute; reflexivity|].
  split; [discriminate|]. repeat split; vm_compute; reflexivity.
Qed.

(** ** The theorems at concrete inputs *)

Lemma replay_after_rotation_witness :
  refresh_access_token default_settings example_world "secret-1" home_request
    "secret-2" "t-2" (seconds 10)
  = (Return (rotated_session example_session home_request (seconds 10), "secret-2"),
     rotated_world default_settings example_world example_session example_token
       home_request "secret-2" "t-2" (seconds 10))
  /\ fst (refresh_access_token default_settings
            (rotated_world default_settings example_world example_session example_token
               home_request "secret-2" "t-2" (seconds 10))
            "secret-2" home_request "secret-3" "t-3" (seconds 30))
     = Return (rotated_session
                 (rotated_session example_session home_request (seconds 10))
                 home_request (seconds 30), "secret-3")
  /\ fst (replay default_settings
            (run default_settings linux_firefox
               (rotated_world default_settings example_world example_session
                  example_token home_request "secret-2" "t-2" (seconds 10))
               [(Authenticate "s-1" home_request, seconds 20);
                (Refresh "secret-2" home_request "secret-3" "t-3", seconds 30)])
            "secret-1"
            [(home_request, "secret-4", "t-4", seconds 40);
             (home_request, "secret-5", "t-5", seconds 50)])
     = [Raise TokenReuseDetected; Raise SessionInvalid]
  /\ all_tokens_revoked "s-1"
       (db (snd (replay default_settings
                   (run default_settings linux_firefox
                      (rotated_world default_settings example_world example_session
                         example_token home_request "secret-2" "t-2" (seconds 10))
                      [(Authenticate "s-1" home_request, seconds 20);
                       (Refresh "secret-2" home_request "secret-3" "t-3", seconds 30)])
                   "secret-1"
                   [(home_request, "secret-4", "t-4", seconds 40);
                    (home_request, "secret-5", "t-5", seconds 50)]))).
Proof.
  assert (H1 :
    refresh_access_token default_settings example_world "secret-1" home_request
      "secret-2" "t-2" (seconds 10)
    = (Return (rotated_session example_session home_request (seconds 10), "secret-2"),
       rotated_world default_settings example_world example_session example_token
         home_request "secret-2" "t-2" (seconds 10)))
    by (vm_compute; reflexivity).
  assert (H2 :
    no_cache_entry
      (rotated_world default_settings example_world example_session example_token
         home_request "secret-2" "t-2" (seconds 10))
      (SessionModel.id (rotated_session example_session home_request (seconds 10))))
    by (vm_compute; reflexivity).
  assert (Hu : session_ids_unique (db example_world))
    by (unfold session_ids_unique; simpl; apply NoDup_singleton).
  assert (Ht : token_ids_unique (db example_world))
    by (unfold token_ids_unique; simpl; apply NoDup_singleton).
  destruct (replay_after_rotation default_settings linux_firefox example_world
              "secret-1" home_request "secret-2" "t-2" (seconds 10) _ _
              [(Authenticate "s-1" home_request, seconds 20);
               (Refresh "secret-2" home_request "secret-3" "t-3", seconds 30)]
              home_request "secret-4" "t-4" (seconds 40)
              [(home_request, "secret-5", "t-5", seconds 50)] Hu Ht H1 H2)
    as (s2 & Hs2 & Hlive & _).
  assert (Hr2 : SessionModel.revoked_at s2 = None).
  { vm_compute in Hs2. injection Hs2 as <-. reflexivity. }
  destruct (Hlive Hr2) as (A & _ & _ & D).
  split; [exact H1|]. split; [vm_compute; reflexivity|]. split; [exact A | exact D].
Defined.

Lemma at_most_one_usable_token_witness :
  (exists session w',
     create_session default_settings linux_firefox empty_world 7 home_request
       "s-1" "t-1" "secret-1" 0 = (Return (session, "secret-1"), w')
     /\ tokens_of "s-1" (db w') = [example_token]
     /\ unrevoked_count "s-1" (db w') = 1%nat)
  /\ (exists w',
        refresh_access_token default_settings example_world "secret-1" home_request
          "secret-2" "t-2" (seconds 10)
        = (Return (rotated_session example_session home_request (seconds 10),
                   "secret-2"), w')
        /\ find_token (refresh_tokens (db w')) (hash_token "secret-1")
           = Some (consumed example_token "t-2" (seconds 10))
        /\ unrevoked_count "s-1" (db w') = 1%nat)
  /\ unrevoked_count "s-1"
       (db (revoke_session example_world example_session (seconds 10))) = 0%nat.
Proof.
  destruct (at_most_one_usable_token default_settings linux_firefox)
    as (Hreach & Hcreate & _ & Hrefresh & _ & Hrevoke).
  split; [|split].
  - destruct (Hcreate empty_world 7 home_request "s-1" "t-1" "secret-1" 0 "Mozilla/5.0")
      as (session & w' & E & _ & Hone);
      [vm_compute; reflexivity | vm_compute; reflexivity | vm_compute; reflexivity |].
    exists session, w'. split; [exact E|].
    apply Hone. unfold tokens_have_session. simpl. constructor.
  - destruct (Hrefresh example_world "secret-1" home_request "secret-2" "t-2"
                (seconds 10) example_token example_session)
      as (w' & E & _ & Hfind & _ & _ & _ & Hone);
      [vm_compute; reflexivity | vm_compute; reflexivity | reflexivity | reflexivity
      | vm_compute; reflexivity | vm_compute; reflexivity | vm_compute; reflexivity |].
    exists w'. split; [exact E|]. split; [exact Hfind|].
    apply Hone.
    exact (proj1 (Hreach (mkRedis true ∅)
                    [(Create 7 home_request "s-1" "t-1" "secret-1", 0)])).
  - exact (proj2 (Hrevoke example_world example_session (seconds 10))).
Defined.

Lemma overlapping_refreshes_both_rotate_witness :
  refresh_reads default_settings example_world "secret-1" home_request (seconds 10)
  = Some (example_session, example_token)
  /\ refresh_reads default_settings example_world "secret-1" new_client_request
       (seconds 11)
     = Some (example_session, example_token)
  /\ fst (refresh_access_token default_settings
            (rotated_world default_settings example_world example_session example_token
               home_request "secret-2" "t-2" (seconds 10))
            "secret-1" new_client_request "secret-3" "t-3" (seconds 11))
     = Raise TokenReuseDetected
  /\ exists w2,
       overlapped default_settings example_world "secret-1"
         (home_request, "secret-2", "t-2", seconds 10)
         (new_client_request, "secret-3", "t-3", seconds 11)
       = Some (Return "secret-2", Return "secret-3", w2)
       /\ (2 <= unrevoked_count "s-1" (db w2))%nat
       /\ security_events (db w2) = security_events (db example_world).
Proof.
  assert (Ha : refresh_reads default_settings example_world "secret-1" home_request
                 (seconds 10) = Some (example_session, example_token))
    by (vm_compute; reflexivity).
  assert (Hb : refresh_reads default_settings example_world "secret-1"
                 new_client_request (seconds 11)
               = Some (example_session, example_token))
    by (vm_compute; reflexivity).
  assert (Hu : session_ids_unique (db example_world))
    by (unfold session_ids_unique; simpl; apply NoDup_singleton).
  assert (Ht : token_ids_unique (db example_world))
    by (unfold token_ids_unique; simpl; apply NoDup_singleton).
  destruct (overlapping_refreshes_both_rotate default_settings example_world "secret-1"
              home_request "secret-2" "t-2" (seconds 10)
              new_client_request "secret-3" "t-3" (seconds 11)
              example_session example_token Hu Ht Ha Hb)
    as ((_ & _ & Hserial & _) & w2 & E & _ & _ & _ & Hcount & _ & Hev);
    [vm_compute; reflexivity | vm_compute; reflexivity
    | discriminate | vm_compute; discriminate |].
  split; [exact Ha|]. split; [exact Hb|]. split; [exact Hserial|].
  exists w2. split; [exact E|]. split; [exact Hcount | exact Hev].
Defined.

Lemma refresh_risk_branch_witness :
  find_token (refresh_tokens (db example_world)) (hash_token "secret-1")
  = Some example_token
  /\ fst (load_session default_settings example_world "s-1" (seconds 10))
     = Row (Some example_session)
  /\ REAUTH_RISK <= calculate_risk example_session takeover_request
  /\ fst (refresh_access_token default_settings example_world "secret-1"
            takeover_request "secret-2" "t-2" (seconds 10))
     = Raise SuspiciousActivity
  /\ option_map SessionModel.risk_score
       (stored (snd (refresh_access_token default_settings example_world "secret-1"
                       takeover_request "secret-2" "t-2" (seconds 10))) "s-1")
     = Some 0.
Proof.
  assert (Hf : find_token (refresh_tokens (db example_world)) (hash_token "secret-1")
               = Some example_token) by (vm_compute; reflexivity).
  assert (Hl : fst (load_session default_settings example_world
                      (RefreshToken.session_id example_token) (seconds 10))
               = Row (Some example_session)) by (vm_compute; reflexivity).
  assert (Hk : REAUTH_RISK <= calculate_risk example_session takeover_request)
    by (vm_compute; discriminate).
  destruct (refresh_risk_branch default_settings example_world "secret-1"
              takeover_request "secret-2" "t-2" (seconds 10)
              example_token example_session Hf Hl eq_refl eq_refl eq_refl)
    as (_ & Hhigh & _).
  destruct (Hhigh Hk) as (A & B & _ & _).
  split; [exact Hf|]. split; [exact Hl|]. split; [exact Hk|]. split; [exact A|].
  change "s-1" with (RefreshToken.session_id example_token).
  rewrite B. reflexivity.
Defined.

Lemma authenticate_success_updates_witness :
  authenticate_request default_settings example_world "s-1" new_device_request
    (seconds 10)
  = (Return (update_context (scored example_session new_device_request (seconds 10))
               new_device_request),
     commit_session example_world
       (update_context (scored example_session new_device_request (seconds 10))
          new_device_request))
  /\ exists s,
       stored example_world "s-1" = Some s
       /\ SessionModel.device_id
            (update_context (scored example_session new_device_request (seconds 10))
               new_device_request)
          = SessionModel.device_id s
       /\ SessionModel.risk_score
            (update_context (scored example_session new_device_request (seconds 10))
               new_device_request)
          = SessionModel.risk_score s + calculate_risk s new_device_request.
Proof.
  assert (H :
    authenticate_request default_settings example_world "s-1" new_device_request
      (seconds 10)
    = (Return (update_context (scored example_session new_device_request (seconds 10))
                 new_device_request),
       commit_session example_world
         (update_context (scored example_session new_device_request (seconds 10))
            new_device_request)))
    by (vm_compute; reflexivity).
  split; [exact H|].
  destruct (authenticate_success_updates default_settings _ _ _ _ _ _ H)
    as (s & Hs & _ & _ & Hrisk & _ & Hdev & _).
  exists s. split; [exact Hs|]. split; [exact Hdev | exact Hrisk].
Defined.

Lemma risk_scorer_rule_table_witness :
  calculate_risk example_session takeover_request = 95
  /\ exists w' session',
       authenticate_request default_settings example_world "s-1" takeover_request
         (seconds 10) = (Raise ReauthRequired, w')
       /\ stored w' "s-1" = Some session'
       /\ SessionModel.revoked_at session' = Some (seconds 10).
Proof.
  destruct (risk_scorer_rule_table default_settings)
    as (_ & _ & _ & H95 & _ & Hauth & _).
  assert (Hk : calculate_risk example_session takeover_request = 95)
    by (apply H95; vm_compute; reflexivity).
  split; [exact Hk|].
  apply (Hauth example_world "s-1" takeover_request (seconds 10) example_session).
  - vm_compute. reflexivity.
  - reflexivity.
  - reflexivity.
  - vm_compute. discriminate.
  - exact Hk.
Defined.


Lemma reauth_failure_keeps_tipping_delta_witness :
  authenticate_request default_settings example_world "s-1" takeover_request
    (seconds 10)
  = (Raise ReauthRequired,
     log_security_event
       (revoke_session example_world
          (scored example_session takeover_request (seconds 10)) (seconds 10))
       7 (Some "s-1") "session_revoked_risk" takeover_request (seconds 10))
  /\ exists s s',
       stored example_world "s-1" = Some s
       /\ stored
            (log_security_event
               (revoke_session example_world
                  (scored example_session takeover_request (seconds 10)) (seconds 10))
               7 (Some "s-1") "session_revoked_risk" takeover_request (seconds 10))
            "s-1" = Some s'
       /\ SessionModel.risk_score s'
          = SessionModel.risk_score s + calculate_risk s takeover_request
       /\ SessionModel.last_seen_at s' = seconds 10.
Proof.
  assert (H :
    authenticate_request default_settings example_world "s-1" takeover_request
      (seconds 10)
    = (Raise ReauthRequired,
       log_security_event
         (revoke_session example_world
            (scored example_session takeover_request (seconds 10)) (seconds 10))
         7 (Some "s-1") "session_revoked_risk" takeover_request (seconds 10)))
    by (vm_compute; reflexivity).
  split; [exact H|].
  destruct (reauth_failure_keeps_tipping_delta default_settings) as [Hauth _].
  destruct (Hauth _ _ _ _ _ H) as (s & s' & Hs & Hs' & _ & Hr & Hl & _).
  exists s, s'. repeat split; assumption.
Defined.

Lemma load_session_never_backfills_witness :
  no_cache_entry example_world "s-1"
  /\ load_session default_settings example_world "s-1" (seconds 10)
     = (Row (Some example_session), example_world)
  /\ cache_get
       (redis (snd (load_session default_settings example_world "s-1" (seconds 10))))
       (session_key "s-1") (seconds 11) = None.
Proof.
  assert (Hc : no_cache_entry example_world "s-1") by (vm_compute; reflexivity).
  destruct (load_session_never_backfills default_settings) as (Hw & Hmiss & _).
  destruct (Hmiss example_world "s-1" (seconds 10) (seconds 11) Hc) as [Hrow Hget].
  split; [exact Hc|]. split; [|exact Hget].
  rewrite (surjective_pairing (load_session default_settings example_world "s-1" (seconds 10))).
  rewrite Hrow, Hw. vm_compute. reflexivity.
Defined.

(** ** The further properties at concrete inputs *)

Ltac by_computation :=
  first [ vm_compute; reflexivity
        | vm_compute; discriminate
        | discriminate ].

Lemma example_ids_unique : session_ids_unique (db example_world).
Proof. unfold session_ids_unique. simpl. apply NoDup_singleton. Qed.

Lemma cache_round_trip_witness :
  cache_get
    (cache_set default_settings (mkRedis true ∅) "policy:a@example.org"
       (Plain (JObject [("action", JString "accept")])) (Some 60) 0)
    "policy:a@example.org" (seconds 60)
  = Some (JObject [("action", JString "accept")])
  /\ cache_get
       (cache_set default_settings (mkRedis true ∅) "policy:a@example.org"
          (Plain (JObject [("action", JString "accept")])) (Some 60) 0)
       "policy:a@example.org" (seconds 61)
     = None.
Proof.
  split.
  - refine (proj1 (cache_round_trip default_settings (mkRedis true ∅)
                     "policy:a@example.org" (JObject [("action", JString "accept")])
                     (Some 60) 0 (seconds 60) _ _)); by_computation.
  - refine (proj1 (cache_round_trip default_settings (mkRedis true ∅)
                     "policy:a@example.org" (JObject [("action", JString "accept")])
                     (Some 60) 0 (seconds 61) _ _)); by_computation.
Defined.

Lemma cache_miss_is_transparent_witness :
  fst (authenticate_request default_settings example_world "s-1" new_device_request
         (seconds 10))
  = fst (authenticate_request default_settings
           (mkWorld (db example_world) (mkRedis false ∅)) "s-1" new_device_request
           (seconds 10))
  /\ db (snd (authenticate_request default_settings example_world "s-1"
                new_device_request (seconds 10)))
     = db (snd (authenticate_request default_settings
                  (mkWorld (db example_world) (mkRedis false ∅)) "s-1"
                  new_device_request (seconds 10))).
Proof.
  refine (proj1 (cache_miss_is_transparent default_settings example_world
                   (mkWorld (db example_world) (mkRedis false ∅)) _)
            "s-1" new_device_request (seconds 10) _ _); by_computation.
Defined.

Lemma revocation_is_terminal_witness :
  stored (revoke_session example_world example_session (seconds 10)) "s-1"
  = Some (SessionModel.set_revoked_at (Some (seconds 10)) example_session)
  /\ exists s',
       stored
         (run default_settings linux_firefox
            (revoke_session example_world example_session (seconds 10))
            [(Authenticate "s-1" home_request, seconds 20);
             (Refresh "secret-1" home_request "secret-2" "t-2", seconds 30);
             (Create 7 home_request "s-2" "t-3" "secret-3", seconds 40);
             (RevokeAll 7, seconds 50)]) "s-1" = Some s'
       /\ SessionModel.revoked_at s' <> None.
Proof.
  assert (Hs : stored (revoke_session example_world example_session (seconds 10)) "s-1"
               = Some (SessionModel.set_revoked_at (Some (seconds 10)) example_session))
    by by_computation.
  split; [exact Hs|].
  refine (revocation_is_terminal default_settings linux_firefox _ _ "s-1" _ _ Hs _).
  - unfold session_ids_unique. simpl. apply NoDup_singleton.
  - discriminate.
Defined.

Lemma session_creation_fields_fixed_witness :
  stored example_world "s-1" = Some example_session
  /\ exists s',
       stored
         (run default_settings linux_firefox example_world
            [(Authenticate "s-1" new_device_request, seconds 10);
             (Refresh "secret-1" new_client_request "secret-2" "t-2", seconds 20);
             (Revoke "s-1", seconds 30)]) "s-1" = Some s'
       /\ SessionModel.expires_at s' = days 90
       /\ SessionModel.device_id s' = PyStr "device-A".
Proof.
  assert (Hs : stored example_world "s-1" = Some example_session) by by_computation.
  split; [exact Hs|].
  destruct (session_creation_fields_fixed default_settings linux_firefox example_world
              [(Authenticate "s-1" new_device_request, seconds 10);
               (Refresh "secret-1" new_client_request "secret-2" "t-2", seconds 20);
               (Revoke "s-1", seconds 30)] "s-1" example_session
              example_ids_unique Hs)
    as (s' & Hs' & _ & _ & He & Hd & _).
  exists s'. split; [exact Hs'|]. split; [exact He | exact Hd].
Defined.

Lemma parse_user_agent_result_witness :
  String.length (accented 40) = 80%nat
  /\ str_len (accented 40) = 40%nat
  /\ family63 (Some (accented 40)) = PyStr (accented 40)
  /\ family63 (Some (accented 70)) = PyStr (accented 63)
  /\ String.length (accented 63) = 126%nat.
Proof.
  destruct (parse_user_agent_result linux_firefox) as (_ & _ & _ & Hwhole & _).
  split; [reflexivity|]. split; [reflexivity|]. split.
  - apply Hwhole; [discriminate | vm_compute; lia].
  - split; [vm_compute; reflexivity | reflexivity].
Defined.

Lemma authenticate_failures_witness :
  fst (authenticate_request default_settings example_world "s-1" home_request (days 91))
  = Raise SessionExpired
  /\ snd (authenticate_request default_settings example_world "s-1" home_request
            (days 91)) = example_world
  /\ fst (authenticate_request default_settings example_world "s-1" takeover_request
            (seconds 10)) = Raise ReauthRequired
  /\ all_tokens_revoked "s-1"
       (db (snd (authenticate_request default_settings example_world "s-1"
                   takeover_request (seconds 10)))).
Proof.
  assert (H : fst (authenticate_request default_settings example_world "s-1"
                     home_request (days 91)) = Raise SessionExpired)
    by by_computation.
  assert (H' : fst (authenticate_request default_settings example_world "s-1"
                      takeover_request (seconds 10)) = Raise ReauthRequired)
    by by_computation.
  split; [exact H|]. split.
  - apply (proj1 (authenticate_failures default_settings _ _ _ _ _ H)).
    right. left. reflexivity.
  - split; [exact H'|].
    destruct (proj2 (authenticate_failures default_settings _ _ _ _ _ H') eq_refl)
      as (s & s' & _ & _ & _ & Hall & _).
    exact Hall.
Defined.

Lemma refresh_failures_witness :
  fst (refresh_access_token default_settings example_world "not-a-token" home_request
         "secret-2" "t-2" (seconds 10)) = Raise InvalidToken
  /\ snd (refresh_access_token default_settings example_world "not-a-token"
            home_request "secret-2" "t-2" (seconds 10)) = example_world
  /\ fst (refresh_access_token default_settings example_world "secret-1"
            takeover_request "secret-2" "t-2" (seconds 10)) = Raise SuspiciousActivity
  /\ all_tokens_revoked "s-1"
       (db (snd (refresh_access_token default_settings example_world "secret-1"
                   takeover_request "secret-2" "t-2" (seconds 10)))).
Proof.
  assert (H : fst (refresh_access_token default_settings example_world "not-a-token"
                     home_request "secret-2" "t-2" (seconds 10)) = Raise InvalidToken)
    by by_computation.
  assert (H' : fst (refresh_access_token default_settings example_world "secret-1"
                      takeover_request "secret-2" "t-2" (seconds 10))
               = Raise SuspiciousActivity)
    by by_computation.
  split; [exact H|]. split.
  - apply (proj1 (refresh_failures default_settings _ _ _ _ _ _ _ H)).
    left. reflexivity.
  - split; [exact H'|].
    destruct (proj2 (refresh_failures default_settings _ _ _ _ _ _ _ H')
                (or_intror eq_refl))
      as (tr & s & s' & Hf & _ & _ & _ & _ & Hall & _).
    vm_compute in Hf. injection Hf as <-. exact Hall.
Defined.

Lemma revoked_session_is_rejected_witness :
  stored example_world "s-1" = Some example_session
  /\ authenticate_request default_settings
       (revoke_session example_world example_session (seconds 10)) "s-1"
       home_request (seconds 20)
     = (Raise SessionInvalid, revoke_session example_world example_session (seconds 10))
  /\ refresh_access_token default_settings
       (revoke_session example_world example_session (seconds 10)) "secret-1"
       home_request "secret-2" "t-2" (seconds 20)
     = (Raise SessionInvalid, revoke_session example_world example_session (seconds 10)).
Proof.
  assert (Hs : stored example_world (SessionModel.id example_session)
               = Some example_session) by by_computation.
  destruct (revoked_session_is_rejected default_settings example_world example_session
              example_session (seconds 10) Hs) as (A & B & _).
  split; [exact Hs|]. split; [exact (A home_request (seconds 20))|].
  apply (B "secret-1" home_request "secret-2" "t-2" (seconds 20)
           (RefreshToken.set_revoked_at (Some (seconds 10)) example_token));
    by_computation.
Defined.

Lemma create_then_refresh_witness :
  create_session default_settings linux_firefox empty_world 7 home_request
    "s-1" "t-1" "secret-1" 0
  = (Return (example_session, "secret-1"), example_world)
  /\ fst (refresh_access_token default_settings example_world "secret-1" home_request
            "secret-2" "t-2" (days 30))
     = Return (rotated_session example_session home_request (days 30), "secret-2").
Proof.
  assert (H : create_session default_settings linux_firefox empty_world 7 home_request
                "s-1" "t-1" "secret-1" 0
              = (Return (example_session, "secret-1"), example_world))
    by by_computation.
  split; [exact H|].
  pose proof (create_then_refresh default_settings linux_firefox _ _ _ _ _ _ _ _ _ _
                home_request "secret-2" "t-2" (days 30) H) as T.
  specialize (T ltac:(by_computation) ltac:(by_computation) ltac:(by_computation)
                ltac:(by_computation)).
  destruct T as [_ B]. rewrite B. reflexivity.
Defined.

Lemma refresh_then_refresh_witness :
  refresh_access_token default_settings example_world "secret-1" home_request
    "secret-2" "t-2" (seconds 10)
  = (Return (rotated_session example_session home_request (seconds 10), "secret-2"),
     rotated_world default_settings example_world example_session example_token
       home_request "secret-2" "t-2" (seconds 10))
  /\ fst (refresh_access_token default_settings
            (rotated_world default_settings example_world example_session example_token
               home_request "secret-2" "t-2" (seconds 10))
            "secret-2" home_request "secret-3" "t-3" (seconds 20))
     = Return (rotated_session
                 (rotated_session example_session home_request (seconds 10))
                 home_request (seconds 20), "secret-3").
Proof.
  assert (H : refresh_access_token default_settings example_world "secret-1"
                home_request "secret-2" "t-2" (seconds 10)
              = (Return (rotated_session example_session home_request (seconds 10),
                         "secret-2"),
                 rotated_world default_settings example_world example_session
                   example_token home_request "secret-2" "t-2" (seconds 10)))
    by by_computation.
  split; [exact H|].
  pose proof (refresh_then_refresh default_settings _ _ _ _ _ _ _ _ _
                home_request "secret-3" "t-3" (seconds 20) H) as T.
  specialize (T ltac:(by_computation) ltac:(by_computation) ltac:(by_computation)
                ltac:(by_computation)).
  destruct T as [_ B]. rewrite B. reflexivity.
Defined.

Lemma refresh_ignores_session_expiry_witness :
  fst (authenticate_request default_settings
         (run default_settings linux_firefox example_world
            [(Refresh "secret-1" home_request "secret-2" "t-2", days 29);
             (Refresh "secret-2" home_request "secret-3" "t-3", days 58);
             (Refresh "secret-3" home_request "secret-4" "t-4", days 87)])
         "s-1" home_request (days 95))
  = Raise SessionExpired
  /\ exists s',
       fst (refresh_access_token default_settings
              (run default_settings linux_firefox example_world
                 [(Refresh "secret-1" home_request "secret-2" "t-2", days 29);
                  (Refresh "secret-2" home_request "secret-3" "t-3", days 58);
                  (Refresh "secret-3" home_request "secret-4" "t-4", days 87)])
              "secret-4" home_request "secret-5" "t-5" (days 95))
       = Return (s', "secret-5")
       /\ SessionModel.expires_at s' < days 95.
Proof.
  edestruct (refresh_ignores_session_expiry default_settings
               (run default_settings linux_firefox example_world
                  [(Refresh "secret-1" home_request "secret-2" "t-2", days 29);
                   (Refresh "secret-2" home_request "secret-3" "t-3", days 58);
                   (Refresh "secret-3" home_request "secret-4" "t-4", days 87)])
               "secret-4" home_request "secret-5" "t-5" (days 95)) as [A B];
    [by_computation .. | ].
  split.
  - exact (eq_trans (f_equal fst A) eq_refl).
  - eexists. rewrite B. split; by_computation.
Defined.

Lemma calm_session_keeps_score_witness :
  same_context example_session home_request
  /\ exists s',
       stored (run default_settings linux_firefox example_world
                 (map (fun t => (Authenticate "s-1" home_request, t))
                    [seconds 10; seconds 20; days 90])) "s-1" = Some s'
       /\ SessionModel.risk_score s' = 0
       /\ SessionModel.revoked_at s' = None.
Proof.
  assert (Hc : same_context example_session home_request).
  { unfold same_context.
    repeat split; first [left; by_computation | right; by_computation]. }
  assert (Hs : stored example_world "s-1" = Some example_session) by by_computation.
  assert (Hk : SessionModel.risk_score example_session < REAUTH_RISK) by by_computation.
  assert (Hn : no_cache_entry example_world "s-1") by by_computation.
  assert (Ht : Forall (fun t => t <= SessionModel.expires_at example_session)
                 [seconds 10; seconds 20; days 90])
    by (repeat constructor; by_computation).
  split; [exact Hc|].
  exact (proj2 (calm_session_keeps_score default_settings linux_firefox example_world
                  "s-1" example_session home_request
                  [seconds 10; seconds 20; days 90] Hs eq_refl Hk Hc Hn Ht)).
Defined.

Lemma route_context_risk_witness :
  dom takeover_request ⊆ route_keys
  /\ calculate_risk example_session takeover_request = 95
  /\ REAUTH_RISK <= calculate_risk example_session takeover_request.
Proof.
  assert (Hd : dom takeover_request ⊆ route_keys).
  { unfold takeover_request, route_keys. rewrite dom_list_to_map_L. simpl. set_solver. }
  destruct (route_context_risk example_session takeover_request Hd) as (E & _ & Hiff).
  split; [exact Hd|]. split.
  - rewrite E. by_computation.
  - apply Hiff. split; by_computation.
Defined.

Lemma revoke_by_id_effect_witness :
  cache_get (redis example_world) (session_key "s-1") (seconds 10) = None
  /\ revoke_by_id default_settings example_world "s-1" (seconds 10)
     = revoke_session example_world example_session (seconds 10)
  /\ all_tokens_revoked "s-1"
       (db (revoke_by_id default_settings example_world "s-1" (seconds 10))).
Proof.
  assert (Hc : cache_get (redis example_world) (session_key "s-1") (seconds 10) = None)
    by by_computation.
  pose proof (revoke_by_id_effect default_settings example_world "s-1" (seconds 10) Hc)
    as T.
  change (stored example_world "s-1") with (Some example_session) in T.
  destruct T as (A & _ & C & _).
  split; [exact Hc|]. split; [exact A | exact C].
Defined.

